(** * Linear containers of [queues_stacks_arrays.py]

    A shallow embedding of the classes [DynamicArray], [AbstractCollection],
    [LinkedStack] and [LinkedQueue], and the properties stated about them.

    Conventions of the embedding.
    - A Python value held by a container is an [obj]: [None] or an item of
      an arbitrary type [A]. [==] and [!=] between items are what the class
      of the items makes them, [PyEq]; for items such as integers and
      strings they decide whether the two values are the same,
      [leibniz_eq].
    - Counters the code only increments, or decrements behind a guard
      ([_size], [_n], [_capacity]), are [nat]; an integer supplied by the
      caller (an index) is a [Z].
    - A method is a function from the state of [self] to its outcome, a
      result or the exception raised, and the state it leaves behind: [M].
    - A loop without a bound of its own (the loop of [__eq__] over a
      generator) takes a number of turns it may run; the properties say how
      many suffice.
    - The limits of the interpreter (recursion depth, memory) are left out. *)

From Stdlib Require Import ZArith Lia.
From stdpp Require Import base decidable option list strings.

(** ** Exceptions and outcomes *)

Inductive exn : Type :=
  | KeyError (msg : string)
  | AttributeError (msg : string)
  | ValueError (msg : string)
  | IndexError (msg : string)
  | StopIteration
  | SystemError (msg : string).

Inductive res (X : Type) : Type :=
  | Ok (x : X)
  | Raise (e : exn).
Arguments Ok {X} x.
Arguments Raise {X} e.

(** The state-and-exception monad of a method body. *)
Definition M (St X : Type) : Type := St -> res X * St.

Definition ret {St X} (x : X) : M St X := fun s => (Ok x, s).
Definition raise {St X} (e : exn) : M St X := fun s => (Raise e, s).
Definition bind {St X Y} (m : M St X) (k : X -> M St Y) : M St Y :=
  fun s => match m s with
           | (Ok x, s') => k x s'
           | (Raise e, s') => (Raise e, s')
           end.
Definition gets {St X} (f : St -> X) : M St X := fun s => (Ok (f s), s).
Definition modify {St} (f : St -> St) : M St unit := fun s => (Ok tt, f s).
Definition lift {St X} (r : res X) : M St X := fun s => (r, s).

Declare Scope py_scope.
Delimit Scope py_scope with py.
Notation "'let*' x := m 'in' k" := (bind m (fun x => k))
  (at level 10, x name, m at level 100, k at level 200) : py_scope.
Notation "m >> k" := (bind m (fun _ => k))
  (at level 100, k at level 200, right associativity) : py_scope.
Open Scope py_scope.

(** [for x in xs: body x] *)
Fixpoint for_ {St I} (xs : list I) (body : I -> M St unit) : M St unit :=
  match xs with
  | [] => ret tt
  | x :: xs' => body x >> for_ xs' body
  end.

(** [range(a, b)] and [range(a, b, -1)] *)
Definition range (a b : Z) : list Z :=
  map (fun i => (a + Z.of_nat i)%Z) (seq 0 (Z.to_nat (b - a))).
Definition range_down (a b : Z) : list Z :=
  map (fun i => (a - Z.of_nat i)%Z) (seq 0 (Z.to_nat (a - b))).

(** ** Python values *)

Inductive obj (A : Type) : Type :=
  | PyNone
  | PyVal (a : A).
Arguments PyNone {A}.
Arguments PyVal {A} a.

#[global] Instance obj_eq_dec {A} `{EqDecision A} : EqDecision (obj A).
Proof. solve_decision. Defined.

(** [x == y] and [x != y] between two values, as the classes of the values
    define them. Python asks no law of either: [x == x] is [False] and
    [x != x] is [True] for a float NaN, and [!=] is a method of its own.
    A comparison is taken to answer with a truth value, without raising and
    without changing the containers. *)
Class PyEq (A : Type) : Type := {
  py_eq : obj A -> obj A -> bool;
  py_ne : obj A -> obj A -> bool
}.
#[global] Hint Mode PyEq ! : typeclass_instances.

(** Items for which [==] holds exactly between a value and itself, and [!=]
    is its negation: integers, strings, [None]. *)
#[global] Instance leibniz_eq {A} `{EqDecision A} : PyEq A := {|
  py_eq x y := bool_decide (x = y);
  py_ne x y := bool_decide (x <> y)
|}.

(** ** class DynamicArray *)

Module DynamicArray.

(** The bounds of a [Py_ssize_t], the type ctypes converts a subscript to
    (a 64-bit build: [sys.maxsize] is [2 ** 63 - 1]). *)
Definition PY_SSIZE_T_MIN : Z := - 2 ^ 63.
Definition PY_SSIZE_T_MAX : Z := 2 ^ 63 - 1.

Section Defs.

Context {A : Type} `{PyEq A}.

(** A ctypes array of [py_object]: a slot is NULL ([None] here) until it is
    assigned. Subscripting follows ctypes: the subscript is converted to a
    [Py_ssize_t], which raises [IndexError] when it does not fit; a negative
    one is then taken from the end, one outside the array raises
    [IndexError], and reading a NULL slot raises [ValueError]. An array has
    at most [PY_SSIZE_T_MAX] slots, so a subscript that does not fit is
    never one of the array: [index] tells the two errors apart after it
    has looked for the slot, which gives the same outcome
    ([index_converts_first]). *)
Local Abbreviation array := (list (option (obj A))).

Definition index (a : array) (k : Z) : res nat :=
  let k' := if (k <? 0)%Z then (k + Z.of_nat (length a))%Z else k in
  if ((0 <=? k') && (k' <? Z.of_nat (length a)))%Z then Ok (Z.to_nat k')
  else if ((PY_SSIZE_T_MIN <=? k) && (k <=? PY_SSIZE_T_MAX))%Z
       then Raise (IndexError "invalid index")
       else Raise (IndexError "cannot fit 'int' into an index-sized integer").

Definition array_get (a : array) (k : Z) : res (obj A) :=
  match index a k with
  | Raise e => Raise e
  | Ok i =>
      match a !! i with
      | Some (Some v) => Ok v
      | _ => Raise (ValueError "PyObject is NULL")
      end
  end.

Definition array_set (a : array) (k : Z) (v : obj A) : res array :=
  match index a k with
  | Raise e => Raise e
  | Ok i => Ok (<[i := Some v]> a)
  end.

Record t : Type := mk { _n : nat; _capacity : nat; _A : array }.

Definition set_n (n : nat) (self : t) : t :=
  {| _n := n; _capacity := _capacity self; _A := _A self |}.
Definition set_capacity (c : nat) (self : t) : t :=
  {| _n := _n self; _capacity := c; _A := _A self |}.
Definition set_A (a : array) (self : t) : t :=
  {| _n := _n self; _capacity := _capacity self; _A := a |}.

(** [self._A[k]] and [self._A[k] = v] *)
Definition getA (k : Z) : M t (obj A) :=
  fun self => (array_get (_A self) k, self).
Definition setA (k : Z) (v : obj A) : M t unit :=
  fun self => match array_set (_A self) k v with
              | Ok a => (Ok tt, set_A a self)
              | Raise e => (Raise e, self)
              end.

Definition _make_array (c : nat) : array := replicate c None.

Definition __init__ : t :=
  {| _n := 0; _capacity := 1; _A := _make_array 1 |}.

Definition __len__ (self : t) : nat := _n self.

Definition __getitem__ (k : Z) : M t (obj A) :=
  let* n := gets _n in
  if negb ((0 <=? k)%Z && (k <? Z.of_nat n)%Z)
  then raise (IndexError "invalid index")
  else getA k.

(** The loop of [_resize]: [B[k] = self._A[k]] for each [k]; [B] is local. *)
Fixpoint copy_into (a : array) (ks : list Z) (B : array) : res array :=
  match ks with
  | [] => Ok B
  | k :: ks' =>
      match array_get a k with
      | Raise e => Raise e
      | Ok v =>
          match array_set B k v with
          | Raise e => Raise e
          | Ok B' => copy_into a ks' B'
          end
      end
  end.

Definition _resize (c : nat) : M t unit :=
  let B := _make_array c in
  let* n := gets _n in
  let* a := gets _A in
  let* B' := lift (copy_into a (range 0 (Z.of_nat n)) B) in
  modify (set_A B') >>
  modify (set_capacity c).

Definition grow_if_full : M t unit :=
  let* n := gets _n in
  let* c := gets _capacity in
  if Nat.eqb n c then _resize (2 * c) else ret tt.

Definition append (o : obj A) : M t unit :=
  grow_if_full >>
  let* n := gets _n in
  setA (Z.of_nat n) o >>
  modify (fun self => set_n (_n self + 1) self).

Definition insert (k : Z) (value : obj A) : M t unit :=
  grow_if_full >>
  let* n := gets _n in
  for_ (range_down (Z.of_nat n) k)
       (fun j => let* x := getA (j - 1) in setA j x) >>
  setA k value >>
  modify (fun self => set_n (_n self + 1) self).

(** The body run by [remove] once [self._A[k] == value] holds. *)
Definition remove_at (k : Z) : M t unit :=
  let* n := gets _n in
  for_ (range k (Z.of_nat n - 1))
       (fun j => let* x := getA (j + 1) in setA j x) >>
  let* n := gets _n in
  setA (Z.of_nat n - 1) PyNone >>
  modify (fun self => set_n (_n self - 1) self).

Fixpoint remove_scan (value : obj A) (ks : list Z) : M t unit :=
  match ks with
  | [] => raise (ValueError "value not found")
  | k :: ks' =>
      let* x := getA k in
      if py_eq x value then remove_at k else remove_scan value ks'
  end.

Definition remove (value : obj A) : M t unit :=
  let* n := gets _n in
  remove_scan value (range 0 (Z.of_nat n)).

End Defs.

Arguments t : clear implicits.

End DynamicArray.

(** ** class AbstractCollection *)

Module AbstractCollection.

Inductive kind : Type := LinkedStack | LinkedQueue.

#[global] Instance kind_eq_dec : EqDecision kind.
Proof. solve_decision. Defined.

(** A Python iterator: a state and the step [next], which yields an item and
    the advanced state, or raises ([StopIteration] at the end). *)
Record iterator (A : Type) : Type := mkIter {
  it_state : Type;
  it_start : it_state;
  it_next : it_state -> res (obj A * it_state)
}.
Arguments mkIter {A it_state} it_start it_next.
Arguments it_state {A} i.
Arguments it_start {A} i.
Arguments it_next {A} i st.

Definition list_iterator {A} (l : list (obj A)) : iterator A :=
  mkIter l (fun st => match st with
                     | [] => Raise StopIteration
                     | x :: st' => Ok (x, st')
                     end).

(** What [if sourceCollection:] and [for item in sourceCollection] see of
    the argument of a constructor. *)
Record source (A : Type) : Type := mkSource {
  truth : bool;
  items : list (obj A)
}.
Arguments mkSource {A} truth items.
Arguments truth {A} s.
Arguments items {A} s.

Definition of_list {A} (l : list (obj A)) : source A :=
  mkSource (match l with [] => false | _ => true end) l.

(** The interface the concrete classes fill in: the [_size] attribute every
    instance carries, the class of the instance, and the abstract methods
    [add] and [__iter__]. *)
Class Sized (C : Type) : Type := {
  get_size : C -> nat;
  set_size : nat -> C -> C
}.

Class Collection (A : Type) (C : Type) `{Sized C} : Type := {
  type_ : kind;
  add : obj A -> M C unit;
  __iter__ : C -> iterator A
}.

Section Defs.

Context {A : Type} `{PyEq A}.

Definition __init__ {C} `{Collection A C}
    (sourceCollection : option (source A)) : M C unit :=
  modify (set_size 0) >>
  match sourceCollection with
  | None => ret tt
  | Some src => if truth src then for_ (items src) add else ret tt
  end.

Definition __len__ {C} `{Sized C} (self : C) : nat := get_size self.

Definition isEmpty {C} `{Sized C} (self : C) : bool :=
  Nat.eqb (__len__ self) 0.

(** The loop of [__eq__]: [for item in self: if item != next(otherIter):
    return False], then [return True]. [fuel] bounds the number of items
    drawn from [self]; [None] means the bound was reached. *)
Fixpoint eq_loop {X Y : Type}
    (nx : X -> res (obj A * X)) (ny : Y -> res (obj A * Y))
    (fuel : nat) (x : X) (y : Y) : option (res bool) :=
  match fuel with
  | O => None
  | S fuel' =>
      match nx x with
      | Raise StopIteration => Some (Ok true)
      | Raise e => Some (Raise e)
      | Ok (item, x') =>
          match ny y with
          | Raise e => Some (Raise e)
          | Ok (o, y') =>
              if py_ne item o then Some (Ok false)
              else eq_loop nx ny fuel' x' y'
          end
      end
  end.

(** [same_object] is the outcome of [self is other]. *)
Definition __eq__ {C D} `{Collection A C} `{Collection A D}
    (fuel : nat) (same_object : bool) (self : C) (other : D)
    : option (res bool) :=
  if same_object then Some (Ok true)
  else if bool_decide (type_ (C := C) <> type_ (C := D))
          || negb (Nat.eqb (__len__ self) (__len__ other))
       then Some (Ok false)
       else let otherIter := __iter__ other in
            let selfIter := __iter__ self in
            eq_loop (it_next selfIter) (it_next otherIter) fuel
                    (it_start selfIter) (it_start otherIter).

(** [list(it)]: every item the iterator yields, drawing at most [fuel]. *)
Fixpoint drain {X : Type} (nx : X -> res (obj A * X))
    (fuel : nat) (x : X) : option (res (list (obj A))) :=
  match fuel with
  | O => None
  | S fuel' =>
      match nx x with
      | Raise StopIteration => Some (Ok [])
      | Raise e => Some (Raise e)
      | Ok (item, x') =>
          match drain nx fuel' x' with
          | Some (Ok l) => Some (Ok (item :: l))
          | r => r
          end
      end
  end.

Definition to_list (fuel : nat) (it : iterator A)
    : option (res (list (obj A))) :=
  drain (it_next it) fuel (it_start it).

End Defs.

End AbstractCollection.

(** ** class Node, class LinkedStack(AbstractStack)

    [Node(data, next)]. A [LinkedStack] never assigns to a node once it is
    built and never compares nodes by identity, so its chain is an immutable
    value. (The nodes of a [LinkedQueue] are mutated through two references;
    they live in a store, see below.) *)

Module LinkedStack.

Section Defs.

Context {A : Type} `{EqDecision A}.

#[warnings="-register-all"]
Inductive Node : Type :=
  | mkNode (data : obj A) (next : option Node).

Definition data (n : Node) : obj A := match n with mkNode d _ => d end.
Definition next (n : Node) : option Node :=
  match n with mkNode _ nx => nx end.

Record t : Type := mk { _items : option Node; _size : nat }.

Definition set_items (r : option Node) (self : t) : t :=
  {| _items := r; _size := _size self |}.
Definition set_size (n : nat) (self : t) : t :=
  {| _items := _items self; _size := n |}.

(** The local function [visitNodes] of [__iter__]; the list [tempList] it
    appends to is threaded through. *)
Fixpoint visitNode (node : Node) (tempList : list (obj A)) : list (obj A) :=
  match node with
  | mkNode d nx =>
      match nx with
      | None => tempList
      | Some n => visitNode n tempList
      end ++ [d]
  end.
Definition visitNodes (node : option Node) (tempList : list (obj A))
    : list (obj A) :=
  match node with
  | None => tempList
  | Some n => visitNode n tempList
  end.

(** [__iter__]: an iterator over the items from bottom to top. *)
Definition __iter__ (self : t) : AbstractCollection.iterator A :=
  AbstractCollection.list_iterator (visitNodes (_items self) []).

Definition push (item : obj A) : M t unit :=
  modify (fun self => set_items (Some (mkNode item (_items self))) self) >>
  modify (fun self => set_size (_size self + 1) self).

(** [AbstractStack.add] *)
Definition add (item : obj A) : M t unit := push item.

#[global] Instance sized : AbstractCollection.Sized t := {|
  AbstractCollection.get_size := _size;
  AbstractCollection.set_size := set_size
|}.

#[global] Instance collection : AbstractCollection.Collection A t := {|
  AbstractCollection.type_ := AbstractCollection.LinkedStack;
  AbstractCollection.add := add;
  AbstractCollection.__iter__ := __iter__
|}.

(** [self._items.data] and [self._items.next] *)
Definition attr {X} (name : string) (f : Node -> X) (r : option Node)
    : M t X :=
  match r with
  | None => raise (AttributeError
                     ("'NoneType' object has no attribute '" +:+ name +:+ "'"))
  | Some n => ret (f n)
  end.

Definition peek : M t (obj A) :=
  let* empty := gets AbstractCollection.isEmpty in
  if empty then raise (KeyError "The stack is empty.")
  else let* top := gets _items in attr "data" data top.

Definition clear : M t unit :=
  modify (set_size 0) >>
  modify (set_items None).

Definition pop : M t (obj A) :=
  let* empty := gets AbstractCollection.isEmpty in
  if empty then raise (KeyError "The stack is empty.")
  else
    let* top := gets _items in
    let* oldItem := attr "data" data top in
    let* top := gets _items in
    let* nx := attr "next" next top in
    modify (set_items nx) >>
    modify (fun self => set_size (_size self - 1) self) >>
    ret oldItem.

(** [LinkedStack(sourceCollection)]: the new object gets [_items = None],
    then [AbstractStack.__init__] and [AbstractCollection.__init__] run.
    The outcome is that of the constructor call; the state is the new
    stack. *)
Definition __init__ (sourceCollection : option (AbstractCollection.source A))
    : res unit * t :=
  AbstractCollection.__init__ sourceCollection {| _items := None; _size := 0 |}.

(** A stack passed as the [sourceCollection] of a constructor: its truth
    value is that of [len(self) != 0]. *)
Definition as_source (self : t) : AbstractCollection.source A :=
  AbstractCollection.mkSource
    (negb (Nat.eqb (AbstractCollection.__len__ self) 0))
    (visitNodes (_items self) []).

End Defs.

Arguments t : clear implicits.
Arguments Node : clear implicits.

End LinkedStack.

(** ** class LinkedQueue(AbstractCollection)

    The nodes of a queue are reached through [_front], [_rear] and the
    [next] fields, and [add] and [remove] assign to [next]: the nodes live
    in a store, a reference is an address in it, and a new node takes the
    next free address. A queue never hands out its nodes, so each queue has
    its store to itself. *)

Module LinkedQueue.

Section Defs.

Context {A : Type} `{EqDecision A}.

Definition loc : Type := nat.

Record Node : Type := mkNode { data : obj A; next : option loc }.

Record t : Type := mk {
  store : list Node;
  _front : option loc;
  _rear : option loc;
  _size : nat
}.

Definition set_store (h : list Node) (self : t) : t :=
  {| store := h; _front := _front self; _rear := _rear self;
     _size := _size self |}.
Definition set_front (r : option loc) (self : t) : t :=
  {| store := store self; _front := r; _rear := _rear self;
     _size := _size self |}.
Definition set_rear (r : option loc) (self : t) : t :=
  {| store := store self; _front := _front self; _rear := r;
     _size := _size self |}.
Definition set_size (n : nat) (self : t) : t :=
  {| store := store self; _front := _front self; _rear := _rear self;
     _size := n |}.

(** [Node(data, next)]: the new node's reference. *)
Definition new_node (d : obj A) (nx : option loc) : M t loc :=
  fun self => (Ok (length (store self)),
               set_store (store self ++ [mkNode d nx]) self).

(** [r.name], where [r] is [None] or a node. A reference outside the store
    has no counterpart in Python; it is reported as a [SystemError]. *)
Definition attr {X} (name : string) (f : Node -> X) (r : option loc)
    : M t X :=
  match r with
  | None => raise (AttributeError
                     ("'NoneType' object has no attribute '" +:+ name +:+ "'"))
  | Some p =>
      let* h := gets store in
      match h !! p with
      | Some n => ret (f n)
      | None => raise (SystemError "dangling reference")
      end
  end.

(** [r.next = nx] *)
Definition set_next (r : option loc) (nx : option loc) : M t unit :=
  match r with
  | None => raise (AttributeError
                     "'NoneType' object has no attribute 'next'")
  | Some p =>
      let* h := gets store in
      match h !! p with
      | Some n => modify (set_store (<[p := mkNode (data n) nx]> h))
      | None => raise (SystemError "dangling reference")
      end
  end.

(** [__iter__]: the generator walking the chain from [_front]. *)
Definition gen_next (h : list Node) (cursor : option loc)
    : res (obj A * option loc) :=
  match cursor with
  | None => Raise StopIteration
  | Some p =>
      match h !! p with
      | Some n => Ok (data n, next n)
      | None => Raise (SystemError "dangling reference")
      end
  end.

Definition __iter__ (self : t) : AbstractCollection.iterator A :=
  AbstractCollection.mkIter (_front self) (gen_next (store self)).

#[global] Instance sized : AbstractCollection.Sized t := {|
  AbstractCollection.get_size := _size;
  AbstractCollection.set_size := set_size
|}.

Definition add (item : obj A) : M t unit :=
  let* newNode := new_node item None in
  let* empty := gets AbstractCollection.isEmpty in
  (if empty then modify (set_front (Some newNode))
   else let* rear := gets _rear in set_next rear (Some newNode)) >>
  modify (set_rear (Some newNode)) >>
  modify (fun self => set_size (_size self + 1) self).

#[global] Instance collection : AbstractCollection.Collection A t := {|
  AbstractCollection.type_ := AbstractCollection.LinkedQueue;
  AbstractCollection.add := add;
  AbstractCollection.__iter__ := __iter__
|}.

Definition peek : M t (obj A) :=
  let* empty := gets AbstractCollection.isEmpty in
  if empty then raise (KeyError "The queue is empty.")
  else let* front := gets _front in attr "data" data front.

Definition clear : M t unit :=
  modify (set_size 0) >>
  modify (set_front None) >>
  modify (set_rear None).

Definition pop : M t (obj A) :=
  let* empty := gets AbstractCollection.isEmpty in
  if empty then raise (KeyError "The queue is empty.")
  else
    let* front := gets _front in
    let* oldItem := attr "data" data front in
    let* front := gets _front in
    let* nx := attr "next" next front in
    modify (set_front nx) >>
    let* front := gets _front in
    (if front is None then modify (set_rear None) else ret tt) >>
    modify (fun self => set_size (_size self - 1) self) >>
    ret oldItem.

(** [while index > 1: probe = probe.next; index -= 1], as the number of
    turns the loop takes. *)
Fixpoint walk (turns : nat) (probe : option loc) : M t (option loc) :=
  match turns with
  | O => ret probe
  | S turns' => let* nx := attr "next" next probe in walk turns' nx
  end.

Definition remove (index : Z) : M t (obj A) :=
  let* size := gets _size in
  if ((index <? 0) || (index >=? Z.of_nat size))%Z
  then raise (AttributeError "i must be >= 0 and < size of queue")
  else
    let* oldItem :=
      if (index =? 0)%Z then
        let* front := gets _front in
        let* oldItem := attr "data" data front in
        let* front := gets _front in
        let* nx := attr "next" next front in
        modify (set_front nx) >>
        ret oldItem
      else
        let* front := gets _front in
        let* probe := walk (Z.to_nat (index - 1)) front in
        let* target := attr "next" next probe in
        let* oldItem := attr "data" data target in
        let* target := attr "next" next probe in
        let* after := attr "next" next target in
        set_next probe after >>
        ret oldItem
    in
    modify (fun self => set_size (_size self - 1) self) >>
    let* empty := gets AbstractCollection.isEmpty in
    (if empty then modify (set_rear None) else ret tt) >>
    ret oldItem.

(** [LinkedQueue(sourceCollection)] *)
Definition __init__ (sourceCollection : option (AbstractCollection.source A))
    : res unit * t :=
  AbstractCollection.__init__ sourceCollection
    {| store := []; _front := None; _rear := None; _size := 0 |}.

End Defs.

Arguments t : clear implicits.
Arguments Node : clear implicits.

End LinkedQueue.


(** * The remaining classes: Array, Array2D, Stack *)

(** ** Outcomes of code that uses [assert] and [len]

    [Array], [Array2D] and [Stack] check their arguments with [assert];
    besides the exceptions above their methods can raise [AssertionError],
    and [len] of [None] is a [TypeError]. An [assert] is taken as executed,
    as Python does unless it runs with [-O]. *)

Inductive error : Type :=
  | AssertionError (msg : string)
  | TypeError (msg : string)
  | Builtin (e : exn).

Inductive result (X : Type) : Type :=
  | Returns (x : X)
  | Raises (e : error).
Arguments Returns {X} x.
Arguments Raises {X} e.

Definition of_res {X} (r : res X) : result X :=
  match r with Ok x => Returns x | Raise e => Raises (Builtin e) end.

(** A method as a function from the state of [self] to its outcome and the
    state it leaves behind. *)
Definition N (St X : Type) : Type := St -> result X * St.

Definition retN {St X} (x : X) : N St X := fun s => (Returns x, s).
Definition raiseN {St X} (e : error) : N St X := fun s => (Raises e, s).
Definition bindN {St X Y} (m : N St X) (k : X -> N St Y) : N St Y :=
  fun s => match m s with
           | (Returns x, s') => k x s'
           | (Raises e, s') => (Raises e, s')
           end.
Definition liftN {St X} (m : M St X) : N St X :=
  fun s => (of_res (fst (m s)), snd (m s)).

(** [assert cond, msg] *)
Definition assert_ {St} (cond : bool) (msg : string) : N St unit :=
  if cond then retN tt else raiseN (AssertionError msg).

Notation "'let+' x := m 'in' k" := (bindN m (fun x => k))
  (at level 10, x name, m at level 100, k at level 200) : py_scope.
Notation "m >>+ k" := (bindN m (fun _ => k))
  (at level 100, k at level 200, right associativity) : py_scope.

Fixpoint forN {St I} (xs : list I) (body : I -> N St unit) : N St unit :=
  match xs with
  | [] => retN tt
  | x :: xs' => body x >>+ forN xs' body
  end.

(** ** class Array, class _ArrayIterator *)

Module Array.

Section Defs.

(** [B] is the type of the items other than [None] the array holds; the
    slots are those of a ctypes array of [py_object], as in
    [DynamicArray]. *)
Context {B : Type}.

Record t : Type := mk { _size : nat; _elements : list (option (obj B)) }.

Definition set_elements (e : list (option (obj B))) (self : t) : t :=
  {| _size := _size self; _elements := e |}.

Definition __len__ (self : t) : nat := _size self.

(** [self._elements[i]] and [self._elements[i] = v] *)
Definition get_element (i : Z) : M t (obj B) :=
  fun self => (DynamicArray.array_get (_elements self) i, self).
Definition set_element (i : Z) (v : obj B) : M t unit :=
  fun self => match DynamicArray.array_set (_elements self) i v with
              | Ok e => (Ok tt, set_elements e self)
              | Raise x => (Raise x, self)
              end.

Definition clear (value : obj B) : M t unit :=
  let* n := gets __len__ in
  for_ (range 0 (Z.of_nat n)) (fun i => set_element i value).

(** [Array(size)]: the outcome of the constructor call, with the new
    object when it returns. *)
Definition __init__ (size : Z) : result t :=
  if (size >? 0)%Z then
    let self := {| _size := Z.to_nat size;
                   _elements := replicate (Z.to_nat size) None |} in
    match clear PyNone self with
    | (Ok _, self') => Returns self'
    | (Raise e, _) => Raises (Builtin e)
    end
  else Raises (AssertionError "Array size must be > 0").

Definition in_range (index : Z) (self : t) : bool :=
  ((index >=? 0) && (index <? Z.of_nat (__len__ self)))%Z.

Definition __getitem__ (index : Z) : N t (obj B) :=
  fun self =>
    (assert_ (in_range index self) "Array subscript out of range" >>+
     liftN (get_element index)) self.

Definition __setitem__ (index : Z) (value : obj B) : N t unit :=
  fun self =>
    (assert_ (in_range index self) "Array subscript out of range" >>+
     liftN (set_element index value)) self.

(** [_ArrayIterator]: the iterator keeps a reference to the ctypes array of
    the [Array], so [__next__] reads the array as it is at the time of the
    call; its own state is [_cur_index]. *)
Definition __next__ (the_array : list (option (obj B))) : M nat (obj B) :=
  fun _cur_index =>
    if Nat.ltb _cur_index (length the_array) then
      match DynamicArray.array_get the_array (Z.of_nat _cur_index) with
      | Ok entry => (Ok entry, _cur_index + 1)
      | Raise e => (Raise e, _cur_index)
      end
    else (Raise StopIteration, _cur_index).

(** [__iter__]: the [_cur_index] of the new iterator; its [_array_ref] is
    the array of [self]. *)
Definition __iter__ (self : t) : nat := 0.

End Defs.

Arguments t : clear implicits.

End Array.

(** ** class Array2D

    The rows are [Array] objects held by the [Array] [rows]. Each row is
    created by the constructor and referred to from its slot only, so a
    method that changes a row through that reference is modelled as
    changing the row in its slot. *)

Module Array2D.

Section Defs.

Context {B : Type}.

Record t : Type := mk { rows : Array.t (Array.t B) }.

(** A method of the [Array] [rows], run on the [rows] of [self]. *)
Definition on_rows {X} (m : N (Array.t (Array.t B)) X) : N t X :=
  fun self => let (r, rows') := m (rows self) in (r, mk rows').

(** [len(x)] and [x.clear(value)], [x[col]], [x[col] = value] for what a
    slot of [rows] holds: a row, or [None]. *)
Definition len_ {St} (x : obj (Array.t B)) : N St nat :=
  match x with
  | PyVal row => retN (Array.__len__ row)
  | PyNone => raiseN (TypeError "object of type 'NoneType' has no len()")
  end.

Definition none_has_no {St X} (name : string) : N St X :=
  raiseN (Builtin (AttributeError
                     ("'NoneType' object has no attribute '" +:+ name +:+ "'"))).

Definition none_not_subscriptable {St X} : N St X :=
  raiseN (TypeError "'NoneType' object is not subscriptable").

(** The loop of the constructor: [self.rows[i] = Array(num_cols)]. *)
Fixpoint fill_rows (ks : list Z) (num_cols : Z) : N t unit :=
  match ks with
  | [] => retN tt
  | i :: ks' =>
      match Array.__init__ num_cols with
      | Raises e => raiseN e
      | Returns row =>
          on_rows (Array.__setitem__ i (PyVal row)) >>+
          fill_rows ks' num_cols
      end
  end.

(** [Array2D(num_rows, num_cols)] *)
Definition __init__ (num_rows num_cols : Z) : result t :=
  match Array.__init__ num_rows with
  | Raises e => Raises e
  | Returns r =>
      match fill_rows (range 0 num_rows) num_cols (mk r) with
      | (Returns _, self) => Returns self
      | (Raises e, _) => Raises e
      end
  end.

Definition num_rows : N t nat :=
  fun self => (Returns (Array.__len__ (rows self)), self).

Definition num_cols : N t nat :=
  let+ row0 := on_rows (Array.__getitem__ 0) in
  len_ row0.

(** [for row in self.rows: row.clear(value)]: the iterator of [rows] hands
    out each slot in turn. *)
Definition clear_row (value : obj B) (i : Z) : N t unit :=
  let+ x := on_rows (liftN (Array.get_element i)) in
  match x with
  | PyNone => none_has_no "clear"
  | PyVal row =>
      match Array.clear value row with
      | (Ok _, row') => on_rows (liftN (Array.set_element i (PyVal row')))
      | (Raise e, row') =>
          on_rows (liftN (Array.set_element i (PyVal row'))) >>+
          raiseN (Builtin e)
      end
  end.

Definition clear (value : obj B) : N t unit :=
  fun self =>
    forN (range 0 (Z.of_nat (length (Array._elements (rows self)))))
         (clear_row value) self.

(** [assert row >= 0 and row < self.num_rows() and col >= 0 and col <
    self.num_cols()], the conjunction evaluated from left to right. *)
Definition check_subscript (row col : Z) : N t unit :=
  let+ ok :=
    if (row >=? 0)%Z then
      let+ nr := num_rows in
      if (row <? Z.of_nat nr)%Z then
        if (col >=? 0)%Z then
          let+ nc := num_cols in retN (col <? Z.of_nat nc)%Z
        else retN false
      else retN false
    else retN false
  in
  assert_ ok "Array subscript out of range.".

(** [index_tuple] is a tuple of integers; [assert len(index_tuple) == 2]
    passes for a pair only. *)
Definition __getitem__ (index_tuple : list Z) : N t (obj B) :=
  match index_tuple with
  | [row; col] =>
      check_subscript row col >>+
      let+ array_1d := on_rows (Array.__getitem__ row) in
      match array_1d with
      | PyNone => none_not_subscriptable
      | PyVal r => fun self => (fst (Array.__getitem__ col r), self)
      end
  | _ => raiseN (AssertionError "Invalid number of array subscripts.")
  end.

Definition __setitem__ (index_tuple : list Z) (value : obj B) : N t unit :=
  match index_tuple with
  | [row; col] =>
      check_subscript row col >>+
      let+ array_1d := on_rows (Array.__getitem__ row) in
      match array_1d with
      | PyNone =>
          raiseN (TypeError
                    "'NoneType' object does not support item assignment")
      | PyVal r =>
          let (res, r') := Array.__setitem__ col value r in
          on_rows (liftN (Array.set_element row (PyVal r'))) >>+
          (fun self => (res, self))
      end
  | _ => raiseN (AssertionError "Invalid number of array subscripts.")
  end.

End Defs.

Arguments t : clear implicits.

End Array2D.

(** ** class Stack, class _StackNode

    The nodes are never assigned to once built. [_size] is decremented
    behind a test of [_top], not of [_size]: it is a [Z]. *)

Module Stack.

Section Defs.

Context {A : Type}.

#[warnings="-register-all"]
Inductive _StackNode : Type :=
  | mkNode (item : obj A) (next : option _StackNode).

Definition item (n : _StackNode) : obj A := match n with mkNode i _ => i end.
Definition next (n : _StackNode) : option _StackNode :=
  match n with mkNode _ nx => nx end.

Record t : Type := mk { _top : option _StackNode; _size : Z }.

Definition __init__ : t := {| _top := None; _size := 0 |}.

Definition is_empty (self : t) : bool :=
  match _top self with None => true | Some _ => false end.

Definition __len__ (self : t) : Z := _size self.

Definition peek : N t (obj A) :=
  fun self =>
    (assert_ (negb (is_empty self)) "Cannot peek at an empty stack" >>+
     match _top self with
     | Some n => retN (item n)
     | None => raiseN (Builtin (AttributeError
                 "'NoneType' object has no attribute 'item'"))
     end) self.

Definition pop : N t (obj A) :=
  fun self =>
    (assert_ (negb (is_empty self)) "Cannot pop from an empty stack" >>+
     match _top self with
     | Some node =>
         fun self => (Returns (item node),
                      {| _top := next node; _size := (_size self - 1)%Z |})
     | None => raiseN (Builtin (AttributeError
                 "'NoneType' object has no attribute 'next'"))
     end) self.

Definition push (x : obj A) : N t unit :=
  fun self => (Returns tt,
               {| _top := Some (mkNode x (_top self));
                  _size := (_size self + 1)%Z |}).

End Defs.

Arguments t : clear implicits.
Arguments _StackNode : clear implicits.

End Stack.
(** * Vocabulary of the properties *)

(** [m] run [n] times in a row, collecting what each run returns. *)
Fixpoint repeat_ {St X} (n : nat) (m : M St X) : M St (list X) :=
  match n with
  | O => ret []
  | S n' => let* x := m in let* xs := repeat_ n' m in ret (x :: xs)
  end.

(** The state a method leaves behind and what it returns. *)
Definition state_after {St X} (m : M St X) (s : St) : St := snd (m s).
Definition outcome {St X} (m : M St X) (s : St) : res X := fst (m s).

(** The error the specification calls [EmptyCollection] is a [KeyError]. *)
Definition is_EmptyCollection {X} (r : res X) : bool :=
  match r with Raise (KeyError _) => true | _ => false end.

Definition raises {X} (r : res X) : bool :=
  match r with Raise _ => true | Ok _ => false end.

Section DynamicArrayVocabulary.

Context {A : Type} `{PyEq A}.

(** The public operations of a [DynamicArray]. *)
Inductive da_op : Type :=
  | DAppend (o : obj A)
  | DInsert (k : Z) (value : obj A)
  | DRemove (value : obj A)
  | DGetItem (k : Z)
  | DLen.

Definition da_run (o : da_op) : M (DynamicArray.t A) unit :=
  match o with
  | DAppend v => DynamicArray.append v
  | DInsert k v => DynamicArray.insert k v
  | DRemove v => DynamicArray.remove v
  | DGetItem k => DynamicArray.__getitem__ k >> ret tt
  | DLen => ret tt
  end.

(** [insert] is documented to assume [0 <= k <= n]. *)
Definition da_allowed (o : da_op) (s : DynamicArray.t A) : Prop :=
  match o with
  | DInsert k _ => (0 <= k <= Z.of_nat (DynamicArray._n s))%Z
  | _ => True
  end.

(** The states of a [DynamicArray] object: that of a new array, and the one
    any public operation leaves behind, whether it returns or raises. *)
Inductive da_reachable : DynamicArray.t A -> Prop :=
  | da_reach_init : da_reachable DynamicArray.__init__
  | da_reach_step s o :
      da_reachable s -> da_allowed o s ->
      da_reachable (state_after (da_run o) s).

(** The array holds the items [l] in its first [_n] slots. *)
Definition da_rep (s : DynamicArray.t A) (l : list (obj A)) : Prop :=
  DynamicArray._n s = length l /\
  DynamicArray._capacity s = length (DynamicArray._A s) /\
  1 <= DynamicArray._capacity s /\
  take (length l) (DynamicArray._A s) = Some <$> l.

(** The items of the array, as [self[0]], ..., [self[n-1]] return them. *)
Definition da_items (s : DynamicArray.t A) : list (res (obj A)) :=
  map (fun k => outcome (DynamicArray.__getitem__ k) s)
      (range 0 (Z.of_nat (DynamicArray.__len__ s))).

End DynamicArrayVocabulary.

Section LinkedStackVocabulary.

Context {A : Type} `{EqDecision A}.

Inductive stack_op : Type :=
  | SPush (item : obj A)
  | SAdd (item : obj A)
  | SPop
  | SPeek
  | SClear.

Definition stack_run (o : stack_op) : M (LinkedStack.t A) unit :=
  match o with
  | SPush v => LinkedStack.push v
  | SAdd v => LinkedStack.add v
  | SPop => LinkedStack.pop >> ret tt
  | SPeek => LinkedStack.peek >> ret tt
  | SClear => LinkedStack.clear
  end.

(** The states of a [LinkedStack] object: built by the constructor from any
    source, then changed by any of its methods. *)
Inductive stack_reachable : LinkedStack.t A -> Prop :=
  | stack_reach_new src :
      stack_reachable (snd (LinkedStack.__init__ src))
  | stack_reach_step s o :
      stack_reachable s -> stack_reachable (state_after (stack_run o) s).

(** The chain of nodes below a reference, top first. *)
Fixpoint node_items (n : LinkedStack.Node A) : list (obj A) :=
  match n with
  | LinkedStack.mkNode d nx =>
      d :: match nx with None => [] | Some n' => node_items n' end
  end.
Definition chain_items (r : option (LinkedStack.Node A)) : list (obj A) :=
  match r with None => [] | Some n => node_items n end.

End LinkedStackVocabulary.

Section LinkedQueueVocabulary.

Context {A : Type} `{EqDecision A}.

Inductive queue_op : Type :=
  | QAdd (item : obj A)
  | QPop
  | QPeek
  | QRemove (index : Z)
  | QClear.

Definition queue_run (o : queue_op) : M (LinkedQueue.t A) unit :=
  match o with
  | QAdd v => LinkedQueue.add v
  | QPop => LinkedQueue.pop >> ret tt
  | QPeek => LinkedQueue.peek >> ret tt
  | QRemove i => LinkedQueue.remove i >> ret tt
  | QClear => LinkedQueue.clear
  end.

Inductive queue_reachable : LinkedQueue.t A -> Prop :=
  | queue_reach_new src :
      queue_reachable (snd (LinkedQueue.__init__ src))
  | queue_reach_step s o :
      queue_reachable s -> queue_reachable (state_after (queue_run o) s).

(** [chain h r cells]: following [next] from the reference [r] in the store
    [h] visits exactly the nodes [cells] (address and data), then [None]. *)
Fixpoint chain (h : list (LinkedQueue.Node A)) (r : option LinkedQueue.loc)
    (cells : list (LinkedQueue.loc * obj A)) : Prop :=
  match cells with
  | [] => r = None
  | (p, v) :: rest =>
      r = Some p /\
      exists nx, h !! p = Some (LinkedQueue.mkNode v nx) /\ chain h nx rest
  end.

(** The queue is the chain [cells] from [_front], [_rear] is its last node
    and [_size] its length. *)
Definition queue_rep (q : LinkedQueue.t A)
    (cells : list (LinkedQueue.loc * obj A)) : Prop :=
  chain (LinkedQueue.store q) (LinkedQueue._front q) cells /\
  NoDup cells.*1 /\
  LinkedQueue._rear q = last cells.*1 /\
  LinkedQueue._size q = length cells.

(** The last node met when following [next] from [r], within [fuel] steps:
    [Some None] for an empty chain, [None] when [fuel] does not suffice. *)
Fixpoint last_node (h : list (LinkedQueue.Node A)) (fuel : nat)
    (r : option LinkedQueue.loc) : option (option LinkedQueue.loc) :=
  match fuel with
  | O => None
  | S fuel' =>
      match r with
      | None => Some None
      | Some p =>
          match h !! p with
          | None => None
          | Some n =>
              match LinkedQueue.next n with
              | None => Some (Some p)
              | Some p' => last_node h fuel' (Some p')
              end
          end
      end
  end.

End LinkedQueueVocabulary.

Section IterationVocabulary.

Context {A : Type} `{PyEq A}.

(** The iterator steps through exactly the items [l], then stops. *)
Fixpoint enumerates {X : Type} (nx : X -> res (obj A * X)) (x : X)
    (l : list (obj A)) : Prop :=
  match l with
  | [] => nx x = Raise StopIteration
  | v :: l' => exists x', nx x = Ok (v, x') /\ enumerates nx x' l'
  end.

(** What the loop of [__eq__] computes from the two item sequences. *)
Fixpoint eq_lists (l1 l2 : list (obj A)) : res bool :=
  match l1, l2 with
  | [], _ => Ok true
  | _ :: _, [] => Raise StopIteration
  | x :: l1', y :: l2' =>
      if py_ne x y then Ok false else eq_lists l1' l2'
  end.

End IterationVocabulary.

Section LinkedStackInvariant.

Context {A : Type} `{EqDecision A}.

(** The size counter mirrors the length of the chain. *)
Definition stack_wf (s : LinkedStack.t A) : Prop :=
  LinkedStack._size s = length (chain_items (LinkedStack._items s)).

End LinkedStackInvariant.

(** ** Sample objects *)

Definition stack_123 : LinkedStack.t Z :=
  snd (LinkedStack.__init__
         (Some (AbstractCollection.of_list [PyVal 1%Z; PyVal 2%Z; PyVal 3%Z]))).

Definition da_123 : DynamicArray.t Z :=
  state_after (DynamicArray.append (PyVal 3%Z))
    (state_after (DynamicArray.append (PyVal 2%Z))
       (state_after (DynamicArray.append (PyVal 1%Z)) DynamicArray.__init__)).

(** A queue after [add(1); add(2)], the same queue after [remove(1)], and
    after a further [add(3)]. *)
Definition queue_12 : LinkedQueue.t Z :=
  state_after (LinkedQueue.add (PyVal 2%Z))
    (state_after (LinkedQueue.add (PyVal 1%Z))
       (snd (LinkedQueue.__init__ None))).

Definition queue_12_removed : LinkedQueue.t Z :=
  state_after (LinkedQueue.remove 1) queue_12.

Definition queue_12_removed_3 : LinkedQueue.t Z :=
  state_after (LinkedQueue.add (PyVal 3%Z)) queue_12_removed.

(** * Further vocabulary *)

Section MoreVocabulary.

Context {A : Type} `{EqDecision A}.

(** [AbstractCollection.__add__]: [result = type(self)(self)], then
    [result.add(item)] for each item of [other]. [new] is the constructor of
    the class of [self], [self] is passed as the constructor sees it, and
    [other] as the items its iteration yields. The state returned is the
    object [result]. *)
Definition __add__ {C} `{AbstractCollection.Collection A C}
    (new : option (AbstractCollection.source A) -> res unit * C)
    (self : AbstractCollection.source A) (other : list (obj A))
    : res unit * C :=
  match new (Some self) with
  | (Ok _, result) => for_ other AbstractCollection.add result
  | (Raise e, result) => (Raise e, result)
  end.

(** A queue passed as the [sourceCollection] of a constructor: its truth
    value is that of [len(self) != 0], its items are those its generator
    yields within [fuel] steps when it ends without error. *)
Definition queue_source (fuel : nat) (q : LinkedQueue.t A)
    : option (AbstractCollection.source A) :=
  match AbstractCollection.to_list fuel (LinkedQueue.__iter__ q) with
  | Some (Ok l) =>
      Some (AbstractCollection.mkSource
              (negb (Nat.eqb (AbstractCollection.__len__ q) 0)) l)
  | _ => None
  end.

(** Every call on a queue except [remove(size - 1)] on a queue of two or
    more items. *)
Definition queue_safe (o : queue_op (A := A)) (q : LinkedQueue.t A) : Prop :=
  match o with
  | QRemove i =>
      ~ (i = (Z.of_nat (LinkedQueue._size q) - 1)%Z /\
         2 <= LinkedQueue._size q)
  | _ => True
  end.

(** The states a queue reaches through such calls. *)
Inductive queue_reachable_safe : LinkedQueue.t A -> Prop :=
  | queue_safe_new src :
      queue_reachable_safe (snd (LinkedQueue.__init__ src))
  | queue_safe_step s o :
      queue_reachable_safe s -> queue_safe o s ->
      queue_reachable_safe (state_after (queue_run o) s).

End MoreVocabulary.

Section ArrayVocabulary.

Context {B : Type}.

Inductive array_op : Type :=
  | ASetItem (index : Z) (value : obj B)
  | AGetItem (index : Z)
  | AClear (value : obj B)
  | ALen.

Definition array_run (o : array_op) : N (Array.t B) unit :=
  match o with
  | ASetItem i v => Array.__setitem__ i v
  | AGetItem i => Array.__getitem__ i >>+ retN tt
  | AClear v => liftN (Array.clear v)
  | ALen => retN tt
  end.

(** The states of an [Array] object: the one its constructor returns, and
    the one any method leaves behind. *)
Inductive array_reachable : Array.t B -> Prop :=
  | array_reach_new size a :
      Array.__init__ size = Returns a -> array_reachable a
  | array_reach_step a o :
      array_reachable a -> array_reachable (snd (array_run o a)).

(** The array holds the items [l], one per index. *)
Definition array_rep (a : Array.t B) (l : list (obj B)) : Prop :=
  Array._elements a = Some <$> l /\ length l = Array._size a /\
  0 < Array._size a.

(** What [self[0]], ..., [self[len - 1]] return. *)
Definition array_items (a : Array.t B) : list (result (obj B)) :=
  map (fun i => fst (Array.__getitem__ i a))
      (range 0 (Z.of_nat (Array.__len__ a))).

Inductive array2d_op : Type :=
  | GSetItem (index_tuple : list Z) (value : obj B)
  | GGetItem (index_tuple : list Z)
  | GClear (value : obj B)
  | GNumRows
  | GNumCols.

Definition array2d_run (o : array2d_op) : N (Array2D.t B) unit :=
  match o with
  | GSetItem ix v => Array2D.__setitem__ ix v
  | GGetItem ix => Array2D.__getitem__ ix >>+ retN tt
  | GClear v => Array2D.clear v
  | GNumRows => Array2D.num_rows >>+ retN tt
  | GNumCols => Array2D.num_cols >>+ retN tt
  end.

Inductive array2d_reachable : Array2D.t B -> Prop :=
  | array2d_reach_new num_rows num_cols g :
      Array2D.__init__ num_rows num_cols = Returns g -> array2d_reachable g
  | array2d_reach_step g o :
      array2d_reachable g -> array2d_reachable (snd (array2d_run o g)).

(** The row object holding the items [r], and the slot referring to it. *)
Definition row_obj (nc : nat) (r : list (obj B)) : obj (Array.t B) :=
  PyVal (Array.mk nc (Some <$> r)).

(** The grid holds the rows [rs], each a list of [nc] items. *)
Definition array2d_rep (g : Array2D.t B) (nc : nat)
    (rs : list (list (obj B))) : Prop :=
  Array2D.rows g = Array.mk (length rs) (Some <$> (row_obj nc <$> rs)) /\
  0 < length rs /\ 0 < nc /\ Forall (fun r => length r = nc) rs.

(** [0 <= row < nr] and [0 <= col < nc]. *)
Definition subscript_ok (nr nc : nat) (row col : Z) : bool :=
  ((0 <=? row) && (row <? Z.of_nat nr) && (0 <=? col)
   && (col <? Z.of_nat nc))%Z.

(** What [self[i, j]] returns. *)
Definition array2d_at (g : Array2D.t B) (i j : Z) : result (obj B) :=
  fst (Array2D.__getitem__ [i; j] g).

End ArrayVocabulary.

Section StackVocabulary.

Context {A : Type}.

Inductive plain_stack_op : Type :=
  | PPush (x : obj A)
  | PPop
  | PPeek.

Definition plain_stack_run (o : plain_stack_op) : N (Stack.t A) unit :=
  match o with
  | PPush x => Stack.push x
  | PPop => Stack.pop >>+ retN tt
  | PPeek => Stack.peek >>+ retN tt
  end.

Inductive plain_stack_reachable : Stack.t A -> Prop :=
  | plain_stack_new : plain_stack_reachable Stack.__init__
  | plain_stack_step s o :
      plain_stack_reachable s ->
      plain_stack_reachable (snd (plain_stack_run o s)).

(** The items of the chain below a reference, top first. *)
Fixpoint plain_node_items (n : Stack._StackNode A) : list (obj A) :=
  match n with
  | Stack.mkNode i nx =>
      i :: match nx with None => [] | Some n' => plain_node_items n' end
  end.
Definition plain_stack_items (s : Stack.t A) : list (obj A) :=
  match Stack._top s with None => [] | Some n => plain_node_items n end.

(** [m] run [n] times in a row, collecting what each run returns. *)
Fixpoint repeatN {St X} (n : nat) (m : N St X) : N St (list X) :=
  match n with
  | O => retN []
  | S n' => let+ x := m in let+ xs := repeatN n' m in retN (x :: xs)
  end.

End StackVocabulary.

(** ** Further sample objects *)

(** [Array(3)] after [a[1] = 7]. *)
Definition array_3 : Array.t Z :=
  snd (array_run (ASetItem 1 (PyVal 7%Z))
         (Array.mk 3 [Some PyNone; Some PyNone; Some PyNone])).

(** [Array2D(2, 3)] after [g[1, 2] = 5]. *)
Definition grid_23 : Array2D.t Z :=
  snd (array2d_run (GSetItem [1; 2]%Z (PyVal 5%Z))
         (match Array2D.__init__ 2 3 with
          | Returns g => g
          | Raises _ => Array2D.mk (Array.mk 0 [])
          end)).

(** A [Stack] after [push(1); push(2)]. *)
Definition plain_12 : Stack.t Z :=
  snd (plain_stack_run (PPush (PyVal 2%Z))
         (snd (plain_stack_run (PPush (PyVal 1%Z)) Stack.__init__))).


(** The queue of [queue_12_removed_3] after a further [pop()]. *)
Definition queue_12_removed_3_popped : LinkedQueue.t Z :=
  state_after LinkedQueue.pop queue_12_removed_3.

(** ** Items that differ from themselves

    A Python number: an integer, or the float NaN, for which [==] is
    [False] and [!=] is [True] against every value, itself included. *)
Inductive number : Type :=
  | Int (z : Z)
  | NaN.

Definition number_eqb (x y : obj number) : bool :=
  match x, y with
  | PyNone, PyNone => true
  | PyVal (Int a), PyVal (Int b) => (a =? b)%Z
  | _, _ => false
  end.

#[global] Instance number_eq : PyEq number := {|
  py_eq := number_eqb;
  py_ne x y := negb (number_eqb x y)
|}.

(** [LinkedStack([1, nan])]. *)
Definition stack_nan : LinkedStack.t number :=
  snd (LinkedStack.__init__
         (Some (AbstractCollection.of_list [PyVal (Int 1); PyVal NaN]))).
(** * Proofs *)

(** ** The monad *)

Lemma bind_ok {St X Y} (m : M St X) (k : X -> M St Y) s x s' :
  m s = (Ok x, s') -> bind m k s = k x s'.
Proof. intros E. unfold bind. now rewrite E. Qed.

Section LinkedStackProofs.

Context {A : Type} `{EqDecision A}.

Local Abbreviation Node := (LinkedStack.Node A).
Local Abbreviation stack := (LinkedStack.t A).

(** Induction over a chain of nodes. *)
Lemma chain_ind (P : option Node -> Prop) :
  P None ->
  (forall d nx, P nx -> P (Some (LinkedStack.mkNode d nx))) ->
  forall r, P r.
Proof.
  intros HN HS.
  assert (HP : forall n, P (Some n)).
  { fix IH 1. intros [d [n'|]]; apply HS; [apply IH | exact HN]. }
  intros [n|]; [apply HP | exact HN].
Qed.

Lemma chain_items_cons d (nx : option Node) :
  chain_items (Some (LinkedStack.mkNode d nx)) = d :: chain_items nx.
Proof. reflexivity. Qed.

Lemma visitNodes_cons d (nx : option Node) acc :
  LinkedStack.visitNodes (Some (LinkedStack.mkNode d nx)) acc
  = LinkedStack.visitNodes nx acc ++ [d].
Proof. reflexivity. Qed.

Lemma visitNodes_items (r : option Node) acc :
  LinkedStack.visitNodes r acc = acc ++ rev (chain_items r).
Proof.
  induction r as [|d nx IH] using chain_ind.
  - simpl. now rewrite app_nil_r.
  - rewrite visitNodes_cons, chain_items_cons, IH. simpl.
    now rewrite app_assoc.
Qed.

Lemma chain_items_inj (r1 r2 : option Node) :
  chain_items r1 = chain_items r2 -> r1 = r2.
Proof.
  revert r2. induction r1 as [|d nx IH] using chain_ind; intros r2.
  - destruct r2 as [[d2 nx2]|]; [discriminate | reflexivity].
  - destruct r2 as [[d2 nx2]|]; [|discriminate].
    rewrite !chain_items_cons. intros E. injection E as -> E.
    now rewrite (IH _ E).
Qed.

Lemma stack_push_eq item (s : stack) :
  LinkedStack.push item s
  = (Ok tt, LinkedStack.mk
              (Some (LinkedStack.mkNode item (LinkedStack._items s)))
              (LinkedStack._size s + 1)).
Proof. reflexivity. Qed.

Lemma stack_pop_empty (s : stack) :
  LinkedStack._size s = 0 ->
  LinkedStack.pop s = (Raise (KeyError "The stack is empty."), s).
Proof.
  intros E. unfold LinkedStack.pop, bind, gets, AbstractCollection.isEmpty,
    AbstractCollection.__len__. simpl. now rewrite E.
Qed.

Lemma stack_pop_node (d : obj A) (nx : option Node) n :
  LinkedStack.pop (LinkedStack.mk (Some (LinkedStack.mkNode d nx)) (S n))
  = (Ok d, LinkedStack.mk nx n).
Proof.
  unfold LinkedStack.pop, bind, gets, AbstractCollection.isEmpty,
    AbstractCollection.__len__. simpl.
  unfold LinkedStack.set_size. simpl. now rewrite Nat.sub_0_r.
Qed.

Lemma stack_pushes (l : list (obj A)) (s : stack) :
  exists s', for_ l LinkedStack.push s = (Ok tt, s') /\
    chain_items (LinkedStack._items s')
      = rev l ++ chain_items (LinkedStack._items s) /\
    LinkedStack._size s' = LinkedStack._size s + length l.
Proof.
  revert s. induction l as [|x l IH]; intros s.
  - exists s. simpl. split; [reflexivity|]. split; [reflexivity | lia].
  - simpl for_. erewrite bind_ok by apply stack_push_eq.
    destruct (IH (LinkedStack.mk
                    (Some (LinkedStack.mkNode x (LinkedStack._items s)))
                    (LinkedStack._size s + 1))) as (s' & E & Hi & Hn).
    exists s'. split; [exact E|]. simpl in Hi, Hn. split.
    + rewrite Hi. simpl. now rewrite <- app_assoc.
    + rewrite Hn. simpl. lia.
Qed.

Lemma stack_pops (n : nat) (s : stack) :
  stack_wf s -> n <= LinkedStack._size s ->
  exists s', repeat_ n LinkedStack.pop s
             = (Ok (take n (chain_items (LinkedStack._items s))), s') /\
    stack_wf s' /\
    chain_items (LinkedStack._items s')
      = drop n (chain_items (LinkedStack._items s)).
Proof.
  revert s. induction n as [|n IH]; intros [r sz] W Hn.
  - eexists. split; [reflexivity|]. split; [exact W | reflexivity].
  - unfold stack_wf in W. simpl in W, Hn.
    destruct r as [[d nx]|]; [|simpl in W; lia].
    destruct sz as [|sz]; [lia|].
    rewrite chain_items_cons in W. simpl in W.
    simpl repeat_. erewrite bind_ok by apply stack_pop_node.
    destruct (IH (LinkedStack.mk nx sz)) as (s' & E & W' & Hi).
    { unfold stack_wf. simpl. lia. }
    { simpl. lia. }
    exists s'. erewrite bind_ok by exact E. simpl in Hi |- *.
    split; [reflexivity|]. split; assumption.
Qed.

Lemma stack_init_wf src : stack_wf (snd (LinkedStack.__init__ (A := A) src)).
Proof.
  unfold LinkedStack.__init__, AbstractCollection.__init__.
  set (s0 := LinkedStack.mk None 0 : stack).
  assert (E0 : modify (AbstractCollection.set_size 0) s0 = (Ok tt, s0))
    by reflexivity.
  erewrite bind_ok by exact E0.
  destruct src as [[tr its]|]; [|reflexivity]. simpl.
  destruct tr; [|reflexivity].
  destruct (stack_pushes its s0) as (s' & E & Hi & Hn).
  change (for_ its LinkedStack.add s0) with (for_ its LinkedStack.push s0).
  rewrite E. unfold stack_wf. simpl. rewrite Hn, Hi. simpl.
  rewrite length_app, length_rev. simpl. lia.
Qed.

Lemma stack_reachable_wf (s : stack) : stack_reachable s -> stack_wf s.
Proof.
  induction 1 as [src | s o _ IH].
  - apply stack_init_wf.
  - unfold state_after. destruct s as [r sz]. unfold stack_wf in IH.
    simpl in IH. destruct o as [v | v | | |]; simpl.
    + unfold stack_wf. simpl. fold (chain_items r). lia.
    + unfold stack_wf. simpl. fold (chain_items r). lia.
    + destruct sz as [|sz].
      * unfold bind. rewrite stack_pop_empty by reflexivity. exact IH.
      * destruct r as [[d nx]|]; [|unfold chain_items in IH; simpl in IH; lia].
        unfold bind. rewrite stack_pop_node. simpl. unfold stack_wf. simpl.
        rewrite chain_items_cons in IH. simpl in IH. lia.
    + unfold bind, LinkedStack.peek, bind, gets, AbstractCollection.isEmpty,
        AbstractCollection.__len__. simpl.
      destruct (Nat.eqb sz 0); simpl; [exact IH|].
      destruct r as [n|]; simpl; exact IH.
    + reflexivity.
Qed.

Lemma stack_push_pop_all (ps : list (obj A)) :
  (for_ ps LinkedStack.push >> repeat_ (length ps) LinkedStack.pop)
    (snd (LinkedStack.__init__ None))
  = (Ok (rev ps), snd (LinkedStack.__init__ (A := A) None)).
Proof.
  set (s0 := snd (LinkedStack.__init__ (A := A) None)).
  destruct (stack_pushes ps s0) as (s1 & E1 & Hi & Hn).
  erewrite bind_ok by exact E1.
  destruct (stack_pops (length ps) s1) as (s2 & E2 & W2 & Hi2).
  { unfold stack_wf. rewrite Hi, Hn. simpl. now rewrite app_nil_r, length_rev. }
  { rewrite Hn. simpl. lia. }
  rewrite E2. rewrite Hi in Hi2 |- *. simpl chain_items in *.
  rewrite app_nil_r in *. rewrite <- (length_rev ps) in Hi2 |- *.
  rewrite firstn_all. rewrite drop_all in Hi2.
  f_equal. unfold stack_wf in W2. rewrite Hi2 in W2. simpl in W2.
  destruct s2 as [r2 n2]. simpl in *. subst n2.
  now rewrite (chain_items_inj r2 None Hi2).
Qed.

Lemma stack_pop_cases (s : stack) :
  (AbstractCollection.isEmpty s = true /\
   LinkedStack.pop s = (Raise (KeyError "The stack is empty."), s)) \/
  (AbstractCollection.isEmpty s = false /\
   ((exists v s', LinkedStack.pop s = (Ok v, s')) \/
    (exists e, LinkedStack.pop s = (Raise e, s) /\
               is_EmptyCollection (Raise (X := obj A) e) = false))).
Proof.
  destruct s as [r [|n]].
  - left. split; [reflexivity|]. now apply stack_pop_empty.
  - right. split; [reflexivity|]. destruct r as [[d nx]|].
    + left. rewrite stack_pop_node. eauto.
    + right. eexists. split; reflexivity.
Qed.

Lemma stack_peek_cases (s : stack) :
  (AbstractCollection.isEmpty s = true /\
   LinkedStack.peek s = (Raise (KeyError "The stack is empty."), s)) \/
  (AbstractCollection.isEmpty s = false /\
   ((exists v, LinkedStack.peek s = (Ok v, s)) \/
    (exists e, LinkedStack.peek s = (Raise e, s) /\
               is_EmptyCollection (Raise (X := obj A) e) = false))).
Proof.
  destruct s as [r [|n]].
  - left. split; reflexivity.
  - right. split; [reflexivity|]. destruct r as [[d nx]|].
    + left. exists d. reflexivity.
    + right. eexists. split; reflexivity.
Qed.

End LinkedStackProofs.

Section EqLoopProofs.

Context {A : Type} `{PyEq A}.

Lemma eq_loop_enumerates {X Y} (nx : X -> res (obj A * X))
    (ny : Y -> res (obj A * Y)) (l1 l2 : list (obj A)) fuel x y :
  enumerates nx x l1 -> enumerates ny y l2 -> length l1 < fuel ->
  AbstractCollection.eq_loop nx ny fuel x y = Some (eq_lists l1 l2).
Proof.
  revert l2 fuel x y. induction l1 as [|v l1 IH]; intros l2 fuel x y E1 E2 F.
  - destruct fuel; [simpl in F; lia|]. simpl in E1 |- *. now rewrite E1.
  - destruct fuel; [simpl in F; lia|]. simpl in F.
    destruct E1 as (x' & E1 & E1'). simpl. rewrite E1.
    destruct l2 as [|w l2].
    + simpl in E2. now rewrite E2.
    + destruct E2 as (y' & E2 & E2'). rewrite E2.
      destruct (py_ne v w); [reflexivity|].
      apply IH; [assumption.. | lia].
Qed.

(** A list compared with itself: the loop answers [True] exactly when no
    item differs from itself. *)
Lemma eq_lists_self (l : list (obj A)) :
  exists b, eq_lists l l = Ok b /\
    (b = true <-> Forall (fun x => py_ne x x = false) l).
Proof.
  induction l as [|x l (b & E & Hb)].
  - exists true. split; [reflexivity|]. split; [constructor | reflexivity].
  - simpl. destruct (py_ne x x) eqn:N.
    + exists false. split; [reflexivity|]. split; [discriminate|].
      intros F. apply Forall_cons in F as [F _]. congruence.
    + exists b. split; [exact E|]. rewrite Hb. split.
      * intros F. now constructor.
      * intros F. now apply Forall_cons in F as [_ F].
Qed.


Lemma list_iterator_enumerates (l : list (obj A)) :
  enumerates (AbstractCollection.it_next (AbstractCollection.list_iterator l))
             l l.
Proof.
  induction l as [|x l IH]; [reflexivity|]. exists l. split; [reflexivity|].
  exact IH.
Qed.

End EqLoopProofs.

Section EqProofs.

Context {A : Type} `{EqDecision A}.

Lemma py_eq_leibniz (x y : obj A) : py_eq x y = bool_decide (x = y).
Proof. reflexivity. Qed.

Lemma py_ne_leibniz (x y : obj A) : py_ne x y = bool_decide (x <> y).
Proof. reflexivity. Qed.

Lemma eq_lists_refl (l : list (obj A)) : eq_lists l l = Ok true.
Proof.
  induction l as [|x l IH]; [reflexivity|]. simpl.
  case_bool_decide; [congruence | exact IH].
Qed.


End EqProofs.


Section EqSpec.

Context {A : Type} `{EqDecision A}.


End EqSpec.

(** ** Ranges and list surgery *)

Lemma range_nil a b : (b <= a)%Z -> range a b = [].
Proof. intros H. unfold range. now replace (Z.to_nat (b - a)) with 0 by lia. Qed.

Lemma range_cons a b : (a < b)%Z -> range a b = a :: range (a + 1) b.
Proof.
  intros H. unfold range.
  replace (Z.to_nat (b - a)) with (S (Z.to_nat (b - (a + 1)))) by lia.
  simpl. f_equal; [lia|]. rewrite <- seq_shift, map_map.
  apply map_ext. intros i. lia.
Qed.

Lemma range_down_nil a b : (a <= b)%Z -> range_down a b = [].
Proof.
  intros H. unfold range_down. now replace (Z.to_nat (a - b)) with 0 by lia.
Qed.

Lemma range_down_cons a b :
  (b < a)%Z -> range_down a b = a :: range_down (a - 1) b.
Proof.
  intros H. unfold range_down.
  replace (Z.to_nat (a - b)) with (S (Z.to_nat (a - 1 - b))) by lia.
  simpl. f_equal; [lia|]. rewrite <- seq_shift, map_map.
  apply map_ext. intros i. lia.
Qed.

Lemma range_length a b : length (range a b) = Z.to_nat (b - a).
Proof. unfold range. now rewrite length_map, length_seq. Qed.

Lemma range_lookup a b i :
  i < Z.to_nat (b - a) -> range a b !! i = Some (a + Z.of_nat i)%Z.
Proof.
  intros H. unfold range. rewrite list_lookup_fmap.
  now rewrite lookup_seq_lt by exact H.
Qed.

Lemma insert_middle {X} (pre post : list X) (x y : X) i :
  i = length pre -> <[i := y]> (pre ++ x :: post) = pre ++ y :: post.
Proof. intros ->. rewrite insert_app_r_alt by lia. now rewrite Nat.sub_diag. Qed.

Lemma last_cons_default {X} (a d : X) (l : list X) :
  List.last (a :: l) d = List.last l a.
Proof.
  revert a d. induction l as [|b l IH]; intros a d; [reflexivity|].
  change (List.last (a :: b :: l) d) with (List.last (b :: l) d).
  now rewrite !IH.
Qed.

Lemma for_cons {St I} (x : I) (xs : list I) (body : I -> M St unit) :
  for_ (x :: xs) body = (body x >> for_ xs body).
Proof. reflexivity. Qed.

(** ** DynamicArray *)

(** The first item a test holds for, if there is one. *)
Lemma first_match {X} (f : X -> bool) (l : list X) :
  Forall (fun x => f x = false) l \/
  exists p w r, l = p ++ w :: r /\ Forall (fun x => f x = false) p /\
                f w = true.
Proof.
  induction l as [|x l [F|(p & w & r & -> & F & T)]].
  - left. constructor.
  - destruct (f x) eqn:E.
    + right. exists [], x, l. split; [reflexivity|]. split; [constructor|].
      exact E.
    + left. now constructor.
  - destruct (f x) eqn:E.
    + right. exists [], x, (p ++ w :: r). split; [reflexivity|].
      split; [constructor | exact E].
    + right. exists (x :: p), w, r. split; [reflexivity|].
      split; [now constructor | exact T].
Qed.

Section DynamicArrayProofs.

Context {A : Type} {item_eq : PyEq A}.

Local Abbreviation array := (list (option (obj A))).
Local Abbreviation darray := (DynamicArray.t A).
Local Abbreviation mk := (@DynamicArray.mk A).

Lemma index_nat (a : array) i :
  i < length a -> DynamicArray.index a (Z.of_nat i) = Ok i.
Proof.
  intros H. unfold DynamicArray.index.
  destruct (Z.ltb_spec (Z.of_nat i) 0); [lia|].
  destruct (Z.leb_spec 0 (Z.of_nat i)); [|lia].
  destruct (Z.ltb_spec (Z.of_nat i) (Z.of_nat (length a))); [|lia].
  simpl. now rewrite Nat2Z.id.
Qed.

(** On an array that fits in memory, [index] is the order of ctypes: the
    subscript is converted first, then taken from the end when negative,
    then checked against the length. *)
Lemma index_converts_first (a : array) k :
  (Z.of_nat (length a) <= DynamicArray.PY_SSIZE_T_MAX)%Z ->
  DynamicArray.index a k
  = if ((DynamicArray.PY_SSIZE_T_MIN <=? k)
        && (k <=? DynamicArray.PY_SSIZE_T_MAX))%Z
    then
      let k' := if (k <? 0)%Z then (k + Z.of_nat (length a))%Z else k in
      if ((0 <=? k') && (k' <? Z.of_nat (length a)))%Z
      then Ok (Z.to_nat k')
      else Raise (IndexError "invalid index")
    else Raise (IndexError "cannot fit 'int' into an index-sized integer").
Proof.
  unfold DynamicArray.index, DynamicArray.PY_SSIZE_T_MIN,
    DynamicArray.PY_SSIZE_T_MAX.
  change (2 ^ 63)%Z with 9223372036854775808%Z. intros L. cbv zeta.
  destruct (Z.ltb_spec k 0);
    destruct (Z.leb_spec (Z.opp 9223372036854775808) k);
    destruct (Z.leb_spec k (9223372036854775808 - 1));
    cbn [andb]; try reflexivity;
    match goal with
    | |- context [(0 <=? ?x)%Z] => destruct (Z.leb_spec 0 x)
    end;
    match goal with
    | |- context [(?x <? Z.of_nat ?n)%Z] =>
        destruct (Z.ltb_spec x (Z.of_nat n))
    end; cbn [andb]; try reflexivity; lia.
Qed.

Lemma getA_nat n c (a : array) i v k :
  a !! i = Some (Some v) -> k = Z.of_nat i ->
  DynamicArray.getA k (mk n c a) = (Ok v, mk n c a).
Proof.
  intros H ->. unfold DynamicArray.getA, DynamicArray.array_get. simpl.
  rewrite index_nat by (eapply lookup_lt_Some; exact H). now rewrite H.
Qed.

Lemma setA_nat n c (a : array) i v k :
  i < length a -> k = Z.of_nat i ->
  DynamicArray.setA k v (mk n c a) = (Ok tt, mk n c (<[i := Some v]> a)).
Proof.
  intros H ->. unfold DynamicArray.setA, DynamicArray.array_set. simpl.
  now rewrite index_nat by exact H.
Qed.

(** The loop of [_resize] copies the items into the new array. *)
Lemma copy_into_spec (l2 l1 : list (obj A)) (junk rest : array) :
  length l2 <= length rest ->
  DynamicArray.copy_into ((Some <$> (l1 ++ l2)) ++ junk)
    (range (Z.of_nat (length l1)) (Z.of_nat (length l1 + length l2)))
    ((Some <$> l1) ++ rest)
  = Ok ((Some <$> (l1 ++ l2)) ++ drop (length l2) rest).
Proof.
  revert l1 rest. induction l2 as [|y l2 IH]; intros l1 rest H.
  - rewrite range_nil by (simpl; lia). simpl. now rewrite app_nil_r.
  - destruct rest as [|r rest]; [simpl in H; lia|]. simpl in H.
    rewrite range_cons by (simpl; lia). simpl DynamicArray.copy_into.
    unfold DynamicArray.array_get.
    rewrite index_nat
      by (rewrite length_app, length_fmap, length_app; simpl; lia).
    rewrite lookup_app_l by (rewrite length_fmap, length_app; simpl; lia).
    rewrite list_lookup_fmap, list_lookup_middle by reflexivity. simpl.
    unfold DynamicArray.array_set.
    rewrite index_nat by (rewrite length_app, length_fmap; simpl; lia).
    rewrite insert_middle by now rewrite length_fmap.
    replace (Some <$> l1 ++ y :: l2) with (Some <$> (l1 ++ [y]) ++ l2)
      by now rewrite <- app_assoc.
    replace ((Some <$> l1) ++ Some y :: rest)
      with ((Some <$> (l1 ++ [y])) ++ rest)
      by (rewrite fmap_app; simpl; now rewrite <- app_assoc).
    replace (Z.of_nat (length l1) + 1)%Z with (Z.of_nat (length (l1 ++ [y])))
      by (rewrite length_app; simpl; lia).
    replace (length l1 + S (length l2))
      with (length (l1 ++ [y]) + length l2)
      by (rewrite length_app; simpl; lia).
    rewrite IH by lia. reflexivity.
Qed.

(** The loop of [insert] moves the items [l] one slot to the right. *)
Lemma shift_right_loop n c (l : list (obj A)) (pre post : array)
    (x : option (obj A)) :
  for_ (range_down (Z.of_nat (length pre + length l)) (Z.of_nat (length pre)))
       (fun j => let* v := DynamicArray.getA (j - 1) in DynamicArray.setA j v)
       (mk n c (pre ++ (Some <$> l) ++ x :: post))
  = (Ok tt, mk n c (pre ++ hd x (Some <$> l) :: (Some <$> l) ++ post)).
Proof.
  revert x post. induction l as [|y l IH] using rev_ind; intros x post.
  - rewrite range_down_nil by (simpl; lia). reflexivity.
  - rewrite range_down_cons by (rewrite length_app; simpl; lia).
    rewrite for_cons, fmap_app, fmap_cons, fmap_nil.
    rewrite <- (app_assoc (Some <$> l) [Some y]).
    change ([Some y] ++ x :: post) with (Some y :: x :: post).
    erewrite bind_ok; cycle 1.
    { erewrite bind_ok; cycle 1.
      - apply (getA_nat _ _ _ (length pre + length l) y).
        + rewrite lookup_app_r by lia.
          rewrite list_lookup_middle; [reflexivity|].
          rewrite length_fmap. lia.
        + rewrite length_app. simpl. lia.
      - apply (setA_nat _ _ _ (length pre + length l + 1)).
        + rewrite !length_app, length_fmap. simpl. lia.
        + rewrite length_app. simpl. lia. }
    replace (pre ++ (Some <$> l) ++ Some y :: x :: post)
      with ((pre ++ (Some <$> l) ++ [Some y]) ++ x :: post)
      by (rewrite <- !app_assoc; reflexivity).
    rewrite insert_middle
      by (rewrite !length_app, length_fmap; simpl; lia).
    rewrite <- !app_assoc. simpl app.
    replace (Z.of_nat (length pre + length (l ++ [y])) - 1)%Z
      with (Z.of_nat (length pre + length l))
      by (rewrite length_app; simpl; lia).
    rewrite (IH (Some y) (Some y :: post)).
    do 3 f_equal. destruct l; reflexivity.
Qed.

(** The loop of [remove] moves the items [l] one slot to the left. *)
Lemma shift_left_loop n c (l : list (obj A)) (pre post : array)
    (x : option (obj A)) :
  for_ (range (Z.of_nat (length pre)) (Z.of_nat (length pre + length l)))
       (fun j => let* v := DynamicArray.getA (j + 1) in DynamicArray.setA j v)
       (mk n c (pre ++ x :: (Some <$> l) ++ post))
  = (Ok tt, mk n c (pre ++ (Some <$> l) ++ List.last (Some <$> l) x :: post)).
Proof.
  revert x pre. induction l as [|y l IH]; intros x pre.
  - rewrite range_nil by (simpl; lia). reflexivity.
  - rewrite range_cons by (simpl; lia). rewrite for_cons, fmap_cons.
    erewrite bind_ok; cycle 1.
    { erewrite bind_ok; cycle 1.
      - apply (getA_nat _ _ _ (length pre + 1) y); [|lia].
        rewrite lookup_app_r by lia.
        replace (length pre + 1 - length pre) with 1 by lia. reflexivity.
      - apply (setA_nat _ _ _ (length pre)); [|lia].
        rewrite length_app. simpl. lia. }
    rewrite insert_middle by reflexivity.
    change (pre ++ Some y :: (Some y :: (Some <$> l)) ++ post)
      with (pre ++ [Some y] ++ Some y :: (Some <$> l) ++ post).
    rewrite (app_assoc pre [Some y]).
    replace (Z.of_nat (length pre) + 1)%Z
      with (Z.of_nat (length (pre ++ [Some y])))
      by (rewrite length_app; simpl; lia).
    replace (Z.of_nat (length pre + length (y :: l)))
      with (Z.of_nat (length (pre ++ [Some y]) + length l))
      by (rewrite length_app; simpl; lia).
    rewrite IH, <- app_assoc, last_cons_default. reflexivity.
Qed.


(** A represented array, taken apart: the items, then the slots past [_n]. *)
Lemma da_rep_split (s : darray) (l : list (obj A)) :
  da_rep s l ->
  exists junk, s = mk (length l) (length l + length junk) ((Some <$> l) ++ junk)
               /\ 1 <= length l + length junk.
Proof.
  destruct s as [n c a]. unfold da_rep. simpl. intros (-> & -> & Hc & Ht).
  exists (drop (length l) a). rewrite <- Ht, take_drop.
  assert (length l <= length a).
  { apply (f_equal length) in Ht. rewrite length_take, length_fmap in Ht. lia. }
  rewrite length_drop. split; [f_equal; lia | lia].
Qed.

Lemma da_rep_le (s : darray) (l : list (obj A)) :
  da_rep s l -> DynamicArray._n s <= DynamicArray._capacity s.
Proof.
  intros (-> & -> & _ & Ht). apply (f_equal length) in Ht.
  rewrite length_take, length_fmap in Ht. lia.
Qed.

Lemma da_rep_intro (l : list (obj A)) (junk : array) :
  1 <= length l + length junk ->
  da_rep (mk (length l) (length l + length junk) ((Some <$> l) ++ junk)) l.
Proof.
  intros H. unfold da_rep. simpl. rewrite length_app, length_fmap.
  repeat split; try lia.
  rewrite take_app_length'; [reflexivity | now rewrite length_fmap].
Qed.

Lemma grow_if_full_eq n c (a : array) :
  DynamicArray.grow_if_full (mk n c a)
  = if Nat.eqb n c then DynamicArray._resize (2 * c) (mk n c a)
    else (Ok tt, mk n c a).
Proof.
  unfold DynamicArray.grow_if_full, bind, gets.
  cbn [DynamicArray._n DynamicArray._capacity]. now destruct (Nat.eqb n c).
Qed.

Lemma resize_eq c' n c (a : array) :
  DynamicArray._resize c' (mk n c a)
  = match DynamicArray.copy_into a (range 0 (Z.of_nat n))
            (DynamicArray._make_array c') with
    | Ok B => (Ok tt, mk n c' B)
    | Raise e => (Raise e, mk n c a)
    end.
Proof.
  unfold DynamicArray._resize, bind, gets, lift, modify.
  cbn [DynamicArray._n DynamicArray._A].
  now destruct (DynamicArray.copy_into _ _ _).
Qed.

Lemma grow_if_full_spec (l : list (obj A)) (junk : array) :
  1 <= length l + length junk ->
  exists junk',
    DynamicArray.grow_if_full
      (mk (length l) (length l + length junk) ((Some <$> l) ++ junk))
    = (Ok tt, mk (length l) (length l + length junk') ((Some <$> l) ++ junk'))
    /\ 1 <= length junk'
    /\ (length junk' = length junk
        \/ (length junk = 0 /\ length l + length junk' = 2 * length l)).
Proof.
  intros H. rewrite grow_if_full_eq.
  destruct (Nat.eqb_spec (length l) (length l + length junk)) as [E|E].
  - assert (junk = []) as -> by (apply nil_length_inv; lia).
    change (length (@nil (option (obj A)))) with 0 in *.
    rewrite Nat.add_0_r in *.
    set (B := DynamicArray._make_array (A := A) (2 * length l)).
    assert (LB : length B = 2 * length l) by apply length_replicate.
    exists (drop (length l) B).
    rewrite resize_eq.
    pose proof (copy_into_spec l [] [] B) as C.
    rewrite fmap_nil, !app_nil_l in C.
    change (length (@nil (obj A))) with 0 in C. rewrite Nat.add_0_l in C.
    change (Z.of_nat 0) with 0%Z in C.
    fold B. rewrite C by lia. rewrite length_drop, LB.
    split; [do 2 f_equal; lia|]. split; [lia|]. right. lia.
  - exists junk. split; [reflexivity|]. split; [lia | now left].
Qed.

Lemma da_append_spec (s : darray) (l : list (obj A)) (o : obj A) :
  da_rep s l ->
  exists s', DynamicArray.append o s = (Ok tt, s') /\ da_rep s' (l ++ [o]) /\
    (DynamicArray._capacity s' = DynamicArray._capacity s \/
     (DynamicArray._n s = DynamicArray._capacity s /\
      DynamicArray._capacity s' = 2 * DynamicArray._capacity s)).
Proof.
  intros R. destruct (da_rep_split s l R) as (junk & -> & H1).
  destruct (grow_if_full_spec l junk H1) as (junk' & G & H2 & H3).
  destruct junk' as [|j junk']; [simpl in H2; lia|].
  unfold DynamicArray.append. erewrite bind_ok by exact G.
  unfold bind at 1. unfold gets at 1.
  cbn [DynamicArray._n].
  erewrite bind_ok; cycle 1.
  { apply (setA_nat _ _ _ (length l)); [|reflexivity].
    rewrite length_app, length_fmap. simpl. lia. }
  rewrite insert_middle by now rewrite length_fmap.
  eexists. split; [reflexivity|]. unfold DynamicArray.set_n. simpl. split.
  - replace ((Some <$> l) ++ Some o :: junk')
      with ((Some <$> (l ++ [o])) ++ junk')
      by (rewrite fmap_app, <- app_assoc; reflexivity).
    replace (length l + 1) with (length (l ++ [o]))
      by (rewrite length_app; simpl; lia).
    replace (length l + S (length junk'))
      with (length (l ++ [o]) + length junk')
      by (rewrite length_app; simpl; lia).
    apply da_rep_intro. rewrite length_app. simpl. lia.
  - simpl in H3. lia.
Qed.

Lemma da_insert_spec (s : darray) (l : list (obj A)) (k : Z) (v : obj A) :
  da_rep s l -> (0 <= k <= Z.of_nat (length l))%Z ->
  exists s', DynamicArray.insert k v s = (Ok tt, s') /\
    da_rep s' (take (Z.to_nat k) l ++ v :: drop (Z.to_nat k) l) /\
    (DynamicArray._capacity s' = DynamicArray._capacity s \/
     (DynamicArray._n s = DynamicArray._capacity s /\
      DynamicArray._capacity s' = 2 * DynamicArray._capacity s)).
Proof.
  intros R Hk. destruct (da_rep_split s l R) as (junk & -> & H1).
  destruct (grow_if_full_spec l junk H1) as (junk' & G & H2 & H3).
  destruct junk' as [|j junk']; [simpl in H2; lia|].
  unfold DynamicArray.insert. erewrite bind_ok by exact G.
  unfold bind at 1. unfold gets at 1. cbn [DynamicArray._n].
  set (i := Z.to_nat k).
  assert (Hi : i <= length l) by lia.
  assert (Lt : length (take i l) = i) by (rewrite length_take; lia).
  assert (Ld : length (drop i l) = length l - i) by now rewrite length_drop.
  pose proof (shift_right_loop (length l) (length l + length (j :: junk'))
                (drop i l) (Some <$> take i l) junk' j) as SR.
  rewrite length_fmap, Lt, Ld in SR.
  replace (i + (length l - i)) with (length l) in SR by lia.
  replace (Z.of_nat i) with k in SR by lia.
  assert (Ea : (Some <$> l) ++ j :: junk'
               = (Some <$> take i l) ++ (Some <$> drop i l) ++ j :: junk')
    by (rewrite app_assoc, <- fmap_app, take_drop; reflexivity).
  rewrite Ea.
  erewrite bind_ok by exact SR.
  erewrite bind_ok; cycle 1.
  { apply (setA_nat _ _ _ i); [|lia].
    rewrite length_app, length_fmap, Lt. simpl. lia. }
  rewrite insert_middle by now rewrite length_fmap, Lt.
  eexists. split; [reflexivity|]. unfold DynamicArray.set_n. simpl. split.
  - set (l' := take i l ++ v :: drop i l).
    assert (L' : length l' = length l + 1).
    { unfold l'. rewrite length_app. simpl. lia. }
    replace ((Some <$> take i l) ++ Some v :: (Some <$> drop i l) ++ junk')
      with ((Some <$> l') ++ junk')
      by (unfold l'; rewrite fmap_app, <- app_assoc; reflexivity).
    rewrite <- L'.
    replace (length l + S (length junk')) with (length l' + length junk')
      by lia.
    apply da_rep_intro. lia.
  - simpl in H3. lia.
Qed.


Lemma remove_scan_cons value k ks (st : darray) :
  DynamicArray.remove_scan value (k :: ks) st
  = (let* x := DynamicArray.getA k in
     if py_eq x value then DynamicArray.remove_at k
     else DynamicArray.remove_scan value ks) st.
Proof. reflexivity. Qed.

(** The scan of [remove] passes over the items that are not [== value]. *)
Lemma remove_scan_skip value n c (m l1 l2 : list (obj A)) (junk : array) :
  Forall (fun x => py_eq x value = false) m ->
  let st := mk n c ((Some <$> (l1 ++ m ++ l2)) ++ junk) in
  DynamicArray.remove_scan value
    (range (Z.of_nat (length l1)) (Z.of_nat (length (l1 ++ m ++ l2)))) st
  = DynamicArray.remove_scan value
      (range (Z.of_nat (length (l1 ++ m))) (Z.of_nat (length (l1 ++ m ++ l2))))
      st.
Proof.
  revert l1. induction m as [|x m IH]; intros l1 Hm st.
  - now rewrite app_nil_r.
  - apply Forall_cons in Hm as [Hx Hm]. subst st.
    change ((x :: m) ++ l2) with (x :: (m ++ l2)).
    rewrite range_cons by (rewrite !length_app; simpl; lia).
    rewrite remove_scan_cons.
    erewrite bind_ok; cycle 1.
    { apply (getA_nat _ _ _ (length l1) x); [|reflexivity].
      rewrite lookup_app_l by (rewrite length_fmap, !length_app; simpl; lia).
      rewrite list_lookup_fmap, list_lookup_middle by reflexivity.
      reflexivity. }
    rewrite Hx.
    specialize (IH (l1 ++ [x]) Hm). cbn zeta in IH.
    rewrite <- !app_assoc in IH.
    change ([x] ++ m ++ l2) with (x :: m ++ l2) in IH.
    change ([x] ++ m) with (x :: m) in IH.
    replace (Z.of_nat (length l1) + 1)%Z with (Z.of_nat (length (l1 ++ [x])))
      by (rewrite length_app; simpl; lia).
    exact IH.
Qed.

Lemma da_remove_none (s : darray) (l : list (obj A)) value :
  da_rep s l -> Forall (fun x => py_eq x value = false) l ->
  DynamicArray.remove value s = (Raise (ValueError "value not found"), s).
Proof.
  intros R Hv. destruct (da_rep_split s l R) as (junk & -> & H1).
  unfold DynamicArray.remove. unfold bind at 1. unfold gets at 1.
  cbn [DynamicArray._n].
  pose proof (remove_scan_skip value (length l) (length l + length junk)
                l [] [] junk Hv) as S.
  cbn zeta in S. rewrite !app_nil_l, !app_nil_r in S.
  change (Z.of_nat (length (@nil (obj A)))) with 0%Z in S.
  rewrite S. now rewrite range_nil by lia.
Qed.

Lemma remove_at_spec (p r : list (obj A)) (value : obj A) c
    (junk : array) :
  DynamicArray.remove_at (Z.of_nat (length p))
    (mk (length (p ++ value :: r)) c ((Some <$> (p ++ value :: r)) ++ junk))
  = (Ok tt, mk (length (p ++ r)) c ((Some <$> (p ++ r)) ++ Some PyNone :: junk)).
Proof.
  unfold DynamicArray.remove_at. unfold bind at 1. unfold gets at 1.
  cbn [DynamicArray._n].
  pose proof (shift_left_loop (length (p ++ value :: r)) c r (Some <$> p)
                junk (Some value)) as SL.
  rewrite length_fmap in SL.
  replace (Z.of_nat (length (p ++ value :: r)) - 1)%Z
    with (Z.of_nat (length p + length r))
    by (rewrite length_app; simpl; lia).
  rewrite fmap_app, fmap_cons, <- app_assoc.
  change ((Some value :: (Some <$> r)) ++ junk)
    with (Some value :: (Some <$> r) ++ junk).
  erewrite bind_ok by exact SL.
  unfold bind at 1. unfold gets at 1. cbn [DynamicArray._n].
  erewrite bind_ok; cycle 1.
  { apply (setA_nat _ _ _ (length p + length r)).
    - rewrite !length_app, !length_fmap. simpl. lia.
    - rewrite length_app. simpl. lia. }
  rewrite (app_assoc (Some <$> p)).
  rewrite insert_middle by (rewrite length_app, !length_fmap; reflexivity).
  unfold modify, DynamicArray.set_n. cbn [DynamicArray._n
    DynamicArray._capacity DynamicArray._A].
  rewrite <- fmap_app. do 2 f_equal.
  rewrite !length_app. simpl. lia.
Qed.

(** [remove(value)] takes out the first item [w] with [w == value]. *)
Lemma da_remove_first (s : darray) (p r : list (obj A)) w value :
  da_rep s (p ++ w :: r) ->
  Forall (fun x => py_eq x value = false) p -> py_eq w value = true ->
  exists s', DynamicArray.remove value s = (Ok tt, s') /\
    da_rep s' (p ++ r) /\
    DynamicArray._A s' !! length (p ++ r) = Some (Some PyNone) /\
    DynamicArray._capacity s' = DynamicArray._capacity s.
Proof.
  intros R Hv Hw. destruct (da_rep_split s _ R) as (junk & -> & H1).
  unfold DynamicArray.remove. unfold bind at 1. unfold gets at 1.
  cbn [DynamicArray._n].
  pose proof (remove_scan_skip value (length (p ++ w :: r))
                (length (p ++ w :: r) + length junk)
                p [] (w :: r) junk Hv) as S.
  cbn zeta in S. rewrite !app_nil_l in S.
  change (Z.of_nat (length (@nil (obj A)))) with 0%Z in S.
  rewrite S.
  rewrite range_cons by (rewrite !length_app; simpl; lia).
  rewrite remove_scan_cons.
  erewrite bind_ok; cycle 1.
  { apply (getA_nat _ _ _ (length p) w); [|reflexivity].
    rewrite lookup_app_l by (rewrite length_fmap, !length_app; simpl; lia).
    rewrite list_lookup_fmap, list_lookup_middle by reflexivity.
    reflexivity. }
  rewrite Hw.
  rewrite remove_at_spec. eexists. split; [reflexivity|].
  cbn [DynamicArray._A DynamicArray._capacity]. split; [|split].
  - replace (length (p ++ w :: r) + length junk)
      with (length (p ++ r) + length (Some (@PyNone A) :: junk))
      by (rewrite !length_app; simpl; lia).
    apply da_rep_intro. simpl. lia.
  - apply list_lookup_middle. now rewrite length_fmap.
  - reflexivity.
Qed.

Lemma da_getitem_in (s : darray) (l : list (obj A)) i v :
  da_rep s l -> l !! i = Some v ->
  DynamicArray.__getitem__ (Z.of_nat i) s = (Ok v, s).
Proof.
  intros R Hi. destruct (da_rep_split s l R) as (junk & -> & H1).
  pose proof (lookup_lt_Some _ _ _ Hi) as Lt.
  unfold DynamicArray.__getitem__. unfold bind at 1. unfold gets at 1.
  cbn [DynamicArray._n].
  destruct (Z.leb_spec 0 (Z.of_nat i)); [|lia].
  destruct (Z.ltb_spec (Z.of_nat i) (Z.of_nat (length l))); [|lia].
  cbn [andb negb].
  apply (getA_nat _ _ _ i v); [|reflexivity].
  rewrite lookup_app_l by now rewrite length_fmap.
  now rewrite list_lookup_fmap, Hi.
Qed.

Lemma da_getitem_out (s : darray) k :
  ~ (0 <= k < Z.of_nat (DynamicArray._n s))%Z ->
  DynamicArray.__getitem__ k s = (Raise (IndexError "invalid index"), s).
Proof.
  intros Hk. unfold DynamicArray.__getitem__. unfold bind at 1.
  unfold gets at 1.
  destruct (Z.leb_spec 0 k), (Z.ltb_spec k (Z.of_nat (DynamicArray._n s)));
    try reflexivity; lia.
Qed.

Lemma da_getitem_state (s : darray) k :
  state_after (DynamicArray.__getitem__ k) s = s.
Proof.
  unfold state_after, DynamicArray.__getitem__. unfold bind at 1.
  unfold gets at 1.
  destruct (negb _); reflexivity.
Qed.

Lemma da_items_rep (s : darray) (l : list (obj A)) :
  da_rep s l -> da_items s = Ok <$> l.
Proof.
  intros R. apply list_eq. intros i. unfold da_items.
  assert (N : DynamicArray.__len__ s = length l) by apply R.
  rewrite N, !list_lookup_fmap.
  destruct (l !! i) as [v|] eqn:Hi.
  - rewrite range_lookup by (apply lookup_lt_Some in Hi; lia). simpl.
    unfold outcome. rewrite Z.add_0_l.
    now rewrite (da_getitem_in s l i v R Hi).
  - rewrite (lookup_ge_None_2 (range _ _)); [reflexivity|].
    rewrite range_length. apply lookup_ge_None_1 in Hi. lia.
Qed.

Lemma da_init_rep : da_rep (DynamicArray.__init__ (A := A)) [].
Proof. unfold da_rep. simpl. repeat split; lia. Qed.

Lemma da_step_rep (s : darray) (l : list (obj A)) o :
  da_rep s l -> da_allowed o s ->
  exists l', da_rep (state_after (da_run o) s) l' /\
    (DynamicArray._capacity (state_after (da_run o) s)
       = DynamicArray._capacity s \/
     (DynamicArray._n s = DynamicArray._capacity s /\
      DynamicArray._capacity (state_after (da_run o) s)
        = 2 * DynamicArray._capacity s)).
Proof.
  intros R Al. unfold state_after. destruct o as [v | k v | v | k |]; simpl.
  - destruct (da_append_spec s l v R) as (s' & E & R' & C).
    rewrite E. eauto.
  - simpl in Al. assert (N : DynamicArray._n s = length l) by apply R.
    rewrite N in Al.
    destruct (da_insert_spec s l k v R Al) as (s' & E & R' & C).
    rewrite E. eauto.
  - destruct (first_match (fun x => py_eq x v) l)
      as [Hout|(p & w & r & -> & Hp & Hw)].
    + rewrite (da_remove_none s l v R Hout). eauto.
    + destruct (da_remove_first s p r w v R Hp Hw) as (s' & E & R' & _ & C).
      rewrite E. eauto.
  - unfold bind.
    pose proof (da_getitem_state s k) as St. unfold state_after in St.
    destruct (DynamicArray.__getitem__ k s) as [[x|e] s1]; simpl in *;
      subst s1; eauto.
  - eauto.
Qed.

Lemma da_reachable_rep (s : darray) :
  da_reachable s -> exists l, da_rep s l.
Proof.
  induction 1 as [|s o _ [l R] Al].
  - exists []. apply da_init_rep.
  - destruct (da_step_rep s l o R Al) as (l' & R' & _). eauto.
Qed.

End DynamicArrayProofs.

(** [remove] for items whose [==] is identity of values. *)

Section DynamicArrayLeibniz.

Context {A : Type} `{EqDecision A}.

Lemma not_elem_of_py_eq (value : obj A) (l : list (obj A)) :
  value ∉ l -> Forall (fun x => py_eq x value = false) l.
Proof.
  intros N. apply Forall_forall. intros x Hx.
  apply bool_decide_eq_false_2. intros ->. contradiction.
Qed.

Lemma da_remove_absent (s : DynamicArray.t A) (l : list (obj A)) value :
  da_rep s l -> value ∉ l ->
  DynamicArray.remove value s = (Raise (ValueError "value not found"), s).
Proof.
  intros R N. apply (da_remove_none s l value R).
  now apply not_elem_of_py_eq.
Qed.

Lemma da_remove_found (s : DynamicArray.t A) (p r : list (obj A)) value :
  da_rep s (p ++ value :: r) -> value ∉ p ->
  exists s', DynamicArray.remove value s = (Ok tt, s') /\
    da_rep s' (p ++ r) /\
    DynamicArray._A s' !! length (p ++ r) = Some (Some PyNone) /\
    DynamicArray._capacity s' = DynamicArray._capacity s.
Proof.
  intros R N. apply (da_remove_first s p r value value R).
  - now apply not_elem_of_py_eq.
  - now apply bool_decide_eq_true_2.
Qed.

End DynamicArrayLeibniz.

(** ** LinkedQueue *)

Section LinkedQueueProofs.

Context {A : Type} `{EqDecision A}.

Local Abbreviation Node := (LinkedQueue.Node A).
Local Abbreviation queue := (LinkedQueue.t A).
Local Abbreviation loc := LinkedQueue.loc.
Local Abbreviation mkQ := (@LinkedQueue.mk A).
Local Abbreviation mkNode := (@LinkedQueue.mkNode A).

Lemma chain_bound (h : list Node) r cells :
  chain h r cells -> Forall (fun p => p < length h) cells.*1.
Proof.
  revert r. induction cells as [|[p v] cells IH]; intros r C.
  - constructor.
  - destruct C as (_ & nx & Hp & C). constructor.
    + eapply lookup_lt_Some. exact Hp.
    + eapply IH. exact C.
Qed.

(** Allocating a node leaves every chain as it is. *)
Lemma chain_alloc (h : list Node) r cells nd :
  chain h r cells -> chain (h ++ [nd]) r cells.
Proof.
  revert r. induction cells as [|[p v] cells IH]; intros r C; [exact C|].
  destruct C as (-> & nx & Hp & C). split; [reflexivity|].
  exists nx. split; [|now apply IH].
  now apply lookup_app_l_Some.
Qed.

(** Assigning to a node outside a chain leaves the chain as it is. *)
Lemma chain_frame (h : list Node) r cells a nd :
  chain h r cells -> a ∉ cells.*1 -> chain (<[a := nd]> h) r cells.
Proof.
  revert r. induction cells as [|[p v] cells IH]; intros r C Ha; [exact C|].
  destruct C as (-> & nx & Hp & C). simpl in Ha.
  apply not_elem_of_cons in Ha as [Hap Ha]. split; [reflexivity|].
  exists nx. split; [|now apply IH].
  rewrite list_lookup_insert_ne by exact Hap. exact Hp.
Qed.

(** [a.next = nx'] in the middle of a chain: the nodes up to [a] stay, and
    the chain continues with what [nx'] leads to. *)
Lemma chain_set_next (h : list Node) r c1 a u rest rest' nx' :
  NoDup (c1 ++ (a, u) :: rest).*1 ->
  chain h r (c1 ++ (a, u) :: rest) ->
  chain h nx' rest' -> a ∉ rest'.*1 ->
  chain (<[a := mkNode u nx']> h) r (c1 ++ (a, u) :: rest').
Proof.
  revert r. induction c1 as [|[p v] c1 IH]; intros r ND C C' Ha.
  - destruct C as (-> & nx & Hp & C). split; [reflexivity|].
    exists nx'. split; [|now apply chain_frame].
    apply list_lookup_insert_eq. eapply lookup_lt_Some. exact Hp.
  - destruct C as (-> & nx & Hp & C). split; [reflexivity|].
    simpl in ND. apply NoDup_cons in ND as [Hp1 ND].
    exists nx. split; [|now apply IH].
    rewrite list_lookup_insert_ne; [exact Hp|].
    intros ->. apply Hp1. rewrite fmap_app. apply elem_of_app. right.
    simpl. apply list_elem_of_here.
Qed.

Lemma queue_rep_nil (q : queue) :
  queue_rep q [] <->
  LinkedQueue._front q = None /\ LinkedQueue._rear q = None /\
  LinkedQueue._size q = 0.
Proof.
  unfold queue_rep. simpl. split.
  - intros (F & _ & R & S). auto.
  - intros (F & R & S). repeat split; auto. constructor.
Qed.

Lemma queue_pop_empty (q : queue) :
  LinkedQueue._size q = 0 ->
  LinkedQueue.pop q = (Raise (KeyError "The queue is empty."), q).
Proof.
  intros E. unfold LinkedQueue.pop, bind, gets, AbstractCollection.isEmpty,
    AbstractCollection.__len__. cbn. now rewrite E.
Qed.

Lemma queue_pop_node (h : list Node) p v nx r n :
  h !! p = Some (mkNode v nx) ->
  LinkedQueue.pop (mkQ h (Some p) r (S n))
  = (Ok v, mkQ h nx (if nx is None then None else r) n).
Proof.
  intros Hp. unfold LinkedQueue.pop, bind, gets, AbstractCollection.isEmpty,
    AbstractCollection.__len__, LinkedQueue.attr, bind, gets, ret, modify.
  cbn. repeat (rewrite Hp; cbn).
  destruct nx; cbn; rewrite ?Nat.sub_0_r; reflexivity.
Qed.

Lemma queue_add_empty (h : list Node) f r v :
  LinkedQueue.add v (mkQ h f r 0)
  = (Ok tt, mkQ (h ++ [mkNode v None]) (Some (length h)) (Some (length h)) 1).
Proof. reflexivity. Qed.

Lemma queue_add_node (h : list Node) f p n v nd :
  h !! p = Some nd ->
  LinkedQueue.add v (mkQ h f (Some p) (S n))
  = (Ok tt, mkQ (<[p := mkNode (LinkedQueue.data nd) (Some (length h))]>
                   (h ++ [mkNode v None]))
                f (Some (length h)) (S n + 1)).
Proof.
  intros Hp. unfold LinkedQueue.add, bind, gets, AbstractCollection.isEmpty,
    AbstractCollection.__len__, LinkedQueue.new_node, LinkedQueue.set_next,
    bind, gets, modify.
  cbn. rewrite (lookup_app_l_Some _ _ _ _ Hp). reflexivity.
Qed.

Lemma queue_add_rep (q : queue) cells v :
  queue_rep q cells ->
  exists q', LinkedQueue.add v q = (Ok tt, q') /\
    queue_rep q' (cells ++ [(length (LinkedQueue.store q), v)]).
Proof.
  destruct q as [h f r n]. unfold queue_rep. simpl.
  intros (C & ND & R & ->).
  pose proof (chain_bound _ _ _ C) as B.
  assert (Fresh : length h ∉ cells.*1).
  { intros Hin. rewrite Forall_forall in B. specialize (B _ Hin). lia. }
  assert (D : cells = [] \/ exists cs c, cells = cs ++ [c])
    by (destruct cells using rev_ind; eauto).
  destruct D as [-> | (cs & c & ->)]; [|rename cs into cells].
  - simpl in *. subst f. rewrite queue_add_empty. eexists.
    split; [reflexivity|]. simpl. repeat split.
    + exists None. split; [|reflexivity].
      apply list_lookup_middle. reflexivity.
    + apply NoDup_singleton.
  - destruct c as [p u]. rewrite fmap_app in R. simpl in R.
    rewrite last_snoc in R.
    subst r. rewrite length_app. simpl length.
    replace (length cells + 1) with (S (length cells)) by lia.
    assert (Hp : h !! p = Some (mkNode u None)).
    { clear -C. revert f C. induction cells as [|[a w] cells IH]; intros f C.
      - destruct C as (_ & nx & Hp & C). simpl in C. now subst nx.
      - destruct C as (_ & nx & _ & C). eapply IH. exact C. }
    rewrite (queue_add_node h f p _ v _ Hp). eexists.
    split; [reflexivity|]. simpl. repeat split.
    + rewrite <- app_assoc. simpl.
      apply (chain_set_next _ _ _ _ _ []).
      * exact ND.
      * apply chain_alloc. exact C.
      * split; [reflexivity|]. exists None. split; [|reflexivity].
        apply list_lookup_middle. reflexivity.
      * simpl. intros Hin. apply list_elem_of_singleton in Hin. subst p.
        apply Fresh. rewrite fmap_app. apply elem_of_app. right.
        simpl. apply list_elem_of_here.
    + rewrite fmap_app. simpl. apply NoDup_app. split; [exact ND|].
      split; [|apply NoDup_singleton].
      intros x Hx Hx'. apply list_elem_of_singleton in Hx'. subst x.
      apply Fresh. exact Hx.
    + rewrite fmap_app. simpl. now rewrite last_snoc.
    + rewrite !length_app. simpl. lia.
Qed.

Lemma queue_pop_rep (q : queue) p v cells :
  queue_rep q ((p, v) :: cells) ->
  exists q', LinkedQueue.pop q = (Ok v, q') /\ queue_rep q' cells /\
    LinkedQueue.store q' = LinkedQueue.store q.
Proof.
  destruct q as [h f r n]. unfold queue_rep. simpl.
  intros ((-> & nx & Hp & C) & ND & R & ->).
  rewrite (queue_pop_node h p v nx r _ Hp). eexists.
  split; [reflexivity|]. simpl. split; [|reflexivity].
  apply NoDup_cons in ND as [_ ND]. repeat split; try assumption.
  destruct cells as [|[a w] cells].
  - simpl in C. subst nx. reflexivity.
  - destruct C as (-> & _). rewrite R. reflexivity.
Qed.

Lemma queue_adds_rep (l : list (obj A)) (q : queue) cells :
  queue_rep q cells ->
  exists q' cells', for_ l LinkedQueue.add q = (Ok tt, q') /\
    queue_rep q' (cells ++ cells') /\ cells'.*2 = l.
Proof.
  revert q cells. induction l as [|x l IH]; intros q cells R.
  - exists q, []. rewrite app_nil_r. auto.
  - destruct (queue_add_rep q cells x R) as (q1 & E1 & R1).
    destruct (IH q1 _ R1) as (q' & cells' & E & R' & L).
    exists q', ((length (LinkedQueue.store q), x) :: cells').
    rewrite for_cons. erewrite bind_ok by exact E1.
    split; [exact E|]. split.
    + rewrite <- app_assoc in R'. exact R'.
    + rewrite fmap_cons. simpl. now rewrite L.
Qed.

Lemma queue_pops_rep (cells : list (loc * obj A)) (q : queue) :
  queue_rep q cells ->
  exists q', repeat_ (length cells) LinkedQueue.pop q = (Ok cells.*2, q') /\
    queue_rep q' [].
Proof.
  revert q. induction cells as [|[p v] cells IH]; intros q R.
  - exists q. auto.
  - destruct (queue_pop_rep q p v cells R) as (q1 & E1 & R1 & _).
    destruct (IH q1 R1) as (q' & E & R').
    exists q'. split; [|exact R']. simpl repeat_.
    erewrite bind_ok by exact E1. erewrite bind_ok by exact E.
    reflexivity.
Qed.

Lemma queue_new_rep : queue_rep (snd (LinkedQueue.__init__ (A := A) None)) [].
Proof. apply queue_rep_nil. auto. Qed.


Lemma attr_some {X} name (f : Node -> X) p nd (q : queue) :
  LinkedQueue.store q !! p = Some nd ->
  LinkedQueue.attr name f (Some p) q = (Ok (f nd), q).
Proof.
  intros Hp. unfold LinkedQueue.attr, bind, gets. now rewrite Hp.
Qed.

Lemma set_next_some p nd nx (q : queue) :
  LinkedQueue.store q !! p = Some nd ->
  LinkedQueue.set_next (Some p) nx q
  = (Ok tt, LinkedQueue.set_store
              (<[p := mkNode (LinkedQueue.data nd) nx]> (LinkedQueue.store q))
              q).
Proof.
  intros Hp. unfold LinkedQueue.set_next, bind, gets. now rewrite Hp.
Qed.

(** The loop of [remove] follows the chain. *)
Lemma walk_chain (q : queue) c1 c2 r :
  chain (LinkedQueue.store q) r (c1 ++ c2) ->
  exists r2, LinkedQueue.walk (length c1) r q = (Ok r2, q) /\
             chain (LinkedQueue.store q) r2 c2.
Proof.
  revert r. induction c1 as [|[p v] c1 IH]; intros r C.
  - exists r. split; [reflexivity | exact C].
  - destruct C as (-> & nx & Hp & C). destruct (IH nx C) as (r2 & W & C2).
    exists r2. split; [|exact C2]. cbn [LinkedQueue.walk length].
    erewrite bind_ok by (apply attr_some; exact Hp). exact W.
Qed.

(** [remove(0)] on a queue with a front node. *)
Lemma queue_remove_front (h : list Node) p v nx r n :
  h !! p = Some (mkNode v nx) ->
  LinkedQueue.remove 0 (mkQ h (Some p) r (S n))
  = (Ok v, mkQ h nx (if Nat.eqb n 0 then None else r) n).
Proof.
  intros Hp. unfold LinkedQueue.remove. unfold bind at 1. unfold gets at 1.
  cbn [LinkedQueue._size].
  destruct (Z.ltb_spec 0 0); [lia|].
  destruct (Z.geb_spec 0 (Z.of_nat (S n))); [lia|]. cbn [orb Z.eqb].
  unfold bind, gets, AbstractCollection.isEmpty, AbstractCollection.__len__,
    LinkedQueue.attr, bind, gets, ret, modify.
  cbn. repeat (rewrite Hp; cbn). rewrite Nat.sub_0_r.
  destruct (Nat.eqb n 0); reflexivity.
Qed.

(** [remove(i)] with [i >= 1] on a represented queue: the node after the
    one [i - 1] hops from the front is unlinked; [_rear] is left alone. *)
Lemma queue_remove_inner (q : queue) c1 a u b w c3 :
  queue_rep q (c1 ++ (a, u) :: (b, w) :: c3) ->
  exists q', LinkedQueue.remove (Z.of_nat (S (length c1))) q = (Ok w, q') /\
    chain (LinkedQueue.store q') (LinkedQueue._front q')
          (c1 ++ (a, u) :: c3) /\
    NoDup (c1 ++ (a, u) :: c3).*1 /\
    LinkedQueue._size q' = length (c1 ++ (a, u) :: c3) /\
    LinkedQueue._front q' = LinkedQueue._front q /\
    LinkedQueue._rear q' = LinkedQueue._rear q.
Proof.
  destruct q as [h f r n]. unfold queue_rep. cbn [LinkedQueue.store
    LinkedQueue._front LinkedQueue._rear LinkedQueue._size].
  intros (C & ND & R & ->).
  set (q := mkQ h f r (length (c1 ++ (a, u) :: (b, w) :: c3))).
  destruct (walk_chain q c1 _ f C) as (r2 & W & C2).
  destruct C2 as (-> & nxa & Ha & Cb). destruct Cb as (-> & nxb & Hb & C3).
  assert (ND' : NoDup (c1 ++ (a, u) :: c3).*1).
  { rewrite fmap_app in ND |- *. rewrite !fmap_cons in ND. rewrite fmap_cons.
    apply NoDup_app in ND as (N1 & N2 & N3). apply NoDup_app.
    apply NoDup_cons in N3 as (Ha3 & N3). apply NoDup_cons in N3 as (_ & N3).
    split; [exact N1|]. split.
    - intros x Hx Hx'. apply (N2 x Hx).
      apply elem_of_cons in Hx' as [->|Hx']; [apply list_elem_of_here|].
      now do 2 apply list_elem_of_further.
    - apply NoDup_cons. split; [|exact N3].
      intros Hin. apply Ha3. now apply list_elem_of_further. }
  assert (Hac3 : a ∉ c3.*1).
  { rewrite fmap_app, fmap_cons in ND'. apply NoDup_app in ND' as (_ & _ & N).
    now apply NoDup_cons in N as (N & _). }
  assert (L : length (c1 ++ (a, u) :: (b, w) :: c3)
              = S (S (length c1 + length c3)))
    by (rewrite length_app; simpl; lia).
  unfold LinkedQueue.remove. unfold bind at 1. unfold gets at 1.
  cbn [LinkedQueue._size q].
  destruct (Z.ltb_spec (Z.of_nat (S (length c1))) 0); [lia|].
  destruct (Z.geb_spec (Z.of_nat (S (length c1)))
              (Z.of_nat (length (c1 ++ (a, u) :: (b, w) :: c3)))); [lia|].
  cbn [orb].
  destruct (Z.eqb_spec (Z.of_nat (S (length c1))) 0); [lia|].
  replace (Z.to_nat (Z.of_nat (S (length c1)) - 1)) with (length c1) by lia.
  erewrite bind_ok; cycle 1.
  { unfold bind at 1. unfold gets at 1. cbn [LinkedQueue._front q].
    erewrite bind_ok by exact W.
    erewrite bind_ok by (apply attr_some; exact Ha).
    erewrite bind_ok by (apply attr_some; exact Hb).
    erewrite bind_ok by (apply attr_some; exact Ha).
    erewrite bind_ok by (apply attr_some; exact Hb).
    erewrite bind_ok by (apply set_next_some; exact Ha).
    reflexivity. }
  unfold bind, modify, gets, ret, AbstractCollection.isEmpty,
    AbstractCollection.__len__. cbn. rewrite L. cbn.
  eexists. split; [reflexivity|]. cbn.
  split; [|split; [exact ND'|split; [|split; reflexivity]]].
  - apply (chain_set_next h f c1 a u ((b, w) :: c3) c3 nxb);
      [exact ND | | exact C3 | exact Hac3].
    unfold queue_rep in *. clear -C Ha Hb C3. exact C.
  - rewrite length_app. simpl. lia.
Qed.

(** On a represented queue, [remove(0)] and [pop()] are the same. *)
Lemma queue_remove_0_pop (q : queue) cells :
  queue_rep q cells -> cells <> [] ->
  LinkedQueue.remove 0 q = LinkedQueue.pop q.
Proof.
  destruct q as [h f r n]. intros (C & _ & _ & S) Hne.
  destruct cells as [|[p v] cells]; [congruence|].
  destruct C as (E & nx & Hp & C). cbn in E, Hp, C, S. subst f n.
  cbn [length].
  rewrite (queue_remove_front h p v nx r _ Hp).
  rewrite (queue_pop_node h p v nx r _ Hp).
  destruct cells as [|[a w] cells].
  - simpl in C. subst nx. reflexivity.
  - destruct C as (-> & _). reflexivity.
Qed.

(** The generator of [__iter__] steps through the chain. *)
Lemma chain_enumerates (h : list Node) r cells :
  chain h r cells -> enumerates (LinkedQueue.gen_next h) r cells.*2.
Proof.
  revert r. induction cells as [|[p v] cells IH]; intros r C.
  - simpl in C. subst r. reflexivity.
  - destruct C as (-> & nx & Hp & C). exists nx. split; [|now apply IH].
    simpl. now rewrite Hp.
Qed.

Lemma queue_add_pop_all (es : list (obj A)) :
  exists q', (for_ es LinkedQueue.add >> repeat_ (length es) LinkedQueue.pop)
               (snd (LinkedQueue.__init__ None)) = (Ok es, q') /\
             queue_rep q' [].
Proof.
  destruct (queue_adds_rep es _ [] queue_new_rep) as (q1 & cells & E1 & R1 & L).
  rewrite app_nil_l in R1.
  destruct (queue_pops_rep cells q1 R1) as (q' & E & R').
  exists q'. split; [|exact R'].
  erewrite bind_ok by exact E1.
  rewrite <- L, length_fmap. exact E.
Qed.

Lemma queue_pop_cases (q : queue) :
  (AbstractCollection.isEmpty q = true /\
   LinkedQueue.pop q = (Raise (KeyError "The queue is empty."), q)) \/
  (AbstractCollection.isEmpty q = false /\
   ((exists v q', LinkedQueue.pop q = (Ok v, q')) \/
    (exists e, LinkedQueue.pop q = (Raise e, q) /\
               is_EmptyCollection (Raise (X := obj A) e) = false))).
Proof.
  destruct q as [h f r [|n]].
  - left. split; [reflexivity|]. now apply queue_pop_empty.
  - right. split; [reflexivity|].
    destruct f as [p|]; [destruct (h !! p) as [[v nx]|] eqn:Hp|].
    + left. rewrite (queue_pop_node h p v nx r n Hp). eauto.
    + right. exists (SystemError "dangling reference"). split; [|reflexivity].
      unfold LinkedQueue.pop, bind, gets, LinkedQueue.attr, bind, gets.
      cbn. rewrite Hp. reflexivity.
    + right. eexists. split; reflexivity.
Qed.

Lemma queue_peek_cases (q : queue) :
  (AbstractCollection.isEmpty q = true /\
   LinkedQueue.peek q = (Raise (KeyError "The queue is empty."), q)) \/
  (AbstractCollection.isEmpty q = false /\
   ((exists v, LinkedQueue.peek q = (Ok v, q)) \/
    (exists e, LinkedQueue.peek q = (Raise e, q) /\
               is_EmptyCollection (Raise (X := obj A) e) = false))).
Proof.
  destruct q as [h f r [|n]].
  - left. split; reflexivity.
  - right. split; [reflexivity|].
    destruct f as [p|]; [destruct (h !! p) as [[v nx]|] eqn:Hp|].
    + left. exists v.
      unfold LinkedQueue.peek, bind, gets, LinkedQueue.attr, bind, gets.
      cbn. rewrite Hp. reflexivity.
    + right. exists (SystemError "dangling reference"). split; [|reflexivity].
      unfold LinkedQueue.peek, bind, gets, LinkedQueue.attr, bind, gets.
      cbn. rewrite Hp. reflexivity.
    + right. eexists. split; reflexivity.
Qed.

(** [remove(i)] keeps the representation when the node it unlinks is not
    the last one. *)
Lemma queue_remove_keeps_rep (q : queue) c1 a u b w c3 :
  queue_rep q (c1 ++ (a, u) :: (b, w) :: c3) -> c3 <> [] ->
  exists q', LinkedQueue.remove (Z.of_nat (S (length c1))) q = (Ok w, q') /\
    queue_rep q' (c1 ++ (a, u) :: c3).
Proof.
  intros R Hne.
  destruct (queue_remove_inner q c1 a u b w c3 R)
    as (q' & E & C & ND & Sz & _ & Rr).
  exists q'. split; [exact E|]. repeat split; try assumption.
  rewrite Rr. destruct R as (_ & _ & -> & _).
  rewrite !fmap_app, !fmap_cons, !last_app.
  destruct c3 as [|[x y] c3]; [congruence|]. reflexivity.
Qed.

(** [remove(size - 1)] on a represented queue of two or more nodes: the
    chain loses its last node, and [_rear] keeps referring to it. *)
Lemma queue_remove_last_rear (q : queue) c1 a u b w :
  queue_rep q (c1 ++ [(a, u); (b, w)]) ->
  exists q', LinkedQueue.remove (Z.of_nat (LinkedQueue._size q) - 1) q
             = (Ok w, q') /\
    chain (LinkedQueue.store q') (LinkedQueue._front q') (c1 ++ [(a, u)]) /\
    LinkedQueue._size q' = length (c1 ++ [(a, u)]) /\
    LinkedQueue._rear q' = Some b /\
    b ∉ (c1 ++ [(a, u)]).*1.
Proof.
  intros R.
  destruct (queue_remove_inner q c1 a u b w [] R)
    as (q' & E & C & _ & Sz & _ & Rr).
  exists q'. destruct R as (_ & ND & Rq & Sq).
  replace (Z.of_nat (LinkedQueue._size q) - 1)%Z
    with (Z.of_nat (S (length c1)))
    by (rewrite Sq, length_app; simpl; lia).
  split; [exact E|]. split; [exact C|]. split; [exact Sz|]. split.
  - rewrite Rr, Rq.
    change (c1 ++ [(a, u); (b, w)]) with (c1 ++ [(a, u)] ++ [(b, w)]).
    rewrite app_assoc, fmap_app. apply last_snoc.
  - change (c1 ++ [(a, u); (b, w)]) with (c1 ++ [(a, u)] ++ [(b, w)]) in ND.
    rewrite app_assoc, fmap_app in ND. apply NoDup_app in ND as (_ & N & _).
    intros Hin. apply (N b Hin). apply list_elem_of_here.
Qed.

End LinkedQueueProofs.

Lemma queue_12_reachable : queue_reachable queue_12.
Proof.
  unfold queue_12.
  apply (queue_reach_step _ (QAdd _)).
  apply (queue_reach_step _ (QAdd _)).
  apply queue_reach_new.
Qed.

Lemma queue_12_removed_reachable : queue_reachable queue_12_removed.
Proof.
  replace queue_12_removed with (state_after (queue_run (QRemove 1)) queue_12)
    by (vm_compute; reflexivity).
  apply queue_reach_step, queue_12_reachable.
Qed.

Lemma queue_12_removed_3_reachable : queue_reachable queue_12_removed_3.
Proof.
  unfold queue_12_removed_3.
  apply (queue_reach_step _ (QAdd _)), queue_12_removed_reachable.
Qed.

Lemma queue_12_removed_3_popped_reachable :
  queue_reachable queue_12_removed_3_popped.
Proof.
  replace queue_12_removed_3_popped
    with (state_after (queue_run QPop) queue_12_removed_3)
    by (vm_compute; reflexivity).
  apply queue_reach_step, queue_12_removed_3_reachable.
Qed.

(** ** Where [__eq__] is exact *)

Section EqCorollaries.

Context {A : Type} `{EqDecision A}.



End EqCorollaries.

(** ** LinkedQueue *)

Section LinkedQueueMore.

Context {A : Type} `{EqDecision A}.

Local Abbreviation queue := (LinkedQueue.t A).
Local Abbreviation mkQ := (@LinkedQueue.mk A).

Lemma drain_enumerates {X} (nx : X -> res (obj A * X)) (l : list (obj A))
    fuel x :
  enumerates nx x l -> length l < fuel ->
  AbstractCollection.drain nx fuel x = Some (Ok l).
Proof.
  revert fuel x. induction l as [|v l IH]; intros fuel x E F.
  - destruct fuel; [simpl in F; lia|]. simpl in E |- *. now rewrite E.
  - destruct fuel; [simpl in F; lia|]. simpl in F.
    destruct E as (x' & E & E'). simpl. rewrite E.
    rewrite (IH fuel x' E') by lia. reflexivity.
Qed.

Lemma queue_to_list_rep (q : queue) cells fuel :
  queue_rep q cells -> length cells < fuel ->
  AbstractCollection.to_list fuel (LinkedQueue.__iter__ q)
  = Some (Ok cells.*2).
Proof.
  intros (C & _) F. unfold AbstractCollection.to_list.
  apply drain_enumerates.
  - exact (chain_enumerates _ _ _ C).
  - now rewrite length_fmap.
Qed.

Lemma queue_remove_out_of_range (q : queue) (i : Z) :
  (i < 0 \/ Z.of_nat (LinkedQueue._size q) <= i)%Z ->
  LinkedQueue.remove i q
  = (Raise (AttributeError "i must be >= 0 and < size of queue"), q).
Proof.
  intros Hi. unfold LinkedQueue.remove. unfold bind at 1. unfold gets at 1.
  destruct (Z.ltb_spec i 0), (Z.geb_spec i (Z.of_nat (LinkedQueue._size q)));
    try reflexivity; lia.
Qed.

Lemma queue_clear_eq (q : queue) :
  LinkedQueue.clear q = (Ok tt, mkQ (LinkedQueue.store q) None None 0).
Proof. reflexivity. Qed.

Lemma queue_clear_rep (q : queue) :
  queue_rep (state_after LinkedQueue.clear q) [].
Proof. apply queue_rep_nil. auto. Qed.

(** [remove(i)] on a represented queue, for every index but the last of
    two or more. *)
Lemma queue_remove_rep (q : queue) cells (i : nat) :
  queue_rep q cells -> i < length cells ->
  ~ (i = length cells - 1 /\ 2 <= length cells) ->
  exists v q', cells.*2 !! i = Some v /\
    LinkedQueue.remove (Z.of_nat i) q = (Ok v, q') /\
    queue_rep q' (delete i cells).
Proof.
  intros R Hi Hs. destruct i as [|i].
  - destruct cells as [|[p v] cells]; [simpl in Hi; lia|].
    exists v. destruct (queue_pop_rep q p v cells R) as (q' & E & R' & _).
    exists q'. split; [reflexivity|]. split; [|exact R'].
    change (Z.of_nat 0) with 0%Z.
    rewrite (queue_remove_0_pop q _ R); [exact E | discriminate].
  - destruct (lookup_lt_is_Some_2 cells i) as [[a u] Ha]; [lia|].
    destruct (lookup_lt_is_Some_2 cells (S i)) as [[b w] Hb]; [lia|].
    pose proof (take_drop_middle cells i (a, u) Ha) as D1.
    assert (Hb' : drop (S i) cells !! 0 = Some (b, w)).
    { rewrite lookup_drop. now rewrite Nat.add_0_r. }
    pose proof (take_drop_middle (drop (S i) cells) 0 (b, w) Hb') as D2.
    rewrite take_0, app_nil_l, drop_drop in D2.
    replace (S i + 1) with (S (S i)) in D2 by lia.
    set (c1 := take i cells) in *. set (c3 := drop (S (S i)) cells) in *.
    assert (L1 : length c1 = i) by (subst c1; rewrite length_take; lia).
    assert (Dc : cells = c1 ++ (a, u) :: (b, w) :: c3)
      by (now rewrite D2, D1).
    assert (H3 : c3 <> []).
    { intros E3. apply (f_equal length) in Dc.
      rewrite E3, length_app in Dc. simpl in Dc. lia. }
    rewrite Dc in R.
    destruct (queue_remove_keeps_rep q c1 a u b w c3 R H3) as (q' & E & R').
    rewrite L1 in E.
    exists w, q'. split; [|split; [exact E|]].
    + rewrite list_lookup_fmap, Hb. reflexivity.
    + replace (delete (S i) cells) with (c1 ++ (a, u) :: c3); [exact R'|].
      rewrite Dc. rewrite <- L1.
      change (c1 ++ (a, u) :: (b, w) :: c3)
        with (c1 ++ [(a, u)] ++ (b, w) :: c3).
      rewrite app_assoc.
      replace (S (length c1)) with (length (c1 ++ [(a, u)]))
        by (rewrite length_app; simpl; lia).
      rewrite delete_middle, <- app_assoc. reflexivity.
Qed.

Lemma queue_init_rep (src : option (AbstractCollection.source A)) :
  exists cells, LinkedQueue.__init__ src = (Ok tt, snd (LinkedQueue.__init__ src))
    /\ queue_rep (snd (LinkedQueue.__init__ src)) cells /\
    cells.*2 = match src with
               | Some s => if AbstractCollection.truth s
                           then AbstractCollection.items s else []
               | None => []
               end.
Proof.
  unfold LinkedQueue.__init__, AbstractCollection.__init__.
  set (q0 := mkQ [] None None 0).
  assert (E0 : modify (AbstractCollection.set_size 0) q0 = (Ok tt, q0))
    by reflexivity.
  erewrite bind_ok by exact E0.
  assert (R0 : queue_rep q0 []) by (apply queue_rep_nil; auto).
  destruct src as [[tr its]|];
    [cbn [AbstractCollection.truth AbstractCollection.items]; destruct tr|].
  - destruct (queue_adds_rep its q0 [] R0) as (q' & cells & E & R & L).
    rewrite app_nil_l in R.
    change (for_ its AbstractCollection.add q0)
      with (for_ its LinkedQueue.add q0).
    rewrite E. exists cells. split; [reflexivity|]. split; [exact R | exact L].
  - exists []. split; [reflexivity|]. split; [exact R0 | reflexivity].
  - exists []. split; [reflexivity|]. split; [exact R0 | reflexivity].
Qed.

Lemma queue_safe_step_rep (q : queue) cells o :
  queue_rep q cells -> queue_safe o q ->
  exists cells', queue_rep (state_after (queue_run o) q) cells'.
Proof.
  intros R Sf. unfold state_after.
  destruct o as [v | | | i |]; cbn [queue_run].
  - destruct (queue_add_rep q cells v R) as (q' & E & R'). rewrite E. eauto.
  - destruct cells as [|[p v] cells].
    + apply queue_rep_nil in R as R0. destruct R0 as (_ & _ & S0).
      unfold bind. rewrite (queue_pop_empty q S0). eauto.
    + destruct (queue_pop_rep q p v cells R) as (q' & E & R' & _).
      unfold bind. rewrite E. eauto.
  - unfold bind.
    destruct (queue_peek_cases q)
      as [(_ & ->)|(_ & [(v & ->)|(e & -> & _)])]; eauto.
  - assert (S : LinkedQueue._size q = length cells) by apply R.
    destruct (Z_lt_dec i 0) as [Neg|Pos];
      [|destruct (Z_le_dec (Z.of_nat (length cells)) i) as [Big|Small]].
    + unfold bind. rewrite queue_remove_out_of_range by lia. eauto.
    + unfold bind. rewrite queue_remove_out_of_range by lia. eauto.
    + cbn [queue_safe] in Sf. rewrite S in Sf.
      destruct (queue_remove_rep q cells (Z.to_nat i) R) as (v & q' & _ & E & R');
        [lia | lia |].
      rewrite Z2Nat.id in E by lia. unfold bind. rewrite E. eauto.
  - exists []. apply queue_clear_rep.
Qed.

Lemma queue_reachable_safe_rep (q : queue) :
  queue_reachable_safe q -> exists cells, queue_rep q cells.
Proof.
  induction 1 as [src | q o _ [cells R] Sf].
  - destruct (queue_init_rep src) as (cells & _ & R & _). eauto.
  - exact (queue_safe_step_rep q cells o R Sf).
Qed.

End LinkedQueueMore.

(** ** Array *)

Lemma bindN_returns {St X Y} (m : N St X) (k : X -> N St Y) s x s' :
  m s = (Returns x, s') -> bindN m k s = k x s'.
Proof. intros E. unfold bindN. now rewrite E. Qed.

Section ArrayProofs.

Context {B : Type}.

Local Abbreviation array := (Array.t B).

Lemma set_element_nat n (e : list (option (obj B))) i v k :
  i < length e -> k = Z.of_nat i ->
  Array.set_element k v (Array.mk n e)
  = (Ok tt, Array.mk n (<[i := Some v]> e)).
Proof.
  intros H ->. unfold Array.set_element, DynamicArray.array_set. simpl.
  now rewrite index_nat by exact H.
Qed.

Lemma get_element_nat n (e : list (option (obj B))) i v k :
  e !! i = Some (Some v) -> k = Z.of_nat i ->
  Array.get_element k (Array.mk n e) = (Ok v, Array.mk n e).
Proof.
  intros H ->. unfold Array.get_element, DynamicArray.array_get. simpl.
  rewrite index_nat by (eapply lookup_lt_Some; exact H). now rewrite H.
Qed.

(** The loop of [clear] overwrites the slots one after the other. *)
Lemma clear_loop n (pre rest : list (option (obj B))) v :
  for_ (range (Z.of_nat (length pre)) (Z.of_nat (length pre + length rest)))
       (fun i => Array.set_element i v) (Array.mk n (pre ++ rest))
  = (Ok tt, Array.mk n (pre ++ replicate (length rest) (Some v))).
Proof.
  revert pre. induction rest as [|x rest IH]; intros pre.
  - rewrite range_nil by (simpl; lia). reflexivity.
  - rewrite range_cons by (simpl; lia). rewrite for_cons.
    erewrite bind_ok; cycle 1.
    { apply (set_element_nat _ _ (length pre)); [|reflexivity].
      rewrite length_app. simpl. lia. }
    rewrite insert_middle by reflexivity.
    change (pre ++ Some v :: rest) with (pre ++ [Some v] ++ rest).
    rewrite app_assoc.
    replace (Z.of_nat (length pre) + 1)%Z
      with (Z.of_nat (length (pre ++ [Some v])))
      by (rewrite length_app; simpl; lia).
    replace (Z.of_nat (length pre + length (x :: rest)))
      with (Z.of_nat (length (pre ++ [Some v]) + length rest))
      by (rewrite length_app; simpl; lia).
    rewrite IH, <- app_assoc. reflexivity.
Qed.

Lemma array_clear_eq n (e : list (option (obj B))) v :
  length e = n ->
  Array.clear v (Array.mk n e) = (Ok tt, Array.mk n (replicate n (Some v))).
Proof.
  intros L. unfold Array.clear. unfold bind at 1. unfold gets at 1.
  cbn [Array.__len__ Array._size].
  pose proof (clear_loop n [] e v) as C. rewrite !app_nil_l in C.
  change (Z.of_nat (length (@nil (option (obj B))))) with 0%Z in C.
  change (length (@nil (option (obj B))) + length e) with (length e) in C.
  rewrite L in C. exact C.
Qed.

Lemma array_init_eq (size : Z) :
  Array.__init__ (B := B) size
  = if (0 <? size)%Z
    then Returns (Array.mk (Z.to_nat size)
                    (replicate (Z.to_nat size) (Some PyNone)))
    else Raises (AssertionError "Array size must be > 0").
Proof.
  unfold Array.__init__. rewrite Z.gtb_ltb.
  destruct (0 <? size)%Z; [|reflexivity].
  now rewrite array_clear_eq by apply length_replicate.
Qed.

Lemma array_rep_eq (a : array) l :
  array_rep a l -> a = Array.mk (length l) (Some <$> l).
Proof. destruct a as [n e]. intros (E & L & _). simpl in *. now subst. Qed.

Lemma array_rep_intro n (l : list (obj B)) :
  length l = n -> 0 < n -> array_rep (Array.mk n (Some <$> l)) l.
Proof. intros L H. repeat split; assumption. Qed.

Lemma array_getitem_in_n n (l : list (obj B)) i v :
  length l = n -> l !! i = Some v ->
  Array.__getitem__ (Z.of_nat i) (Array.mk n (Some <$> l))
  = (Returns v, Array.mk n (Some <$> l)).
Proof.
  intros <- Hi. pose proof (lookup_lt_Some _ _ _ Hi) as Lt.
  unfold Array.__getitem__, Array.in_range. cbn [Array.__len__ Array._size].
  destruct (Z.geb_spec (Z.of_nat i) 0); [|lia].
  destruct (Z.ltb_spec (Z.of_nat i) (Z.of_nat (length l))); [|lia].
  cbn [andb assert_]. unfold bindN, retN, liftN.
  rewrite (get_element_nat _ _ i v); [reflexivity | | reflexivity].
  now rewrite list_lookup_fmap, Hi.
Qed.

Lemma array_getitem_in (l : list (obj B)) i v :
  l !! i = Some v ->
  Array.__getitem__ (Z.of_nat i) (Array.mk (length l) (Some <$> l))
  = (Returns v, Array.mk (length l) (Some <$> l)).
Proof. now apply array_getitem_in_n. Qed.

Lemma array_setitem_in (l : list (obj B)) i v :
  i < length l ->
  Array.__setitem__ (Z.of_nat i) v (Array.mk (length l) (Some <$> l))
  = (Returns tt, Array.mk (length l) (Some <$> <[i := v]> l)).
Proof.
  intros Lt.
  unfold Array.__setitem__, Array.in_range. cbn [Array.__len__ Array._size].
  destruct (Z.geb_spec (Z.of_nat i) 0); [|lia].
  destruct (Z.ltb_spec (Z.of_nat i) (Z.of_nat (length l))); [|lia].
  cbn [andb assert_]. unfold bindN, retN, liftN.
  rewrite (set_element_nat _ _ i); [|now rewrite length_fmap | reflexivity].
  cbn [fst snd of_res]. now rewrite list_fmap_insert.
Qed.

Lemma array_setitem_in_n n (l : list (obj B)) i v :
  length l = n -> i < n ->
  Array.__setitem__ (Z.of_nat i) v (Array.mk n (Some <$> l))
  = (Returns tt, Array.mk n (Some <$> <[i := v]> l)).
Proof. intros <- Lt. now apply array_setitem_in. Qed.

Lemma array_getitem_out (a : array) k :
  ~ (0 <= k < Z.of_nat (Array.__len__ a))%Z ->
  Array.__getitem__ k a
  = (Raises (AssertionError "Array subscript out of range"), a).
Proof.
  intros Hk. unfold Array.__getitem__, Array.in_range.
  destruct (Z.geb_spec k 0), (Z.ltb_spec k (Z.of_nat (Array.__len__ a)));
    try reflexivity; lia.
Qed.

Lemma array_setitem_out (a : array) k v :
  ~ (0 <= k < Z.of_nat (Array.__len__ a))%Z ->
  Array.__setitem__ k v a
  = (Raises (AssertionError "Array subscript out of range"), a).
Proof.
  intros Hk. unfold Array.__setitem__, Array.in_range.
  destruct (Z.geb_spec k 0), (Z.ltb_spec k (Z.of_nat (Array.__len__ a)));
    try reflexivity; lia.
Qed.

Lemma array_items_rep (a : array) l :
  array_rep a l -> array_items a = Returns <$> l.
Proof.
  intros R. rewrite (array_rep_eq a l R). apply list_eq. intros i.
  unfold array_items. cbn [Array.__len__ Array._size].
  rewrite !list_lookup_fmap.
  destruct (l !! i) as [v|] eqn:Hi.
  - rewrite range_lookup by (apply lookup_lt_Some in Hi; lia). simpl.
    rewrite Z.add_0_l. now rewrite (array_getitem_in l i v Hi).
  - rewrite (lookup_ge_None_2 (range _ _)); [reflexivity|].
    rewrite range_length. apply lookup_ge_None_1 in Hi. lia.
Qed.

Lemma array_new_rep size (a : array) :
  Array.__init__ size = Returns a ->
  (0 < size)%Z /\ array_rep a (replicate (Z.to_nat size) PyNone).
Proof.
  rewrite array_init_eq. destruct (Z.ltb_spec 0 size); [|discriminate].
  intros [= <-]. split; [exact H|]. unfold array_rep. simpl.
  rewrite fmap_replicate, length_replicate. repeat split. lia.
Qed.

Lemma array_step_rep (a : array) l o :
  array_rep a l ->
  exists l', array_rep (snd (array_run o a)) l' /\ length l' = length l.
Proof.
  intros R. pose proof R as (_ & L & P). rewrite (array_rep_eq a l R).
  rewrite <- L in P.
  destruct o as [i v | i | v |]; cbn [array_run].
  - destruct (decide (0 <= i < Z.of_nat (length l))%Z) as [Hi|Hi].
    + replace i with (Z.of_nat (Z.to_nat i)) by lia.
      rewrite array_setitem_in by lia. cbn [snd].
      exists (<[Z.to_nat i := v]> l).
      split; [apply array_rep_intro; [apply length_insert | exact P]|].
      apply length_insert.
    + rewrite array_setitem_out by exact Hi. exists l.
      split; [now apply array_rep_intro | reflexivity].
  - exists l. split; [|reflexivity]. unfold bindN.
    destruct (decide (0 <= i < Z.of_nat (length l))%Z) as [Hi|Hi].
    + destruct (lookup_lt_is_Some_2 l (Z.to_nat i)) as [w Hw]; [lia|].
      replace i with (Z.of_nat (Z.to_nat i)) by lia.
      rewrite (array_getitem_in l _ w Hw). now apply array_rep_intro.
    + rewrite array_getitem_out by exact Hi. now apply array_rep_intro.
  - unfold liftN. rewrite array_clear_eq by apply length_fmap. cbn [snd].
    exists (replicate (length l) v). rewrite length_replicate.
    split; [|reflexivity].
    rewrite <- fmap_replicate. apply array_rep_intro; [|exact P].
    apply length_replicate.
  - exists l. split; [now apply array_rep_intro | reflexivity].
Qed.

Lemma array_reachable_rep (a : array) :
  array_reachable a -> exists l, array_rep a l.
Proof.
  induction 1 as [size a E | a o _ [l R]].
  - apply array_new_rep in E as (_ & R). eauto.
  - destruct (array_step_rep a l o R) as (l' & R' & _). eauto.
Qed.

End ArrayProofs.

(** ** Array2D *)

Section Array2DProofs.

Context {B : Type}.

Local Abbreviation grid := (Array2D.t B).
Local Abbreviation mkG :=
  (fun n (l : list (obj (Array.t B))) =>
     Array2D.mk (Array.mk n (Some <$> l))).

Lemma on_rows_eq {X} (m : N (Array.t (Array.t B)) X) (g : grid) r rows' :
  m (Array2D.rows g) = (r, rows') ->
  Array2D.on_rows m g = (r, Array2D.mk rows').
Proof. intros E. unfold Array2D.on_rows. now rewrite E. Qed.

Lemma array2d_rep_eq (g : grid) nc rs :
  array2d_rep g nc rs -> g = mkG (length rs) (row_obj nc <$> rs).
Proof. destruct g as [r]. intros (E & _). simpl in E. now subst. Qed.

Lemma grid_row_get n (l : list (obj (Array.t B))) i x :
  length l = n -> l !! i = Some x ->
  Array2D.on_rows (Array.__getitem__ (Z.of_nat i)) (mkG n l)
  = (Returns x, mkG n l).
Proof.
  intros L Hi. apply on_rows_eq. now apply array_getitem_in_n.
Qed.

Lemma grid_slot_set n (l : list (obj (Array.t B))) i x :
  i < length l ->
  Array2D.on_rows (liftN (Array.set_element (Z.of_nat i) x)) (mkG n l)
  = (Returns tt, mkG n (<[i := x]> l)).
Proof.
  intros Hi. apply on_rows_eq. unfold liftN. cbn [Array2D.rows].
  rewrite (set_element_nat _ _ i);
    [|now rewrite length_fmap | reflexivity].
  cbn [fst snd of_res]. now rewrite list_fmap_insert.
Qed.

Lemma grid_slot_get n (l : list (obj (Array.t B))) i x :
  l !! i = Some x ->
  Array2D.on_rows (liftN (Array.get_element (Z.of_nat i))) (mkG n l)
  = (Returns x, mkG n l).
Proof.
  intros Hi. apply on_rows_eq. unfold liftN. cbn [Array2D.rows].
  rewrite (get_element_nat _ _ i x); [reflexivity | | reflexivity].
  now rewrite list_lookup_fmap, Hi.
Qed.

Lemma grid_num_cols nc (rs : list (list (obj B))) :
  0 < length rs ->
  Array2D.num_cols (mkG (length rs) (row_obj nc <$> rs))
  = (Returns nc, mkG (length rs) (row_obj nc <$> rs)).
Proof.
  intros P. destruct rs as [|r rs]; [simpl in P; lia|].
  unfold Array2D.num_cols.
  erewrite bindN_returns; cycle 1.
  { apply (grid_row_get _ _ 0 (row_obj nc r)); [|reflexivity].
    now rewrite length_fmap. }
  reflexivity.
Qed.

Lemma grid_check nc (rs : list (list (obj B))) row col :
  0 < length rs ->
  Array2D.check_subscript row col (mkG (length rs) (row_obj nc <$> rs))
  = (if subscript_ok (length rs) nc row col then Returns tt
     else Raises (AssertionError "Array subscript out of range."),
     mkG (length rs) (row_obj nc <$> rs)).
Proof.
  intros P. unfold Array2D.check_subscript, subscript_ok.
  rewrite !Z.geb_leb.
  destruct (0 <=? row)%Z; [|reflexivity].
  unfold bindN at 1. unfold bindN at 1. unfold Array2D.num_rows at 1.
  cbn [Array2D.rows Array.__len__ Array._size andb].
  destruct (row <? Z.of_nat (length rs))%Z; [|reflexivity].
  destruct (0 <=? col)%Z; [|reflexivity]. cbn [andb].
  unfold bindN. rewrite (grid_num_cols nc rs P). unfold retN.
  destruct (col <? Z.of_nat nc)%Z; reflexivity.
Qed.

Lemma subscript_ok_spec nr nc row col :
  subscript_ok nr nc row col = true
  <-> (0 <= row < Z.of_nat nr /\ 0 <= col < Z.of_nat nc)%Z.
Proof.
  unfold subscript_ok. rewrite !andb_true_iff.
  rewrite !Z.leb_le, !Z.ltb_lt. lia.
Qed.

Lemma grid_getitem_in nc (rs : list (list (obj B))) i j r v :
  Forall (fun r => length r = nc) rs ->
  rs !! i = Some r -> r !! j = Some v ->
  Array2D.__getitem__ [Z.of_nat i; Z.of_nat j]
    (mkG (length rs) (row_obj nc <$> rs))
  = (Returns v, mkG (length rs) (row_obj nc <$> rs)).
Proof.
  intros F Hi Hj. pose proof (lookup_lt_Some _ _ _ Hi) as Li.
  pose proof (lookup_lt_Some _ _ _ Hj) as Lj.
  assert (Lr : length r = nc)
    by (rewrite Forall_lookup in F; exact (F i r Hi)).
  unfold Array2D.__getitem__.
  erewrite bindN_returns; cycle 1.
  { rewrite grid_check by lia.
    replace (subscript_ok _ _ _ _) with true; [reflexivity|].
    symmetry. apply subscript_ok_spec. lia. }
  erewrite bindN_returns; cycle 1.
  { apply (grid_row_get _ _ i (row_obj nc r)); [now rewrite length_fmap|].
    now rewrite list_lookup_fmap, Hi. }
  unfold row_obj. rewrite (array_getitem_in_n nc r j v Lr Hj). reflexivity.
Qed.

Lemma grid_getitem_out nc (rs : list (list (obj B))) row col :
  0 < length rs ->
  ~ (0 <= row < Z.of_nat (length rs) /\ 0 <= col < Z.of_nat nc)%Z ->
  Array2D.__getitem__ [row; col] (mkG (length rs) (row_obj nc <$> rs))
  = (Raises (AssertionError "Array subscript out of range."),
     mkG (length rs) (row_obj nc <$> rs)).
Proof.
  intros P Hn. unfold Array2D.__getitem__. unfold bindN at 1.
  rewrite grid_check by exact P.
  destruct (subscript_ok (length rs) nc row col) eqn:E; [|reflexivity].
  apply subscript_ok_spec in E. contradiction.
Qed.

Lemma grid_setitem_out nc (rs : list (list (obj B))) row col v :
  0 < length rs ->
  ~ (0 <= row < Z.of_nat (length rs) /\ 0 <= col < Z.of_nat nc)%Z ->
  Array2D.__setitem__ [row; col] v (mkG (length rs) (row_obj nc <$> rs))
  = (Raises (AssertionError "Array subscript out of range."),
     mkG (length rs) (row_obj nc <$> rs)).
Proof.
  intros P Hn. unfold Array2D.__setitem__. unfold bindN at 1.
  rewrite grid_check by exact P.
  destruct (subscript_ok (length rs) nc row col) eqn:E; [|reflexivity].
  apply subscript_ok_spec in E. contradiction.
Qed.

Lemma grid_setitem_in nc (rs : list (list (obj B))) i j r v :
  Forall (fun r => length r = nc) rs ->
  rs !! i = Some r -> j < length r ->
  Array2D.__setitem__ [Z.of_nat i; Z.of_nat j] v
    (mkG (length rs) (row_obj nc <$> rs))
  = (Returns tt,
     mkG (length rs) (row_obj nc <$> <[i := <[j := v]> r]> rs)).
Proof.
  intros F Hi Lj. pose proof (lookup_lt_Some _ _ _ Hi) as Li.
  assert (Lr : length r = nc)
    by (rewrite Forall_lookup in F; exact (F i r Hi)).
  unfold Array2D.__setitem__.
  erewrite bindN_returns; cycle 1.
  { rewrite grid_check by lia.
    replace (subscript_ok _ _ _ _) with true; [reflexivity|].
    symmetry. apply subscript_ok_spec. lia. }
  erewrite bindN_returns; cycle 1.
  { apply (grid_row_get _ _ i (row_obj nc r)); [now rewrite length_fmap|].
    now rewrite list_lookup_fmap, Hi. }
  unfold row_obj at 1. subst nc.
  rewrite (array_setitem_in r j v Lj).
  erewrite bindN_returns; cycle 1.
  { apply grid_slot_set. now rewrite length_fmap. }
  rewrite <- (length_insert r j v) at 1.
  change (PyVal (Array.mk (length (<[j := v]> r)) (Some <$> <[j := v]> r)))
    with (row_obj (length (<[j := v]> r)) (<[j := v]> r)).
  rewrite length_insert, <- list_fmap_insert. reflexivity.
Qed.


(** The loop of the constructor fills the slots with new rows. *)
Lemma fill_rows_loop n (num_cols : Z) (k : nat) (d : list (list (obj B))) :
  (0 < num_cols)%Z -> length d + k = n ->
  Array2D.fill_rows
    (range (Z.of_nat (length d)) (Z.of_nat (length d + k))) num_cols
    (mkG n ((row_obj (Z.to_nat num_cols) <$> d) ++ replicate k PyNone))
  = (Returns tt,
     mkG n (row_obj (Z.to_nat num_cols)
              <$> (d ++ replicate k (replicate (Z.to_nat num_cols) PyNone)))).
Proof.
  intros Pc. revert d. induction k as [|k IH]; intros d Hn.
  - rewrite range_nil by lia. cbn [replicate]. now rewrite !app_nil_r.
  - rewrite range_cons by lia. cbn [Array2D.fill_rows].
    rewrite array_init_eq. destruct (Z.ltb_spec 0 num_cols); [|lia].
    set (nc := Z.to_nat num_cols).
    erewrite bindN_returns; cycle 1.
    { apply on_rows_eq. cbn [Array2D.rows].
      apply (array_setitem_in_n n _ (length d)); [|lia].
      rewrite length_app, length_fmap, length_replicate. exact Hn. }
    cbn [replicate].
    rewrite insert_middle by now rewrite length_fmap.
    specialize (IH (d ++ [replicate nc PyNone])).
    rewrite length_app in IH. cbn [length] in IH.
    replace (Z.of_nat (length d) + 1)%Z with (Z.of_nat (length d + 1)) by lia.
    replace (length d + S k) with (length d + 1 + k) by lia.
    replace ((row_obj nc <$> d)
             ++ PyVal (Array.mk nc (replicate nc (Some PyNone)))
                :: replicate k PyNone)
      with ((row_obj nc <$> (d ++ [replicate nc PyNone]))
            ++ replicate k PyNone).
    + fold nc in IH. rewrite IH by lia. rewrite <- app_assoc. reflexivity.
    + rewrite fmap_app, <- app_assoc. cbn [fmap list_fmap app].
      unfold row_obj at 2. now rewrite fmap_replicate.
Qed.

Lemma array2d_init_eq (num_rows num_cols : Z) :
  Array2D.__init__ (B := B) num_rows num_cols
  = if ((0 <? num_rows) && (0 <? num_cols))%Z
    then Returns (mkG (Z.to_nat num_rows)
                    (row_obj (Z.to_nat num_cols)
                       <$> replicate (Z.to_nat num_rows)
                             (replicate (Z.to_nat num_cols) PyNone)))
    else Raises (AssertionError "Array size must be > 0").
Proof.
  unfold Array2D.__init__. rewrite array_init_eq.
  destruct (Z.ltb_spec 0 num_rows) as [Pr|Pr]; [|reflexivity].
  cbn [andb]. destruct (Z.ltb_spec 0 num_cols) as [Pc|Pc].
  - pose proof (fill_rows_loop (Z.to_nat num_rows) num_cols
                  (Z.to_nat num_rows) [] Pc eq_refl) as F.
    cbn [length fmap list_fmap app Nat.add] in F.
    change (Z.of_nat 0) with 0%Z in F. rewrite Z2Nat.id in F by lia.
    rewrite <- fmap_replicate. rewrite F. reflexivity.
  - rewrite range_cons by lia. cbn [Array2D.fill_rows].
    rewrite array_init_eq. destruct (Z.ltb_spec 0 num_cols); [lia|].
    reflexivity.
Qed.

(** The loop of [clear] replaces each row by a cleared one. *)
Lemma clear_rows_loop n nc v (rest d : list (list (obj B))) :
  Forall (fun r => length r = nc) rest ->
  forN (range (Z.of_nat (length d)) (Z.of_nat (length d + length rest)))
       (Array2D.clear_row v)
       (mkG n (row_obj nc <$> (d ++ rest)))
  = (Returns tt,
     mkG n (row_obj nc <$> (d ++ replicate (length rest) (replicate nc v)))).
Proof.
  revert d. induction rest as [|r rest IH]; intros d F.
  - rewrite range_nil by (simpl; lia). reflexivity.
  - apply Forall_cons in F as [Lr F].
    rewrite range_cons by (simpl; lia). cbn [forN].
    erewrite bindN_returns; cycle 1.
    { unfold Array2D.clear_row.
      erewrite bindN_returns; cycle 1.
      { apply (grid_slot_get _ _ (length d) (row_obj nc r)).
        rewrite list_lookup_fmap, list_lookup_middle by reflexivity.
        reflexivity. }
      unfold row_obj at 1.
      rewrite array_clear_eq by (now rewrite length_fmap).
      apply grid_slot_set.
      rewrite length_fmap, length_app. simpl. lia. }
    replace (PyVal (Array.mk nc (replicate nc (Some v))))
      with (row_obj nc (replicate nc v))
      by (unfold row_obj; now rewrite fmap_replicate).
    rewrite <- list_fmap_insert, insert_middle by reflexivity.
    specialize (IH (d ++ [replicate nc v]) F).
    rewrite length_app in IH. cbn [length] in IH.
    rewrite <- !app_assoc in IH. cbn [app] in IH.
    replace (Z.of_nat (length d) + 1)%Z with (Z.of_nat (length d + 1)) by lia.
    replace (length d + length (r :: rest))
      with (length d + 1 + length rest) by (simpl; lia).
    exact IH.
Qed.

Lemma array2d_clear_eq nc v (rs : list (list (obj B))) :
  Forall (fun r => length r = nc) rs ->
  Array2D.clear v (mkG (length rs) (row_obj nc <$> rs))
  = (Returns tt,
     mkG (length rs) (row_obj nc <$> replicate (length rs) (replicate nc v))).
Proof.
  intros F. unfold Array2D.clear. cbn [Array2D.rows Array._elements].
  rewrite !length_fmap.
  exact (clear_rows_loop (length rs) nc v rs [] F).
Qed.

Lemma array2d_rep_intro nc (rs : list (list (obj B))) :
  0 < length rs -> 0 < nc -> Forall (fun r => length r = nc) rs ->
  array2d_rep (mkG (length rs) (row_obj nc <$> rs)) nc rs.
Proof. intros. repeat split; assumption. Qed.

Lemma array2d_new_rep num_rows num_cols (g : grid) :
  Array2D.__init__ num_rows num_cols = Returns g ->
  (0 < num_rows)%Z /\ (0 < num_cols)%Z /\
  array2d_rep g (Z.to_nat num_cols)
    (replicate (Z.to_nat num_rows) (replicate (Z.to_nat num_cols) PyNone)).
Proof.
  rewrite array2d_init_eq.
  destruct (Z.ltb_spec 0 num_rows), (Z.ltb_spec 0 num_cols);
    try discriminate.
  intros [= <-]. split; [assumption|]. split; [assumption|].
  set (rs := replicate (Z.to_nat num_rows)
               (replicate (Z.to_nat num_cols) (@PyNone B))).
  assert (L : length rs = Z.to_nat num_rows) by apply length_replicate.
  rewrite <- L. apply array2d_rep_intro; [lia | lia |].
  apply Forall_replicate. apply length_replicate.
Qed.

Lemma array2d_step_rep (g : grid) nc rs o :
  array2d_rep g nc rs ->
  exists rs', array2d_rep (snd (array2d_run o g)) nc rs' /\
              length rs' = length rs.
Proof.
  intros R. pose proof R as (_ & Pr & Pc & F).
  rewrite (array2d_rep_eq g nc rs R).
  assert (Same : array2d_rep (mkG (length rs) (row_obj nc <$> rs)) nc rs)
    by now apply array2d_rep_intro.
  destruct o as [ix v | ix | v | |]; cbn [array2d_run].
  - destruct ix as [|row [|col [|? ?]]];
      try (exists rs; split; [exact Same | reflexivity]).
    destruct (decide (0 <= row < Z.of_nat (length rs)
                      /\ 0 <= col < Z.of_nat nc)%Z) as [[Hr Hc]|Ho].
    + destruct (lookup_lt_is_Some_2 rs (Z.to_nat row)) as [r Hrow]; [lia|].
      assert (Lr : length r = nc)
        by (rewrite Forall_lookup in F; exact (F _ r Hrow)).
      replace row with (Z.of_nat (Z.to_nat row)) by lia.
      replace col with (Z.of_nat (Z.to_nat col)) by lia.
      rewrite (grid_setitem_in nc rs _ _ r v F Hrow) by lia. cbn [snd].
      exists (<[Z.to_nat row := <[Z.to_nat col := v]> r]> rs).
      split; [|apply length_insert].
      rewrite <- (length_insert rs (Z.to_nat row)
                    (<[Z.to_nat col := v]> r)) at 1.
      apply array2d_rep_intro; [now rewrite length_insert | exact Pc |].
      apply Forall_insert; [exact F|]. now rewrite length_insert.
    + rewrite grid_setitem_out by assumption.
      exists rs. split; [exact Same | reflexivity].
  - exists rs. split; [|reflexivity]. unfold bindN.
    destruct ix as [|row [|col [|? ?]]]; try exact Same.
    destruct (decide (0 <= row < Z.of_nat (length rs)
                      /\ 0 <= col < Z.of_nat nc)%Z) as [[Hr Hc]|Ho].
    + destruct (lookup_lt_is_Some_2 rs (Z.to_nat row)) as [r Hrow]; [lia|].
      assert (Lr : length r = nc)
        by (rewrite Forall_lookup in F; exact (F _ r Hrow)).
      destruct (lookup_lt_is_Some_2 r (Z.to_nat col)) as [w Hw]; [lia|].
      replace row with (Z.of_nat (Z.to_nat row)) by lia.
      replace col with (Z.of_nat (Z.to_nat col)) by lia.
      rewrite (grid_getitem_in nc rs _ _ r w F Hrow Hw). exact Same.
    + rewrite grid_getitem_out by assumption. exact Same.
  - rewrite (array2d_clear_eq nc v rs F). cbn [snd].
    exists (replicate (length rs) (replicate nc v)).
    split; [|apply length_replicate].
    rewrite <- (length_replicate (length rs) (replicate nc v)) at 1.
    apply array2d_rep_intro; [now rewrite length_replicate | exact Pc |].
    apply Forall_replicate. apply length_replicate.
  - exists rs. split; [exact Same | reflexivity].
  - exists rs. split; [|reflexivity]. unfold bindN.
    rewrite (grid_num_cols nc rs Pr). exact Same.
Qed.

Lemma array2d_reachable_rep (g : grid) :
  array2d_reachable g -> exists nc rs, array2d_rep g nc rs.
Proof.
  induction 1 as [nr ncz g E | g o _ (nc & rs & R)].
  - apply array2d_new_rep in E as (_ & _ & R). eauto.
  - destruct (array2d_step_rep g nc rs o R) as (rs' & R' & _). eauto.
Qed.

End Array2DProofs.

(** ** [pop] and [peek] against the items a collection holds *)

Section EmptyByItems.

Context {A : Type} `{EqDecision A}.

(** On a stack built by the constructor and the methods: with no item,
    [pop] and [peek] raise [KeyError] and leave the stack as it was; with
    items, both return the last one iteration yields. *)
Lemma stack_pop_peek_by_items (s : LinkedStack.t A) :
  stack_reachable s ->
  (LinkedStack.visitNodes (LinkedStack._items s) [] = [] /\
   LinkedStack.pop s = (Raise (KeyError "The stack is empty."), s) /\
   LinkedStack.peek s = (Raise (KeyError "The stack is empty."), s)) \/
  (exists l v s',
     LinkedStack.visitNodes (LinkedStack._items s) [] = l ++ [v] /\
     LinkedStack.peek s = (Ok v, s) /\
     LinkedStack.pop s = (Ok v, s') /\
     LinkedStack.visitNodes (LinkedStack._items s') [] = l).
Proof.
  intros R. pose proof (stack_reachable_wf s R) as W. unfold stack_wf in W.
  destruct s as [[[d nx]|] n]; cbn [LinkedStack._items LinkedStack._size] in *.
  - right. rewrite chain_items_cons in W. simpl in W. subst n.
    exists (LinkedStack.visitNodes nx []), d. eexists.
    split; [apply visitNodes_cons|]. split; [reflexivity|].
    split; [apply stack_pop_node | reflexivity].
  - left. change (chain_items None) with (@nil (obj A)) in W. simpl in W.
    subst n. repeat split.
Qed.

(** The same on a queue on which [remove(size - 1)] was never called with
    two or more items: the items are those iteration yields, front first. *)
Lemma queue_pop_peek_by_items (q : LinkedQueue.t A) :
  queue_reachable_safe q ->
  exists l,
    AbstractCollection.to_list (S (LinkedQueue._size q))
      (LinkedQueue.__iter__ q) = Some (Ok l) /\
    ((l = [] /\
      LinkedQueue.pop q = (Raise (KeyError "The queue is empty."), q) /\
      LinkedQueue.peek q = (Raise (KeyError "The queue is empty."), q)) \/
     (exists v l' q',
        l = v :: l' /\
        LinkedQueue.peek q = (Ok v, q) /\
        LinkedQueue.pop q = (Ok v, q') /\
        AbstractCollection.to_list (S (LinkedQueue._size q'))
          (LinkedQueue.__iter__ q') = Some (Ok l'))).
Proof.
  intros R. destruct (queue_reachable_safe_rep q R) as [cells Rc].
  assert (Sz : LinkedQueue._size q = length cells) by apply Rc.
  exists cells.*2. split.
  { apply queue_to_list_rep; [exact Rc | lia]. }
  destruct cells as [|[p v] cells].
  - left. split; [reflexivity|].
    apply queue_rep_nil in Rc as (_ & _ & Z0).
    split; [now apply queue_pop_empty|].
    unfold LinkedQueue.peek, bind, gets, AbstractCollection.isEmpty,
      AbstractCollection.__len__. cbn. now rewrite Z0.
  - right. destruct (queue_pop_rep q p v cells Rc) as (q' & E & R' & _).
    exists v, cells.*2, q'. split; [reflexivity|]. split; [|split].
    + destruct q as [h f r n]. destruct Rc as ((F & nx & Hp & _) & _ & _ & N).
      cbn in F, Hp, N. subst f n.
      unfold LinkedQueue.peek, bind, gets, AbstractCollection.isEmpty,
        AbstractCollection.__len__, LinkedQueue.attr, bind, gets.
      cbn. now rewrite Hp.
    + exact E.
    + apply queue_to_list_rep; [exact R'|].
      assert (LinkedQueue._size q' = length cells) by apply R'. lia.
Qed.

End EmptyByItems.
Section LinkedStackTheorems.

Context {A : Type} `{EqDecision A}.

Local Abbreviation stack := (LinkedStack.t A).

(** C3. Pushing [p1..pn] onto a new [LinkedStack] and popping [n] times
    returns [pn, ..., p1], and leaves the stack as it was when new. *)
Theorem stack_lifo (ps : list (obj A)) :
  (for_ ps LinkedStack.push >> repeat_ (length ps) LinkedStack.pop)
    (snd (LinkedStack.__init__ None))
  = (Ok (rev ps), snd (LinkedStack.__init__ None)).
Proof. exact (stack_push_pop_all ps). Qed.

End LinkedStackTheorems.

Section LinkedStackCopy.

Context {A : Type} {item_eq : PyEq A}.

(** C10, amended. The copy [LinkedStack(s)] of a stack [s] is built without
    error and is the same chain of items with the same size, whatever the
    items. [LinkedStack(s) == s] answers (the loop of [__eq__] draws
    [len(s)] items), and it answers [True] exactly when no item [x] of [s]
    has [x != x]. *)
Theorem stack_copy_equal (s : LinkedStack.t A) (fuel : nat) :
  stack_reachable s -> LinkedStack._size s < fuel ->
  let copy := LinkedStack.__init__ (Some (LinkedStack.as_source s)) in
  fst copy = Ok tt /\
  snd copy = s /\
  exists b,
    AbstractCollection.__eq__ fuel false (snd copy) s = Some (Ok b) /\
    (b = true <->
     Forall (fun x => py_ne x x = false)
            (LinkedStack.visitNodes (LinkedStack._items s) [])).
Proof.
  intros R F copy. pose proof (stack_reachable_wf s R) as W.
  assert (C : copy = (Ok tt, s)).
  { subst copy. unfold LinkedStack.__init__, AbstractCollection.__init__.
    set (s0 := LinkedStack.mk None 0 : LinkedStack.t A).
    assert (E0 : modify (AbstractCollection.set_size 0) s0 = (Ok tt, s0))
      by reflexivity.
    erewrite bind_ok by exact E0.
    destruct s as [r n]. unfold stack_wf in W. simpl in W.
    unfold LinkedStack.as_source, AbstractCollection.__len__. simpl.
    destruct n as [|n].
    - simpl. f_equal. unfold s0. f_equal.
      apply chain_items_inj. symmetry. now apply nil_length_inv.
    - simpl. rewrite visitNodes_items. simpl.
      destruct (stack_pushes (rev (chain_items r)) s0) as (s' & E & Hi & Hn).
      change (for_ (rev (chain_items r)) LinkedStack.add s0)
        with (for_ (rev (chain_items r)) LinkedStack.push s0).
      rewrite E. f_equal. destruct s' as [r' n']. simpl in Hi, Hn.
      rewrite rev_involutive, app_nil_r in Hi. rewrite length_rev in Hn.
      f_equal; [now apply chain_items_inj | lia]. }
  rewrite C. simpl. split; [reflexivity|]. split; [reflexivity|].
  unfold AbstractCollection.__eq__. simpl.
  unfold AbstractCollection.__len__. simpl. rewrite Nat.eqb_refl. simpl.
  set (l := LinkedStack.visitNodes (LinkedStack._items s) []).
  destruct (eq_lists_self l) as (b & E & Hb). exists b. split; [|exact Hb].
  rewrite <- E.
  apply (eq_loop_enumerates _ _ l l); try apply (list_iterator_enumerates l).
  subst l. rewrite visitNodes_items. simpl. rewrite length_rev.
  unfold stack_wf in W. lia.
Qed.

End LinkedStackCopy.

Lemma stack_copy_equal_witness :
  stack_reachable stack_123 /\ LinkedStack._size stack_123 < 4 /\
  let copy := LinkedStack.__init__ (Some (LinkedStack.as_source stack_123)) in
  fst copy = Ok tt /\ snd copy = stack_123 /\
  exists b,
    AbstractCollection.__eq__ 4 false (snd copy) stack_123 = Some (Ok b) /\
    (b = true <->
     Forall (fun x => py_ne x x = false)
            (LinkedStack.visitNodes (LinkedStack._items stack_123) [])).
Proof.
  assert (R : stack_reachable stack_123) by apply stack_reach_new.
  assert (F : LinkedStack._size stack_123 < 4) by (vm_compute; lia).
  split; [exact R|]. split; [exact F|].
  apply (stack_copy_equal stack_123 4 R F).
Defined.

(** C10 as stated fails for [s = LinkedStack([1, nan])]: the copy is built
    and is the same chain with the same size, yet [LinkedStack(s) == s]
    answers [False], since [nan != nan]. *)
Lemma stack_copy_of_nan_not_equal :
  stack_reachable stack_nan /\ LinkedStack._size stack_nan < 3 /\
  let copy := LinkedStack.__init__ (Some (LinkedStack.as_source stack_nan)) in
  fst copy = Ok tt /\ snd copy = stack_nan /\
  AbstractCollection.__eq__ 3 false (snd copy) stack_nan = Some (Ok false).
Proof.
  split; [apply stack_reach_new|]. split; [vm_compute; lia|].
  vm_compute. repeat split.
Qed.

Section DynamicArrayTheorems.

Context {A : Type} `{EqDecision A}.

Local Abbreviation darray := (DynamicArray.t A).

(** C5. In every state a [DynamicArray] reaches through [append], [insert]
    (with [0 <= k <= n]), [remove], indexing and [len], [_n <= _capacity];
    and every such operation leaves [_n <= _capacity] and either keeps the
    capacity or, when the array was full, doubles it: the capacity never
    decreases. *)
Theorem da_capacity_invariant (s : darray) :
  da_reachable s ->
  DynamicArray._n s <= DynamicArray._capacity s /\
  forall o, da_allowed o s ->
    let s' := state_after (da_run o) s in
    DynamicArray._n s' <= DynamicArray._capacity s' /\
    DynamicArray._capacity s <= DynamicArray._capacity s' /\
    (DynamicArray._capacity s' = DynamicArray._capacity s \/
     (DynamicArray._n s = DynamicArray._capacity s /\
      DynamicArray._capacity s' = 2 * DynamicArray._capacity s)).
Proof.
  intros R. destruct (da_reachable_rep s R) as [l Rl].
  split; [exact (da_rep_le s l Rl)|].
  intros o Al s'. destruct (da_step_rep s l o Rl Al) as (l' & Rl' & C).
  fold s' in Rl', C. split; [exact (da_rep_le s' l' Rl')|].
  split; [lia | exact C].
Qed.

(** C6. [remove(value)] on an array holding the items [l]: when [value]
    occurs in [l], the call returns, the items become [l] without the first
    occurrence of [value] (the later items one index lower), the length
    drops by one and the slot just past the new length holds [None]; when
    [value] does not occur, the call raises [ValueError] and the array is
    unchanged. It raises that error exactly when [value] does not occur. *)
Theorem da_remove_spec (s : darray) (value : obj A) :
  da_reachable s ->
  exists l, da_items s = Ok <$> l /\
    (value ∈ l ->
       exists l1 l2 s', l = l1 ++ value :: l2 /\ (value ∉ l1) /\
         DynamicArray.remove value s = (Ok tt, s') /\
         da_items s' = Ok <$> (l1 ++ l2) /\
         DynamicArray.__len__ s = DynamicArray.__len__ s' + 1 /\
         DynamicArray._A s' !! DynamicArray.__len__ s'
           = Some (Some PyNone)) /\
    (value ∉ l ->
       DynamicArray.remove value s
         = (Raise (ValueError "value not found"), s)) /\
    (outcome (DynamicArray.remove value) s
       = Raise (ValueError "value not found") <-> value ∉ l).
Proof.
  intros R. destruct (da_reachable_rep s R) as [l Rl].
  exists l. split; [exact (da_items_rep s l Rl)|].
  assert (F : value ∈ l ->
       exists l1 l2 s', l = l1 ++ value :: l2 /\ (value ∉ l1) /\
         DynamicArray.remove value s = (Ok tt, s') /\
         da_items s' = Ok <$> (l1 ++ l2) /\
         DynamicArray.__len__ s = DynamicArray.__len__ s' + 1 /\
         DynamicArray._A s' !! DynamicArray.__len__ s'
           = Some (Some PyNone)).
  { intros Hin. apply list_elem_of_split_l in Hin as (p & r & -> & Hp).
    destruct (da_remove_found s p r value Rl Hp) as (s' & E & R' & Sl & _).
    exists p, r, s'. repeat split; try assumption.
    - exact (da_items_rep s' _ R').
    - unfold DynamicArray.__len__.
      destruct Rl as (-> & _), R' as (-> & _). rewrite !length_app. simpl. lia.
    - unfold DynamicArray.__len__. destruct R' as (-> & _). exact Sl. }
  split; [exact F|]. split; [exact (da_remove_absent s l value Rl)|].
  split.
  - intros E Hin. destruct (F Hin) as (? & ? & s' & _ & _ & E' & _).
    unfold outcome in E. rewrite E' in E. discriminate.
  - intros Hout. unfold outcome.
    now rewrite (da_remove_absent s l value Rl Hout).
Qed.

(** C7. [insert(k, v)] with [0 <= k <= n] returns; afterwards the length is
    [n + 1], index [k] holds [v], each index [i] below [k] holds what it
    held, and each item that was at an index [i >= k] is at [i + 1]. *)
Theorem da_insert_shifts (s : darray) (k : Z) (v : obj A) :
  da_reachable s ->
  (0 <= k <= Z.of_nat (DynamicArray.__len__ s))%Z ->
  exists s', DynamicArray.insert k v s = (Ok tt, s') /\
    DynamicArray.__len__ s' = DynamicArray.__len__ s + 1 /\
    outcome (DynamicArray.__getitem__ k) s' = Ok v /\
    (forall i, (0 <= i < k)%Z ->
       exists w, outcome (DynamicArray.__getitem__ i) s = Ok w /\
                 outcome (DynamicArray.__getitem__ i) s' = Ok w) /\
    (forall i, (k <= i < Z.of_nat (DynamicArray.__len__ s))%Z ->
       exists w, outcome (DynamicArray.__getitem__ i) s = Ok w /\
                 outcome (DynamicArray.__getitem__ (i + 1)) s' = Ok w).
Proof.
  intros R Hk. destruct (da_reachable_rep s R) as [l Rl].
  assert (N : DynamicArray.__len__ s = length l) by apply Rl.
  rewrite N in *.
  destruct (da_insert_spec s l k v Rl Hk) as (s' & E & R' & _).
  exists s'. split; [exact E|].
  set (j := Z.to_nat k) in *.
  assert (Lt : length (take j l) = j) by (rewrite length_take; lia).
  split; [|split; [|split]].
  - destruct R' as (N' & _). unfold DynamicArray.__len__. rewrite N'.
    rewrite length_app. simpl. rewrite Lt, length_drop. lia.
  - unfold outcome. replace k with (Z.of_nat j) by lia.
    rewrite (da_getitem_in s' _ j v R'); [reflexivity|].
    now apply list_lookup_middle.
  - intros i Hi.
    destruct (lookup_lt_is_Some_2 l (Z.to_nat i)) as [w Hw]; [lia|].
    exists w. unfold outcome. replace i with (Z.of_nat (Z.to_nat i)) by lia.
    rewrite (da_getitem_in s l _ w Rl Hw).
    rewrite (da_getitem_in s' _ _ w R'); [split; reflexivity|].
    rewrite lookup_app_l by lia. rewrite lookup_take_lt by lia. exact Hw.
  - intros i Hi.
    destruct (lookup_lt_is_Some_2 l (Z.to_nat i)) as [w Hw]; [lia|].
    exists w. unfold outcome.
    replace (i + 1)%Z with (Z.of_nat (S (Z.to_nat i))) by lia.
    replace i with (Z.of_nat (Z.to_nat i)) at 1 by lia.
    rewrite (da_getitem_in s l _ w Rl Hw).
    rewrite (da_getitem_in s' _ _ w R'); [split; reflexivity|].
    rewrite lookup_app_r by lia. rewrite Lt.
    replace (S (Z.to_nat i) - j) with (S (Z.to_nat i - j)) by lia.
    simpl. rewrite lookup_drop. rewrite <- Hw. f_equal. lia.
Qed.

End DynamicArrayTheorems.

Lemma da_123_reachable : da_reachable da_123.
Proof.
  unfold da_123.
  apply (da_reach_step _ (DAppend _)); [|exact I].
  apply (da_reach_step _ (DAppend _)); [|exact I].
  apply (da_reach_step _ (DAppend _)); [|exact I].
  apply da_reach_init.
Qed.

Lemma da_capacity_invariant_witness :
  da_reachable da_123 /\
  DynamicArray._n da_123 <= DynamicArray._capacity da_123 /\
  forall o, da_allowed o da_123 ->
    let s' := state_after (da_run o) da_123 in
    DynamicArray._n s' <= DynamicArray._capacity s' /\
    DynamicArray._capacity da_123 <= DynamicArray._capacity s' /\
    (DynamicArray._capacity s' = DynamicArray._capacity da_123 \/
     (DynamicArray._n da_123 = DynamicArray._capacity da_123 /\
      DynamicArray._capacity s' = 2 * DynamicArray._capacity da_123)).
Proof.
  split; [exact da_123_reachable|].
  apply (da_capacity_invariant da_123). exact da_123_reachable.
Defined.

Lemma da_remove_spec_witness :
  da_reachable da_123 /\
  exists l, da_items da_123 = Ok <$> l /\
    (PyVal 2%Z ∈ l ->
       exists l1 l2 s', l = l1 ++ PyVal 2%Z :: l2 /\ (PyVal 2%Z ∉ l1) /\
         DynamicArray.remove (PyVal 2%Z) da_123 = (Ok tt, s') /\
         da_items s' = Ok <$> (l1 ++ l2) /\
         DynamicArray.__len__ da_123 = DynamicArray.__len__ s' + 1 /\
         DynamicArray._A s' !! DynamicArray.__len__ s'
           = Some (Some PyNone)) /\
    (PyVal 2%Z ∉ l ->
       DynamicArray.remove (PyVal 2%Z) da_123
         = (Raise (ValueError "value not found"), da_123)) /\
    (outcome (DynamicArray.remove (PyVal 2%Z)) da_123
       = Raise (ValueError "value not found") <-> PyVal 2%Z ∉ l).
Proof.
  split; [exact da_123_reachable|].
  apply (da_remove_spec da_123 (PyVal 2%Z)). exact da_123_reachable.
Defined.

Lemma da_insert_shifts_witness :
  da_reachable da_123 /\
  (0 <= 1 <= Z.of_nat (DynamicArray.__len__ da_123))%Z /\
  exists s', DynamicArray.insert 1 (PyVal 9%Z) da_123 = (Ok tt, s') /\
    DynamicArray.__len__ s' = DynamicArray.__len__ da_123 + 1 /\
    outcome (DynamicArray.__getitem__ 1) s' = Ok (PyVal 9%Z) /\
    (forall i, (0 <= i < 1)%Z ->
       exists w, outcome (DynamicArray.__getitem__ i) da_123 = Ok w /\
                 outcome (DynamicArray.__getitem__ i) s' = Ok w) /\
    (forall i, (1 <= i < Z.of_nat (DynamicArray.__len__ da_123))%Z ->
       exists w, outcome (DynamicArray.__getitem__ i) da_123 = Ok w /\
                 outcome (DynamicArray.__getitem__ (i + 1)) s' = Ok w).
Proof.
  split; [exact da_123_reachable|].
  assert (H : (0 <= 1 <= Z.of_nat (DynamicArray.__len__ da_123))%Z)
    by (vm_compute; split; discriminate).
  split; [exact H|].
  apply (da_insert_shifts da_123 1 (PyVal 9%Z) da_123_reachable H).
Defined.

Section LinkedQueueTheorems.

Context {A : Type} `{EqDecision A}.

(** C2. Adding [e1..en] to a new [LinkedQueue] and popping [n] times returns
    [e1, ..., en] in that order, and leaves the queue empty. *)
Theorem queue_fifo (es : list (obj A)) :
  let run := (for_ es LinkedQueue.add >> repeat_ (length es) LinkedQueue.pop)
               (snd (LinkedQueue.__init__ None)) in
  fst run = Ok es /\
  LinkedQueue._front (snd run) = None /\
  LinkedQueue._rear (snd run) = None /\
  LinkedQueue._size (snd run) = 0.
Proof.
  destruct (queue_add_pop_all es) as (q' & E & R). cbn zeta. rewrite E.
  split; [reflexivity|]. now apply queue_rep_nil.
Qed.

End LinkedQueueTheorems.

(** C1. The queue after [add(1); add(2)] and then [remove(1)]: the call
    returns [2] and the queue is not empty; the last node reachable from
    [_front] is the node of [1] (address 0), yet [_rear] still refers to the
    unlinked node of [2] (address 1). A further [add(3)] links its node
    behind that unlinked node: the length becomes 2 while iteration yields
    [1] alone. *)
Theorem queue_remove_last_leaves_rear :
  queue_reachable queue_12 /\
  outcome (LinkedQueue.remove 1) queue_12 = Ok (PyVal 2%Z) /\
  AbstractCollection.isEmpty queue_12_removed = false /\
  last_node (LinkedQueue.store queue_12_removed) 3
            (LinkedQueue._front queue_12_removed) = Some (Some 0) /\
  LinkedQueue._rear queue_12_removed = Some 1 /\
  outcome (LinkedQueue.add (PyVal 3%Z)) queue_12_removed = Ok tt /\
  AbstractCollection.__len__ queue_12_removed_3 = 2 /\
  AbstractCollection.to_list 3 (LinkedQueue.__iter__ queue_12_removed_3)
    = Some (Ok [PyVal 1%Z]).
Proof. split; [exact queue_12_reachable|]. vm_compute. repeat split. Qed.

(** C4. On the queue left by [add(1); add(2); remove(1); add(3)], which is
    not empty, [pop()] and [remove(0)] both return [1] but leave different
    states: [pop] resets [_rear] to [None], [remove(0)] leaves it on the
    node of [3]. *)
Theorem queue_remove_0_differs_from_pop :
  queue_reachable queue_12_removed_3 /\
  AbstractCollection.isEmpty queue_12_removed_3 = false /\
  outcome LinkedQueue.pop queue_12_removed_3 = Ok (PyVal 1%Z) /\
  outcome (LinkedQueue.remove 0) queue_12_removed_3 = Ok (PyVal 1%Z) /\
  LinkedQueue._rear (state_after LinkedQueue.pop queue_12_removed_3) = None /\
  LinkedQueue._rear (state_after (LinkedQueue.remove 0) queue_12_removed_3)
    = Some 2 /\
  state_after (LinkedQueue.remove 0) queue_12_removed_3
    <> state_after LinkedQueue.pop queue_12_removed_3.
Proof.
  split; [exact queue_12_removed_3_reachable|].
  vm_compute. repeat split. discriminate.
Qed.

(** C9. Two distinct queues of the same size, 2: one left by [add(1);
    add(2); remove(1); add(3)], whose iteration yields [1], and one left by
    [add(1); add(2)], whose iteration yields [1, 2]. Comparing the first
    with the second answers [True]; comparing the second with the first
    raises [StopIteration]. *)
Theorem queue_eq_after_remove_last :
  queue_reachable queue_12_removed_3 /\ queue_reachable queue_12 /\
  AbstractCollection.__len__ queue_12_removed_3 = 2 /\
  AbstractCollection.__len__ queue_12 = 2 /\
  AbstractCollection.to_list 3 (LinkedQueue.__iter__ queue_12_removed_3)
    = Some (Ok [PyVal 1%Z]) /\
  AbstractCollection.to_list 3 (LinkedQueue.__iter__ queue_12)
    = Some (Ok [PyVal 1%Z; PyVal 2%Z]) /\
  AbstractCollection.__eq__ 3 false queue_12_removed_3 queue_12
    = Some (Ok true) /\
  AbstractCollection.__eq__ 3 false queue_12 queue_12_removed_3
    = Some (Raise StopIteration).
Proof.
  split; [exact queue_12_removed_3_reachable|].
  split; [exact queue_12_reachable|].
  vm_compute. repeat split.
Qed.

(** C8. The queue left by [add(1); add(2); remove(1); add(3); pop()] holds
    no item: [_front] is [None] and iteration yields nothing. Its [_size]
    is 1, so [isEmpty()] is [False]: [pop] and [peek] pass their guard and
    raise [AttributeError], not the [KeyError] of an empty collection. The
    queue is left as it was. *)
Theorem queue_pop_peek_without_items :
  queue_reachable queue_12_removed_3_popped /\
  LinkedQueue._front queue_12_removed_3_popped = None /\
  AbstractCollection.to_list 1 (LinkedQueue.__iter__ queue_12_removed_3_popped)
    = Some (Ok []) /\
  AbstractCollection.__len__ queue_12_removed_3_popped = 1 /\
  AbstractCollection.isEmpty queue_12_removed_3_popped = false /\
  LinkedQueue.pop queue_12_removed_3_popped
    = (Raise (AttributeError "'NoneType' object has no attribute 'data'"),
       queue_12_removed_3_popped) /\
  LinkedQueue.peek queue_12_removed_3_popped
    = (Raise (AttributeError "'NoneType' object has no attribute 'data'"),
       queue_12_removed_3_popped) /\
  is_EmptyCollection (outcome LinkedQueue.pop queue_12_removed_3_popped)
    = false /\
  is_EmptyCollection (outcome LinkedQueue.peek queue_12_removed_3_popped)
    = false.
Proof.
  split; [exact queue_12_removed_3_popped_reachable|].
  vm_compute. repeat split.
Qed.

(** * Further properties *)

(** ** DynamicArray *)

Section DynamicArrayMore.

Context {A : Type} `{EqDecision A}.

Local Abbreviation darray := (DynamicArray.t A).

Lemma pow2_double j : 2 * 2 ^ j = 2 ^ S j.
Proof. rewrite Nat.pow_succ_r'. reflexivity. Qed.

(** X1. [append(o)] on any reachable array returns; the items become the
    former items followed by [o], and the length grows by one. *)
Theorem da_append_last (s : darray) (o : obj A) :
  da_reachable s ->
  exists s', DynamicArray.append o s = (Ok tt, s') /\
    DynamicArray.__len__ s' = DynamicArray.__len__ s + 1 /\
    da_items s' = da_items s ++ [Ok o].
Proof.
  intros R. destruct (da_reachable_rep s R) as [l Rl].
  destruct (da_append_spec s l o Rl) as (s' & E & R' & _).
  exists s'. split; [exact E|]. split.
  - unfold DynamicArray.__len__. destruct Rl as (-> & _), R' as (-> & _).
    rewrite length_app. reflexivity.
  - rewrite (da_items_rep s l Rl), (da_items_rep s' _ R'), fmap_app.
    reflexivity.
Qed.

(** X2. Indexing a reachable array never changes it; it returns an item for
    every [k] with [0 <= k < len], and raises [IndexError] for every other
    [k], negative ones included. *)
Theorem da_getitem_bounds (s : darray) (k : Z) :
  da_reachable s ->
  state_after (DynamicArray.__getitem__ k) s = s /\
  ((0 <= k < Z.of_nat (DynamicArray.__len__ s))%Z ->
   exists v, outcome (DynamicArray.__getitem__ k) s = Ok v) /\
  (~ (0 <= k < Z.of_nat (DynamicArray.__len__ s))%Z ->
   outcome (DynamicArray.__getitem__ k) s
   = Raise (IndexError "invalid index")).
Proof.
  intros R. destruct (da_reachable_rep s R) as [l Rl].
  split; [apply da_getitem_state|]. split.
  - intros Hk. assert (N : DynamicArray.__len__ s = length l) by apply Rl.
    rewrite N in Hk.
    destruct (lookup_lt_is_Some_2 l (Z.to_nat k)) as [v Hv]; [lia|].
    exists v. unfold outcome. replace k with (Z.of_nat (Z.to_nat k)) by lia.
    now rewrite (da_getitem_in s l _ v Rl Hv).
  - intros Hk. unfold outcome. now rewrite da_getitem_out.
Qed.

(** X4. In every reachable array the backing storage has exactly [_capacity]
    slots and [_capacity] is a power of two. *)
Theorem da_capacity_power_of_two (s : darray) :
  da_reachable s ->
  length (DynamicArray._A s) = DynamicArray._capacity s /\
  exists j, DynamicArray._capacity s = 2 ^ j.
Proof.
  intros R. split.
  - destruct (da_reachable_rep s R) as [l Rl]. symmetry. apply Rl.
  - induction R as [|s o R [j IH] Al].
    + exists 0. reflexivity.
    + destruct (da_reachable_rep s R) as [l Rl].
      destruct (da_step_rep s l o Rl Al) as (_ & _ & [C|[_ C]]).
      * exists j. now rewrite C.
      * exists (S j). rewrite C, IH. apply pow2_double.
Qed.

(** X5. [insert(k, v)] with [k] at or past the capacity the array has once
    it has grown (twice [_capacity] if it was full, [_capacity] otherwise)
    raises [IndexError]: "invalid index" when [k] fits a [Py_ssize_t],
    and "cannot fit 'int' into an index-sized integer" when it does not.
    The items and the length are as before, but the growth is kept: the
    capacity is the grown one. *)
Theorem da_insert_past_capacity (s : darray) (k : Z) (v : obj A) :
  da_reachable s ->
  let c' := if Nat.eqb (DynamicArray._n s) (DynamicArray._capacity s)
            then 2 * DynamicArray._capacity s else DynamicArray._capacity s in
  (Z.of_nat c' <= k)%Z ->
  outcome (DynamicArray.insert k v) s
  = Raise (IndexError
             (if (k <=? DynamicArray.PY_SSIZE_T_MAX)%Z then "invalid index"
              else "cannot fit 'int' into an index-sized integer")) /\
  let s' := state_after (DynamicArray.insert k v) s in
  da_items s' = da_items s /\
  DynamicArray.__len__ s' = DynamicArray.__len__ s /\
  DynamicArray._capacity s' = c'.
Proof.
  intros R c' Hk. destruct (da_reachable_rep s R) as [l Rl].
  destruct (da_rep_split s l Rl) as (junk & -> & H1).
  destruct (grow_if_full_spec l junk H1) as (junk' & G & H2 & H3).
  cbn [DynamicArray._n DynamicArray._capacity] in c'.
  assert (Hc : c' = length l + length junk').
  { subst c'. destruct (Nat.eqb_spec (length l) (length l + length junk)); lia. }
  set (s1 := DynamicArray.mk (length l) (length l + length junk')
               ((Some <$> l) ++ junk')) in *.
  assert (E : DynamicArray.insert k v
                (DynamicArray.mk (length l) (length l + length junk)
                   ((Some <$> l) ++ junk))
              = (Raise (IndexError
                          (if (k <=? DynamicArray.PY_SSIZE_T_MAX)%Z
                           then "invalid index"
                           else "cannot fit 'int' into an index-sized integer")),
                 s1)).
  { unfold DynamicArray.insert. erewrite bind_ok by exact G.
    unfold bind at 1. unfold gets at 1. cbn [DynamicArray._n s1].
    rewrite range_down_nil by lia. cbn [for_].
    unfold bind at 1. unfold ret at 1.
    unfold bind, DynamicArray.setA, DynamicArray.array_set,
      DynamicArray.index. cbn [DynamicArray._A s1].
    rewrite length_app, length_fmap.
    destruct (Z.ltb_spec k 0); [lia|].
    destruct (Z.leb_spec 0 k); [|lia].
    destruct (Z.ltb_spec k (Z.of_nat (length l + length junk'))); [lia|].
    cbn [andb].
    assert (Lo : (DynamicArray.PY_SSIZE_T_MIN <=? k)%Z = true).
    { apply Z.leb_le. unfold DynamicArray.PY_SSIZE_T_MIN.
      pose proof (Z.pow_pos_nonneg 2 63). lia. }
    rewrite Lo. cbn [andb].
    destruct (k <=? DynamicArray.PY_SSIZE_T_MAX)%Z; reflexivity. }
  unfold outcome, state_after. rewrite E. cbn [fst snd].
  split; [reflexivity|].
  assert (R1 : da_rep s1 l) by (apply da_rep_intro; lia).
  split; [|split].
  - now rewrite (da_items_rep s1 l R1), (da_items_rep _ l Rl).
  - reflexivity.
  - symmetry. exact Hc.
Qed.

End DynamicArrayMore.

Section DynamicArrayAnyEq.

Context {A : Type} {item_eq : PyEq A}.

(** X3. On a reachable array, whatever [==] is between its items:
    [insert(k, v)] with [0 <= k <= len] followed by [remove(v)] gives back
    the items the array had, provided [v == v] holds and [w == v] holds for
    no item [w] below index [k]. *)
Theorem da_insert_remove (s : DynamicArray.t A) (k : Z) (v : obj A) :
  da_reachable s ->
  (0 <= k <= Z.of_nat (DynamicArray.__len__ s))%Z ->
  py_eq v v = true ->
  (forall i w, (0 <= i < k)%Z ->
     outcome (DynamicArray.__getitem__ i) s = Ok w -> py_eq w v = false) ->
  exists s1 s2,
    DynamicArray.insert k v s = (Ok tt, s1) /\
    DynamicArray.remove v s1 = (Ok tt, s2) /\
    da_items s2 = da_items s /\
    DynamicArray.__len__ s2 = DynamicArray.__len__ s.
Proof.
  intros R Hk Hvv Hv. destruct (da_reachable_rep s R) as [l Rl].
  assert (N : DynamicArray.__len__ s = length l) by apply Rl.
  rewrite N in Hk.
  destruct (da_insert_spec s l k v Rl Hk) as (s1 & E1 & R1 & _).
  assert (Hp : Forall (fun w => py_eq w v = false) (take (Z.to_nat k) l)).
  { apply Forall_lookup. intros i w Hi.
    apply lookup_take_Some in Hi as [Hi Hlt].
    apply (Hv (Z.of_nat i)); [lia|]. unfold outcome.
    now rewrite (da_getitem_in s l i w Rl Hi). }
  destruct (da_remove_first s1 _ _ v v R1 Hp Hvv) as (s2 & E2 & R2 & _).
  rewrite take_drop in R2.
  exists s1, s2. split; [exact E1|]. split; [exact E2|]. split.
  - now rewrite (da_items_rep s2 l R2), (da_items_rep s l Rl).
  - rewrite N. apply R2.
Qed.

End DynamicArrayAnyEq.

(** ** LinkedStack *)

Section LinkedStackMore.

Context {A : Type} `{EqDecision A}.

Local Abbreviation stack := (LinkedStack.t A).
Local Abbreviation items_of :=
  (fun s : LinkedStack.t A => LinkedStack.visitNodes (LinkedStack._items s) []).

(** X6. [LinkedStack(l)] built from a list [l] returns a stack of size
    [len(l)] whose iteration yields [l] in order, bottom to top; [peek()]
    on it returns the last item of [l], or raises [KeyError] for [[]]. *)
Theorem stack_of_list (l : list (obj A)) :
  let new := LinkedStack.__init__ (Some (AbstractCollection.of_list l)) in
  fst new = Ok tt /\
  AbstractCollection.__len__ (snd new) = length l /\
  items_of (snd new) = l /\
  outcome LinkedStack.peek (snd new)
  = match last l with
    | Some x => Ok x
    | None => Raise (KeyError "The stack is empty.")
    end.
Proof.
  cbn zeta. unfold LinkedStack.__init__, AbstractCollection.__init__.
  set (s0 := LinkedStack.mk None 0 : stack).
  assert (E0 : modify (AbstractCollection.set_size 0) s0 = (Ok tt, s0))
    by reflexivity.
  erewrite bind_ok by exact E0.
  destruct l as [|x l]; [repeat split|].
  cbn [AbstractCollection.of_list AbstractCollection.truth
       AbstractCollection.items].
  destruct (stack_pushes (x :: l) s0) as (s' & E & Hi & Hn).
  change (for_ (x :: l) AbstractCollection.add s0)
    with (for_ (x :: l) LinkedStack.push s0).
  rewrite E. cbn [fst snd]. split; [reflexivity|].
  cbn [LinkedStack._items LinkedStack._size s0] in Hi, Hn.
  change (chain_items None) with (@nil (obj A)) in Hi.
  rewrite app_nil_r in Hi.
  split; [exact Hn|]. split.
  - rewrite visitNodes_items, Hi, rev_involutive. reflexivity.
  - unfold outcome. destruct s' as [r n]. cbn in Hi, Hn. subst n.
    destruct r as [[d nx]|].
    + rewrite chain_items_cons in Hi.
      assert (L : last (x :: l) = Some d).
      { rewrite <- (rev_involutive (x :: l)).
        change (rev (x :: l)) with (rev l ++ [x]). rewrite <- Hi.
        change (rev (d :: chain_items nx)) with (rev (chain_items nx) ++ [d]).
        apply last_snoc. }
      rewrite L. reflexivity.
    + exfalso. change (chain_items None) with (@nil (obj A)) in Hi.
      destruct (rev l); discriminate.
Qed.

(** X7. In every reachable stack [_size] is the number of items iteration
    yields, and the stack is empty exactly when it has no top node. *)
Theorem stack_size_invariant (s : stack) :
  stack_reachable s ->
  AbstractCollection.__len__ s = length (items_of s) /\
  (AbstractCollection.isEmpty s = true <-> LinkedStack._items s = None).
Proof.
  intros R. pose proof (stack_reachable_wf s R) as W. unfold stack_wf in W.
  split.
  - rewrite visitNodes_items, app_nil_l, length_rev. exact W.
  - unfold AbstractCollection.isEmpty, AbstractCollection.__len__.
    cbn [AbstractCollection.get_size LinkedStack.sized].
    rewrite W. destruct (LinkedStack._items s) as [[d nx]|].
    + rewrite chain_items_cons. split; discriminate.
    + split; reflexivity.
Qed.


End LinkedStackMore.

Section LinkedQueueMoreTheorems.

Context {A : Type} `{EqDecision A}.

Local Abbreviation queue := (LinkedQueue.t A).
Local Abbreviation mkQ := (@LinkedQueue.mk A).
Local Abbreviation iterate :=
  (fun (fuel : nat) (q : LinkedQueue.t A) =>
     AbstractCollection.to_list fuel (LinkedQueue.__iter__ q)).

Lemma fmap_delete_snd (cells : list (LinkedQueue.loc * obj A)) i :
  (delete i cells).*2 = delete i cells.*2.
Proof.
  rewrite !delete_take_drop, fmap_app, fmap_take, fmap_drop. reflexivity.
Qed.

Lemma last_node_chain (h : list (LinkedQueue.Node A)) r cells fuel :
  chain h r cells -> length cells < fuel ->
  last_node h fuel r = Some (last cells.*1).
Proof.
  revert r fuel. induction cells as [|[p v] cells IH]; intros r fuel C F.
  - destruct fuel; [simpl in F; lia|]. simpl in C. now subst r.
  - destruct fuel; [simpl in F; lia|]. simpl in F.
    destruct C as (-> & nx & Hp & C). cbn [last_node]. rewrite Hp.
    cbn [LinkedQueue.next]. destruct cells as [|[p' v'] cells].
    + simpl in C. now subst nx.
    + pose proof C as (-> & _). rewrite (IH _ fuel C) by lia. reflexivity.
Qed.

(** X10. As long as [remove(size - 1)] is not called on a queue of two or
    more items, the queue stays consistent: iteration yields exactly
    [_size] items, [_rear] is the last node reachable from [_front], and
    the queue is empty exactly when [_front] is [None]. *)
Theorem queue_consistent (q : queue) :
  queue_reachable_safe q ->
  (exists l, iterate (S (LinkedQueue._size q)) q = Some (Ok l) /\
             length l = LinkedQueue._size q) /\
  last_node (LinkedQueue.store q) (S (LinkedQueue._size q))
            (LinkedQueue._front q) = Some (LinkedQueue._rear q) /\
  (AbstractCollection.isEmpty q = true <-> LinkedQueue._front q = None).
Proof.
  intros R. destruct (queue_reachable_safe_rep q R) as [cells Rc].
  pose proof Rc as (C & _ & Rr & Sz). split; [|split].
  - exists cells.*2. split; [|now rewrite length_fmap].
    apply queue_to_list_rep; [exact Rc | lia].
  - rewrite Rr. apply last_node_chain; [exact C | lia].
  - unfold AbstractCollection.isEmpty, AbstractCollection.__len__.
    cbn [AbstractCollection.get_size LinkedQueue.sized]. rewrite Sz.
    destruct cells as [|[p v] cells].
    + simpl in C. rewrite C. split; reflexivity.
    + destruct C as (-> & _). split; discriminate.
Qed.

(** X11. On a consistent queue, [remove(index)] with [0 <= index < size],
    other than the last index of two or more, returns the item iteration
    yields at position [index]; afterwards iteration yields the other items
    in the same order and the size is one less. *)
Theorem queue_remove_at (q : queue) (index : Z) :
  queue_reachable_safe q ->
  (0 <= index < Z.of_nat (LinkedQueue._size q))%Z ->
  queue_safe (QRemove index) q ->
  exists l v q',
    iterate (S (LinkedQueue._size q)) q = Some (Ok l) /\
    l !! Z.to_nat index = Some v /\
    LinkedQueue.remove index q = (Ok v, q') /\
    iterate (S (LinkedQueue._size q)) q'
      = Some (Ok (delete (Z.to_nat index) l)) /\
    S (LinkedQueue._size q') = LinkedQueue._size q.
Proof.
  intros R Hi Sf. destruct (queue_reachable_safe_rep q R) as [cells Rc].
  assert (Sz : LinkedQueue._size q = length cells) by apply Rc.
  cbn [queue_safe] in Sf. rewrite Sz in *.
  destruct (queue_remove_rep q cells (Z.to_nat index) Rc)
    as (v & q' & Hv & E & R'); [lia | lia |].
  rewrite Z2Nat.id in E by lia.
  assert (Ld : S (length (delete (Z.to_nat index) cells)) = length cells).
  { rewrite length_delete; [lia|]. apply lookup_lt_is_Some_2. lia. }
  exists cells.*2, v, q'. split; [|split; [exact Hv|split; [exact E|split]]].
  - apply queue_to_list_rep; [exact Rc | lia].
  - rewrite <- fmap_delete_snd. apply queue_to_list_rep; [exact R' | lia].
  - destruct R' as (_ & _ & _ & ->). exact Ld.
Qed.

(** X12. On a consistent queue, [remove(index)] returns an item for every
    [index] with [0 <= index < size]; for every other [index] it raises
    [AttributeError] and leaves the queue as it was. *)
Theorem queue_remove_range (q : queue) (index : Z) :
  queue_reachable_safe q ->
  ((0 <= index < Z.of_nat (LinkedQueue._size q))%Z ->
   exists v, outcome (LinkedQueue.remove index) q = Ok v) /\
  (~ (0 <= index < Z.of_nat (LinkedQueue._size q))%Z ->
   LinkedQueue.remove index q
   = (Raise (AttributeError "i must be >= 0 and < size of queue"), q)).
Proof.
  intros R. destruct (queue_reachable_safe_rep q R) as [cells Rc].
  assert (Sz : LinkedQueue._size q = length cells) by apply Rc.
  split.
  - intros Hi. rewrite Sz in Hi. unfold outcome.
    destruct (decide (Z.to_nat index = length cells - 1 /\ 2 <= length cells))
      as [[El L2]|Sf].
    + assert (D : exists c1 a u b w, cells = c1 ++ [(a, u); (b, w)]).
      { destruct cells as [|c cells _] using rev_ind; [simpl in L2; lia|].
        destruct cells as [|c' cells _] using rev_ind.
        - simpl in L2. lia.
        - destruct c as [b w], c' as [a u]. exists cells, a, u, b, w.
          now rewrite <- app_assoc. }
      destruct D as (c1 & a & u & b & w & ->).
      destruct (queue_remove_last_rear q c1 a u b w Rc) as (q' & E & _).
      replace (Z.of_nat (LinkedQueue._size q) - 1)%Z with index in E
        by (rewrite Sz; lia).
      rewrite E. eauto.
    + destruct (queue_remove_rep q cells (Z.to_nat index) Rc)
        as (v & q' & _ & E & _); [lia | lia |].
      rewrite Z2Nat.id in E by lia. rewrite E. eauto.
  - intros Hi. apply queue_remove_out_of_range. lia.
Qed.

(** X13. [clear()] makes a queue in any state empty and consistent again:
    [_front] and [_rear] are [None] and the size is 0, and adding
    [e1..en] and popping [n] times after it returns [e1, ..., en]. *)
Theorem queue_clear_resets (q : queue) (es : list (obj A)) :
  LinkedQueue._front (state_after LinkedQueue.clear q) = None /\
  LinkedQueue._rear (state_after LinkedQueue.clear q) = None /\
  LinkedQueue._size (state_after LinkedQueue.clear q) = 0 /\
  outcome (LinkedQueue.clear >> for_ es LinkedQueue.add >>
           repeat_ (length es) LinkedQueue.pop) q = Ok es.
Proof.
  repeat split. unfold outcome.
  erewrite bind_ok by apply queue_clear_eq.
  destruct (queue_adds_rep es _ [] (queue_clear_rep q))
    as (q1 & cells & E1 & R1 & L).
  unfold state_after in E1. rewrite queue_clear_eq in E1. cbn [snd] in E1.
  erewrite bind_ok by exact E1. rewrite app_nil_l in R1.
  destruct (queue_pops_rep cells q1 R1) as (q' & E & _).
  rewrite <- L, length_fmap, E. reflexivity.
Qed.

(** X14. [LinkedQueue(l)] built from a list [l] returns a queue of size
    [len(l)] whose iteration yields [l] in order, and popping [len(l)]
    times returns [l] in that order. *)
Theorem queue_of_list (l : list (obj A)) :
  let new := LinkedQueue.__init__ (Some (AbstractCollection.of_list l)) in
  fst new = Ok tt /\
  AbstractCollection.__len__ (snd new) = length l /\
  iterate (S (length l)) (snd new) = Some (Ok l) /\
  outcome (repeat_ (length l) LinkedQueue.pop) (snd new) = Ok l.
Proof.
  cbn zeta.
  destruct (queue_init_rep (Some (AbstractCollection.of_list l)))
    as (cells & E & R & L).
  assert (L' : cells.*2 = l) by (rewrite L; now destruct l).
  assert (Lc : length cells = length l) by now rewrite <- L', length_fmap.
  rewrite E at 1. split; [reflexivity|]. split; [|split].
  - unfold AbstractCollection.__len__.
    cbn [AbstractCollection.get_size LinkedQueue.sized].
    destruct R as (_ & _ & _ & ->). exact Lc.
  - replace (Some (Ok l)) with (Some (Ok cells.*2)) by now rewrite L'.
    apply queue_to_list_rep; [exact R | lia].
  - unfold outcome. destruct (queue_pops_rep cells _ R) as (q' & Ep & _).
    rewrite <- Lc, Ep, L'. reflexivity.
Qed.

(** X15. On a consistent queue, popping [size] times returns exactly the
    items iteration yields, in the same order, and empties the queue. *)
Theorem queue_pop_order_is_iteration_order (q : queue) :
  queue_reachable_safe q ->
  exists l q',
    iterate (S (LinkedQueue._size q)) q = Some (Ok l) /\
    repeat_ (LinkedQueue._size q) LinkedQueue.pop q = (Ok l, q') /\
    AbstractCollection.isEmpty q' = true.
Proof.
  intros R. destruct (queue_reachable_safe_rep q R) as [cells Rc].
  assert (Sz : LinkedQueue._size q = length cells) by apply Rc.
  destruct (queue_pops_rep cells q Rc) as (q' & E & R').
  exists cells.*2, q'. rewrite Sz. split; [|split; [exact E|]].
  - apply queue_to_list_rep; [exact Rc | lia].
  - apply queue_rep_nil in R' as (_ & _ & S0).
    unfold AbstractCollection.isEmpty, AbstractCollection.__len__.
    cbn [AbstractCollection.get_size LinkedQueue.sized]. now rewrite S0.
Qed.


(** X17. Whatever the states: [==] of a collection with itself is [True];
    a stack and a queue are never equal; two stacks, or two queues, of
    different sizes are never equal. None of these answers draws an item. *)
Theorem eq_without_iteration (s s' : LinkedStack.t A) (q q' : queue)
    (fuel : nat) :
  AbstractCollection.__eq__ fuel true s s = Some (Ok true) /\
  AbstractCollection.__eq__ fuel true q q = Some (Ok true) /\
  AbstractCollection.__eq__ fuel false s q = Some (Ok false) /\
  AbstractCollection.__eq__ fuel false q s = Some (Ok false) /\
  (LinkedStack._size s <> LinkedStack._size s' ->
   AbstractCollection.__eq__ fuel false s s' = Some (Ok false)) /\
  (LinkedQueue._size q <> LinkedQueue._size q' ->
   AbstractCollection.__eq__ fuel false q q' = Some (Ok false)).
Proof.
  repeat match goal with |- _ /\ _ => split end; try reflexivity.
  - intros N. unfold AbstractCollection.__eq__, AbstractCollection.__len__.
    cbn [AbstractCollection.get_size LinkedStack.sized].
    apply Nat.eqb_neq in N. rewrite N. cbn [negb].
    now rewrite orb_true_r.
  - intros N. unfold AbstractCollection.__eq__, AbstractCollection.__len__.
    cbn [AbstractCollection.get_size LinkedQueue.sized].
    apply Nat.eqb_neq in N. rewrite N. cbn [negb].
    now rewrite orb_true_r.
Qed.

End LinkedQueueMoreTheorems.

(** ** Concatenation *)

Section ConcatenationMore.

Context {A : Type} `{EqDecision A}.

Local Abbreviation stack := (LinkedStack.t A).
Local Abbreviation queue := (LinkedQueue.t A).

Lemma stack_copy_state (s : stack) :
  stack_wf s -> LinkedStack.__init__ (Some (LinkedStack.as_source s)) = (Ok tt, s).
Proof.
  intros W. unfold LinkedStack.__init__, AbstractCollection.__init__.
  set (s0 := LinkedStack.mk None 0 : stack).
  assert (E0 : modify (AbstractCollection.set_size 0) s0 = (Ok tt, s0))
    by reflexivity.
  erewrite bind_ok by exact E0.
  destruct s as [r n]. unfold stack_wf in W. simpl in W.
  unfold LinkedStack.as_source, AbstractCollection.__len__. simpl.
  destruct n as [|n].
  - simpl. f_equal. unfold s0. f_equal.
    apply chain_items_inj. symmetry. now apply nil_length_inv.
  - simpl. rewrite visitNodes_items. simpl.
    destruct (stack_pushes (rev (chain_items r)) s0) as (s' & E & Hi & Hn).
    change (for_ (rev (chain_items r)) LinkedStack.add s0)
      with (for_ (rev (chain_items r)) LinkedStack.push s0).
    rewrite E. f_equal. destruct s' as [r' n']. simpl in Hi, Hn.
    rewrite rev_involutive, app_nil_r in Hi. rewrite length_rev in Hn.
    f_equal; [now apply chain_items_inj | lia].
Qed.

(** X9. [s + other] for a reachable stack [s] and any iterable [other]
    returns a stack whose iteration yields the items of [s] followed by
    those of [other], and whose size is the sum of the two. *)
Theorem stack_concatenation (s : stack) (other : list (obj A)) :
  stack_reachable s ->
  let sum := __add__ LinkedStack.__init__ (LinkedStack.as_source s) other in
  fst sum = Ok tt /\
  LinkedStack.visitNodes (LinkedStack._items (snd sum)) []
  = LinkedStack.visitNodes (LinkedStack._items s) [] ++ other /\
  AbstractCollection.__len__ (snd sum)
  = AbstractCollection.__len__ s + length other.
Proof.
  intros R. pose proof (stack_reachable_wf s R) as W. cbn zeta.
  unfold __add__. rewrite (stack_copy_state s W).
  destruct (stack_pushes other s) as (s' & E & Hi & Hn).
  change (for_ other AbstractCollection.add s)
    with (for_ other LinkedStack.push s).
  rewrite E. cbn [fst snd]. split; [reflexivity|]. split.
  - rewrite !visitNodes_items, Hi, !app_nil_l, rev_app_distr, rev_involutive.
    reflexivity.
  - exact Hn.
Qed.

(** X18. [q + other] for a consistent queue [q] and any iterable [other]
    returns a queue whose iteration yields the items of [q] followed by
    those of [other], and whose size is the sum of the two. *)
Theorem queue_concatenation (q : queue) (other : list (obj A)) (fuel : nat) :
  queue_reachable_safe q -> LinkedQueue._size q < fuel ->
  exists l self sum,
    AbstractCollection.to_list fuel (LinkedQueue.__iter__ q) = Some (Ok l) /\
    queue_source fuel q = Some self /\
    __add__ LinkedQueue.__init__ self other = (Ok tt, sum) /\
    AbstractCollection.to_list (S (length (l ++ other)))
      (LinkedQueue.__iter__ sum) = Some (Ok (l ++ other)) /\
    AbstractCollection.__len__ sum
    = AbstractCollection.__len__ q + length other.
Proof.
  intros R F. destruct (queue_reachable_safe_rep q R) as [cells Rc].
  assert (Sz : LinkedQueue._size q = length cells) by apply Rc.
  assert (T : AbstractCollection.to_list fuel (LinkedQueue.__iter__ q)
              = Some (Ok cells.*2))
    by (apply queue_to_list_rep; [exact Rc | lia]).
  set (self := AbstractCollection.mkSource
                 (negb (Nat.eqb (AbstractCollection.__len__ q) 0)) cells.*2).
  destruct (queue_init_rep (Some self)) as (c0 & E0 & R0 & L0).
  assert (L0' : c0.*2 = cells.*2).
  { rewrite L0. subst self. cbn [AbstractCollection.truth
      AbstractCollection.items]. unfold AbstractCollection.__len__.
    cbn [AbstractCollection.get_size LinkedQueue.sized]. rewrite Sz.
    destruct cells; reflexivity. }
  destruct (queue_adds_rep other _ c0 R0) as (sum & c1 & E1 & R1 & L1).
  exists cells.*2, self, sum. split; [exact T|]. split; [|split; [|split]].
  - unfold queue_source. rewrite T. reflexivity.
  - unfold __add__. rewrite E0.
    change (for_ other AbstractCollection.add) with (for_ other LinkedQueue.add).
    exact E1.
  - replace (cells.*2 ++ other) with ((c0 ++ c1).*2)
      by (rewrite fmap_app, L0', L1; reflexivity).
    apply queue_to_list_rep; [exact R1|]. rewrite length_fmap. lia.
  - unfold AbstractCollection.__len__.
    cbn [AbstractCollection.get_size LinkedQueue.sized].
    destruct R1 as (_ & _ & _ & ->). rewrite Sz, length_app.
    rewrite <- (length_fmap snd c0), L0', length_fmap.
    rewrite <- (length_fmap snd c1), L1. reflexivity.
Qed.

End ConcatenationMore.

Section ArrayTheorems.

Context {B : Type}.

Local Abbreviation array := (Array.t B).

Lemma array_next_loop (l2 l1 : list (obj B)) :
  repeat_ (length l2) (Array.__next__ (Some <$> (l1 ++ l2))) (length l1)
  = (Ok l2, length l1 + length l2).
Proof.
  revert l1. induction l2 as [|x l2 IH]; intros l1.
  - simpl. now rewrite Nat.add_0_r.
  - cbn [repeat_ length].
    assert (E : Array.__next__ (Some <$> (l1 ++ x :: l2)) (length l1)
                = (Ok x, length l1 + 1)).
    { unfold Array.__next__. rewrite length_fmap, length_app.
      destruct (Nat.ltb_spec (length l1) (length l1 + length (x :: l2)));
        [|simpl in *; lia].
      unfold DynamicArray.array_get.
      rewrite index_nat by (rewrite length_fmap, length_app; simpl; lia).
      rewrite list_lookup_fmap, list_lookup_middle by reflexivity.
      reflexivity. }
    erewrite bind_ok by exact E.
    specialize (IH (l1 ++ [x])). rewrite <- app_assoc in IH.
    change ([x] ++ l2) with (x :: l2) in IH.
    rewrite length_app in IH. cbn [length] in IH.
    erewrite bind_ok by exact IH. unfold ret. f_equal. lia.
Qed.

(** X19. [Array(size)] raises [AssertionError] when [size <= 0]; otherwise
    it returns an array of length [size] whose every index holds [None]. *)
Theorem array_new (size : Z) :
  ((size <= 0)%Z /\
   Array.__init__ (B := B) size
   = Raises (AssertionError "Array size must be > 0")) \/
  ((0 < size)%Z /\
   exists a : array, Array.__init__ size = Returns a /\
     Z.of_nat (Array.__len__ a) = size /\
     array_items a = replicate (Z.to_nat size) (Returns PyNone)).
Proof.
  rewrite array_init_eq. destruct (Z.ltb_spec 0 size) as [P|P].
  - right. split; [exact P|]. eexists. split; [reflexivity|].
    split; [cbn; lia|].
    rewrite (array_items_rep _ (replicate (Z.to_nat size) PyNone)).
    + now rewrite fmap_replicate.
    + rewrite <- fmap_replicate. apply array_rep_intro; [|lia].
      apply length_replicate.
  - left. split; [exact P | reflexivity].
Qed.

(** X20. On a reachable array, [self[i] = v] with [0 <= i < len] returns;
    afterwards [self[i]] returns [v], every other index returns what it
    returned before, and the length is unchanged. *)
Theorem array_set_get (a : array) (i : Z) (v : obj B) :
  array_reachable a ->
  (0 <= i < Z.of_nat (Array.__len__ a))%Z ->
  exists a', Array.__setitem__ i v a = (Returns tt, a') /\
    Array.__len__ a' = Array.__len__ a /\
    Array.__getitem__ i a' = (Returns v, a') /\
    forall j, j <> i ->
      fst (Array.__getitem__ j a') = fst (Array.__getitem__ j a).
Proof.
  intros R Hi. destruct (array_reachable_rep a R) as [l Rl].
  rewrite (array_rep_eq a l Rl) in *. cbn [Array.__len__ Array._size] in Hi.
  set (n := Z.to_nat i). replace i with (Z.of_nat n) by lia.
  assert (Ln : n < length l) by lia.
  rewrite (array_setitem_in l n v Ln). eexists. split; [reflexivity|].
  split; [reflexivity|]. split.
  - apply array_getitem_in_n; [apply length_insert|].
    now apply list_lookup_insert_eq.
  - intros j Hj.
    destruct (decide (0 <= j < Z.of_nat (length l))%Z) as [Hr|Hr].
    + destruct (lookup_lt_is_Some_2 l (Z.to_nat j)) as [w Hw]; [lia|].
      replace j with (Z.of_nat (Z.to_nat j)) by lia.
      rewrite (array_getitem_in_n _ (<[n := v]> l) (Z.to_nat j) w).
      * now rewrite (array_getitem_in l (Z.to_nat j) w Hw).
      * apply length_insert.
      * rewrite list_lookup_insert_ne by lia. exact Hw.
    + rewrite !array_getitem_out; [reflexivity | exact Hr | exact Hr].
Qed.

(** X21. On a reachable array, [self[i]] returns an item for every [i] with
    [0 <= i < len]; for every other [i], negative ones included, [self[i]]
    and [self[i] = v] raise [AssertionError] and leave the array as it
    was. *)
Theorem array_subscript_bounds (a : array) (i : Z) :
  array_reachable a ->
  ((0 <= i < Z.of_nat (Array.__len__ a))%Z ->
   exists w, Array.__getitem__ i a = (Returns w, a)) /\
  (~ (0 <= i < Z.of_nat (Array.__len__ a))%Z ->
   Array.__getitem__ i a
   = (Raises (AssertionError "Array subscript out of range"), a) /\
   forall v, Array.__setitem__ i v a
             = (Raises (AssertionError "Array subscript out of range"), a)).
Proof.
  intros R. destruct (array_reachable_rep a R) as [l Rl]. split.
  - intros Hi. rewrite (array_rep_eq a l Rl) in *.
    cbn [Array.__len__ Array._size] in Hi.
    destruct (lookup_lt_is_Some_2 l (Z.to_nat i)) as [w Hw]; [lia|].
    exists w. replace i with (Z.of_nat (Z.to_nat i)) by lia.
    now apply array_getitem_in.
  - intros Hi. split; [now apply array_getitem_out|].
    intros v. now apply array_setitem_out.
Qed.

(** X22. On a reachable array, [clear(value)] returns; afterwards every
    index holds [value] and the length is unchanged. *)
Theorem array_clear_all (a : array) (value : obj B) :
  array_reachable a ->
  exists a', Array.clear value a = (Ok tt, a') /\
    Array.__len__ a' = Array.__len__ a /\
    array_items a' = replicate (Array.__len__ a) (Returns value).
Proof.
  intros R. destruct (array_reachable_rep a R) as [l Rl].
  pose proof Rl as (_ & _ & P).
  rewrite (array_rep_eq a l Rl) in *. cbn [Array._size] in P.
  rewrite array_clear_eq by apply length_fmap.
  eexists. split; [reflexivity|]. split; [reflexivity|].
  cbn [Array.__len__ Array._size].
  rewrite (array_items_rep _ (replicate (length l) value)).
  - now rewrite fmap_replicate.
  - rewrite <- fmap_replicate. apply array_rep_intro; [|exact P].
    apply length_replicate.
Qed.

(** X23. Iterating a reachable array that is not changed meanwhile: [len]
    calls of [__next__] on a new iterator return the items of indices
    [0 .. len - 1] in order, and the call after them raises
    [StopIteration]. *)
Theorem array_iteration (a : array) :
  array_reachable a ->
  exists l, array_items a = Returns <$> l /\
    repeat_ (Array.__len__ a) (Array.__next__ (Array._elements a))
            (Array.__iter__ a)
    = (Ok l, Array.__len__ a) /\
    Array.__next__ (Array._elements a) (Array.__len__ a)
    = (Raise StopIteration, Array.__len__ a).
Proof.
  intros R. destruct (array_reachable_rep a R) as [l Rl].
  exists l. split; [exact (array_items_rep a l Rl)|].
  rewrite (array_rep_eq a l Rl). cbn [Array.__len__ Array._size
    Array._elements Array.__iter__]. split.
  - exact (array_next_loop l []).
  - unfold Array.__next__. rewrite length_fmap.
    destruct (Nat.ltb_spec (length l) (length l)); [lia | reflexivity].
Qed.

End ArrayTheorems.

(** ** Stack *)

Section PlainStackProofs.

Context {A : Type}.

Local Abbreviation pstack := (Stack.t A).
Local Abbreviation pnode := (Stack._StackNode A).

Lemma plain_items_cons (i : obj A) (nx : option pnode) n :
  plain_stack_items (Stack.mk (Some (Stack.mkNode i nx)) n)
  = i :: plain_stack_items (Stack.mk nx (n - 1)).
Proof. reflexivity. Qed.

Lemma plain_top_ind (P : option pnode -> Prop) :
  P None ->
  (forall i nx, P nx -> P (Some (Stack.mkNode i nx))) ->
  forall r, P r.
Proof.
  intros HN HS.
  assert (HP : forall n, P (Some n)).
  { fix IH 1. intros [i [n'|]]; apply HS; [apply IH | exact HN]. }
  intros [n|]; [apply HP | exact HN].
Qed.

Lemma plain_items_inj (r1 r2 : option pnode) n1 n2 :
  plain_stack_items (Stack.mk r1 n1) = plain_stack_items (Stack.mk r2 n2) ->
  r1 = r2.
Proof.
  revert r2. induction r1 as [|i nx IH] using plain_top_ind; intros r2.
  - destruct r2 as [[i2 nx2]|]; [discriminate | reflexivity].
  - destruct r2 as [[i2 nx2]|]; [|discriminate].
    rewrite !plain_items_cons. intros E. injection E as -> E.
    now rewrite (IH _ E).
Qed.

Lemma plain_push_eq (x : obj A) (s : pstack) :
  Stack.push x s
  = (Returns tt, Stack.mk (Some (Stack.mkNode x (Stack._top s)))
                          (Stack._size s + 1)).
Proof. reflexivity. Qed.

Lemma plain_pop_node (i : obj A) (nx : option pnode) n :
  Stack.pop (Stack.mk (Some (Stack.mkNode i nx)) n)
  = (Returns i, Stack.mk nx (n - 1)).
Proof. reflexivity. Qed.

Lemma plain_pushes (l : list (obj A)) (s : pstack) :
  exists s', forN l Stack.push s = (Returns tt, s') /\
    plain_stack_items s' = rev l ++ plain_stack_items s /\
    Stack._size s' = (Stack._size s + Z.of_nat (length l))%Z.
Proof.
  revert s. induction l as [|x l IH]; intros s.
  - exists s. split; [reflexivity|]. split; [reflexivity | simpl; lia].
  - cbn [forN]. erewrite bindN_returns by apply plain_push_eq.
    destruct (IH (Stack.mk (Some (Stack.mkNode x (Stack._top s)))
                           (Stack._size s + 1))) as (s' & E & Hi & Hn).
    exists s'. split; [exact E|]. split.
    + rewrite Hi. destruct s as [r n]. unfold plain_stack_items.
      cbn [Stack._top rev plain_node_items]. fold (plain_stack_items (Stack.mk r n)).
      rewrite <- app_assoc. reflexivity.
    + rewrite Hn. cbn [Stack._size length]. lia.
Qed.

Lemma plain_pops (n : nat) (s : pstack) :
  n <= length (plain_stack_items s) ->
  exists s', repeatN n Stack.pop s
             = (Returns (take n (plain_stack_items s)), s') /\
    plain_stack_items s' = drop n (plain_stack_items s) /\
    Stack._size s' = (Stack._size s - Z.of_nat n)%Z.
Proof.
  revert s. induction n as [|n IH]; intros [r sz] Hn.
  - eexists. split; [reflexivity|]. split; [reflexivity | simpl; lia].
  - destruct r as [[i nx]|]; [|simpl in Hn; lia].
    rewrite plain_items_cons in Hn |- *. cbn [length] in Hn.
    cbn [repeatN]. erewrite bindN_returns by apply plain_pop_node.
    destruct (IH (Stack.mk nx (sz - 1))) as (s' & E & Hi & Hs); [lia|].
    exists s'. erewrite bindN_returns by exact E.
    split; [reflexivity|]. split; [exact Hi|].
    rewrite Hs. cbn [Stack._size]. lia.
Qed.

Lemma plain_reachable_size (s : pstack) :
  plain_stack_reachable s ->
  Stack._size s = Z.of_nat (length (plain_stack_items s)).
Proof.
  induction 1 as [|s o _ IH]; [reflexivity|].
  destruct s as [r n]. destruct o as [x | |]; cbn [plain_stack_run].
  - rewrite plain_push_eq. cbn [snd Stack._size Stack._top].
    unfold plain_stack_items in *. cbn [Stack._top Stack._size] in *.
    cbn [plain_node_items length]. lia.
  - unfold bindN. destruct r as [[i nx]|].
    + rewrite plain_pop_node. unfold retN. cbn [snd].
      rewrite plain_items_cons in IH. cbn [length Stack._size] in IH.
      cbn [Stack._size]. unfold plain_stack_items in *.
      cbn [Stack._top] in *. lia.
    + exact IH.
  - unfold bindN. destruct r as [[i nx]|]; exact IH.
Qed.

(** X24. Pushing [p1..pn] onto a new [Stack] and popping [n] times returns
    [pn, ..., p1], and leaves the stack as it was when new. *)
Theorem plain_stack_lifo (ps : list (obj A)) :
  (forN ps Stack.push >>+ repeatN (length ps) Stack.pop) Stack.__init__
  = (Returns (rev ps), Stack.__init__).
Proof.
  destruct (plain_pushes ps Stack.__init__) as (s1 & E1 & Hi & Hn).
  erewrite bindN_returns by exact E1.
  change (plain_stack_items Stack.__init__) with (@nil (obj A)) in Hi.
  rewrite app_nil_r in Hi.
  destruct (plain_pops (length ps) s1) as (s2 & E2 & Hi2 & Hs2).
  { rewrite Hi, length_rev. lia. }
  rewrite E2, Hi. rewrite Hi in Hi2.
  rewrite <- (length_rev ps) in Hi2 |- *. rewrite firstn_all.
  rewrite drop_all in Hi2. f_equal.
  destruct s2 as [r2 n2]. cbn [Stack._size] in Hs2, Hn.
  rewrite Hn in Hs2. unfold Stack.__init__. f_equal.
  - exact (plain_items_inj r2 None n2 0 Hi2).
  - change (Stack._size Stack.__init__) with 0%Z in Hs2.
    lia.
Qed.

(** X25. In every reachable [Stack], [len] is the number of nodes in the
    chain, and [is_empty()] holds exactly when [len] is 0. *)
Theorem plain_stack_invariant (s : pstack) :
  plain_stack_reachable s ->
  Stack.__len__ s = Z.of_nat (length (plain_stack_items s)) /\
  (Stack.is_empty s = true <-> Stack.__len__ s = 0%Z).
Proof.
  intros R. pose proof (plain_reachable_size s R) as Sz.
  split; [exact Sz|]. unfold Stack.__len__. rewrite Sz.
  destruct s as [[[i nx]|] n]; unfold Stack.is_empty; cbn [Stack._top].
  - rewrite plain_items_cons. cbn [length]. split; [discriminate | lia].
  - split; reflexivity.
Qed.

(** X26. In any state of a [Stack]: when [is_empty()] holds, [pop] and
    [peek] raise [AssertionError] and change nothing; otherwise [peek]
    returns the top item and changes nothing, and [pop] returns the same
    item and decrements the length; and [push(x)] followed by [pop()]
    returns [x] and restores the stack. *)
Theorem plain_stack_pop_peek (s : pstack) (x : obj A) :
  ((Stack.is_empty s = true /\
    Stack.pop s
    = (Raises (AssertionError "Cannot pop from an empty stack"), s) /\
    Stack.peek s
    = (Raises (AssertionError "Cannot peek at an empty stack"), s)) \/
   (Stack.is_empty s = false /\
    exists y s', Stack.peek s = (Returns y, s) /\
      Stack.pop s = (Returns y, s') /\
      Stack.__len__ s' = (Stack.__len__ s - 1)%Z /\
      plain_stack_items s = y :: plain_stack_items s')) /\
  (Stack.push x >>+ Stack.pop) s = (Returns x, s).
Proof.
  split.
  - destruct s as [[[i nx]|] n].
    + right. split; [reflexivity|]. exists i. eexists.
      split; [reflexivity|]. split; [apply plain_pop_node|].
      split; reflexivity.
    + left. repeat split.
  - erewrite bindN_returns by apply plain_push_eq.
    rewrite plain_pop_node. destruct s as [r n]. cbn [Stack._top Stack._size].
    do 2 f_equal. lia.
Qed.

End PlainStackProofs.

Section Array2DTheorems.

Context {B : Type}.

Local Abbreviation grid := (Array2D.t B).
Local Abbreviation mkG :=
  (fun n (l : list (obj (Array.t B))) =>
     Array2D.mk (Array.mk n (Some <$> l))).

Lemma array2d_dims (g : grid) nc rs nr' nc' :
  array2d_rep g nc rs ->
  fst (Array2D.num_rows g) = Returns nr' ->
  fst (Array2D.num_cols g) = Returns nc' ->
  nr' = length rs /\ nc' = nc.
Proof.
  intros R. pose proof R as (_ & Pr & _).
  rewrite (array2d_rep_eq g nc rs R), (grid_num_cols nc rs Pr).
  cbn. intros [= <-] [= <-]. split; reflexivity.
Qed.

Lemma grid_get_replicate nr nc (v : obj B) i j :
  (0 <= i < Z.of_nat nr)%Z -> (0 <= j < Z.of_nat nc)%Z ->
  Array2D.__getitem__ [i; j]
    (mkG nr (row_obj nc <$> replicate nr (replicate nc v)))
  = (Returns v, mkG nr (row_obj nc <$> replicate nr (replicate nc v))).
Proof.
  intros Hi Hj.
  pose proof (grid_getitem_in nc (replicate nr (replicate nc v))
                (Z.to_nat i) (Z.to_nat j) (replicate nc v) v) as G.
  rewrite length_replicate, !Z2Nat.id in G by lia. apply G.
  - apply Forall_replicate. apply length_replicate.
  - apply lookup_replicate_2. lia.
  - apply lookup_replicate_2. lia.
Qed.

(** X27. [Array2D(num_rows, num_cols)] raises [AssertionError] when either
    argument is not positive; otherwise it returns a grid with that many
    rows and columns in which every position holds [None]. *)
Theorem array2d_new (num_rows num_cols : Z) :
  ((num_rows <= 0 \/ num_cols <= 0)%Z /\
   Array2D.__init__ (B := B) num_rows num_cols
   = Raises (AssertionError "Array size must be > 0")) \/
  ((0 < num_rows /\ 0 < num_cols)%Z /\
   exists g : grid, Array2D.__init__ num_rows num_cols = Returns g /\
     Array2D.num_rows g = (Returns (Z.to_nat num_rows), g) /\
     Array2D.num_cols g = (Returns (Z.to_nat num_cols), g) /\
     forall i j, (0 <= i < num_rows)%Z -> (0 <= j < num_cols)%Z ->
       Array2D.__getitem__ [i; j] g = (Returns PyNone, g)).
Proof.
  rewrite array2d_init_eq.
  destruct (Z.ltb_spec 0 num_rows) as [Pr|Pr];
    [destruct (Z.ltb_spec 0 num_cols) as [Pc|Pc]|]; cbn [andb].
  - right. split; [lia|]. eexists. split; [reflexivity|].
    set (nr := Z.to_nat num_rows). set (nc := Z.to_nat num_cols).
    set (rs := replicate nr (replicate nc (@PyNone B))).
    assert (L : length rs = nr) by apply length_replicate.
    split; [reflexivity|]. split.
    + rewrite <- L. apply grid_num_cols. lia.
    + intros i j Hi Hj. apply grid_get_replicate; lia.
  - left. split; [lia | reflexivity].
  - left. split; [lia | reflexivity].
Qed.

(** X28. On a reachable grid with [nr] rows and [nc] columns,
    [self[i, j] = v] with [0 <= i < nr] and [0 <= j < nc] returns;
    afterwards [self[i, j]] returns [v], every other position returns what
    it returned before, and the numbers of rows and columns are
    unchanged. *)
Theorem array2d_set_get (g : grid) (nr nc : nat) (i j : Z) (v : obj B) :
  array2d_reachable g ->
  fst (Array2D.num_rows g) = Returns nr ->
  fst (Array2D.num_cols g) = Returns nc ->
  (0 <= i < Z.of_nat nr)%Z -> (0 <= j < Z.of_nat nc)%Z ->
  exists g', Array2D.__setitem__ [i; j] v g = (Returns tt, g') /\
    Array2D.__getitem__ [i; j] g' = (Returns v, g') /\
    (forall i' j', (i', j') <> (i, j) ->
       array2d_at g' i' j' = array2d_at g i' j') /\
    fst (Array2D.num_rows g') = Returns nr /\
    fst (Array2D.num_cols g') = Returns nc.
Proof.
  intros R Dr Dc Hi Hj.
  destruct (array2d_reachable_rep g R) as (nc0 & rs & Rg).
  destruct (array2d_dims g nc0 rs nr nc Rg Dr Dc) as [-> E]; subst nc0.
  pose proof Rg as (_ & Pr & Pc & F).
  rewrite (array2d_rep_eq g nc rs Rg).
  destruct (lookup_lt_is_Some_2 rs (Z.to_nat i)) as [r Hr]; [lia|].
  assert (Lr : length r = nc)
    by (rewrite Forall_lookup in F; exact (F _ r Hr)).
  set (a := Z.to_nat i) in *. set (b := Z.to_nat j).
  replace i with (Z.of_nat a) by lia. replace j with (Z.of_nat b) by lia.
  assert (Lb : b < length r) by lia.
  rewrite (grid_setitem_in nc rs a b r v F Hr Lb).
  set (rs' := <[a := <[b := v]> r]> rs).
  assert (L' : length rs' = length rs) by apply length_insert.
  assert (F' : Forall (fun r => length r = nc) rs').
  { apply Forall_insert; [exact F|]. now rewrite length_insert. }
  assert (Ha : rs' !! a = Some (<[b := v]> r)).
  { apply list_lookup_insert_eq. eapply lookup_lt_Some. exact Hr. }
  eexists. split; [reflexivity|]. rewrite <- L'.
  split; [|split; [|split]].
  - apply (grid_getitem_in nc rs' a b (<[b := v]> r) v F' Ha).
    now apply list_lookup_insert_eq.
  - intros i' j' Hne. unfold array2d_at.
    destruct (decide (0 <= i' < Z.of_nat (length rs)
                      /\ 0 <= j' < Z.of_nat nc)%Z) as [[Hi' Hj']|Ho].
    + assert (Ei : i' = Z.of_nat (Z.to_nat i')) by lia.
      assert (Ej : j' = Z.of_nat (Z.to_nat j')) by lia.
      destruct (lookup_lt_is_Some_2 rs (Z.to_nat i')) as [r0 Hr0]; [lia|].
      assert (Lr0 : length r0 = nc)
        by (rewrite Forall_lookup in F; exact (F _ r0 Hr0)).
      destruct (lookup_lt_is_Some_2 r0 (Z.to_nat j')) as [w Hw]; [lia|].
      rewrite Ei, Ej, L'.
      rewrite (grid_getitem_in nc rs _ _ r0 w F Hr0 Hw). rewrite <- L'.
      destruct (decide (Z.to_nat i' = a)) as [Ea|Na].
      * rewrite Ea in *. assert (r0 = r) by congruence. subst r0.
        rewrite (grid_getitem_in nc rs' a _ (<[b := v]> r) w F' Ha);
          [reflexivity|].
        rewrite list_lookup_insert_ne; [exact Hw|].
        intros Eb. apply Hne. rewrite Ei, Ej, <- Eb. reflexivity.
      * rewrite (grid_getitem_in nc rs' _ _ r0 w F');
          [reflexivity | | exact Hw].
        unfold rs'. rewrite list_lookup_insert_ne by lia. exact Hr0.
    + rewrite grid_getitem_out; [|lia|now rewrite L'].
      rewrite L'. rewrite grid_getitem_out; [reflexivity | lia | exact Ho].
  - cbn. now rewrite L'.
  - rewrite grid_num_cols by lia. reflexivity.
Qed.

(** X29. On a reachable grid with [nr] rows and [nc] columns, [self[i, j]]
    returns an item when [0 <= i < nr] and [0 <= j < nc]; for any other
    pair [self[i, j]] and [self[i, j] = v] raise [AssertionError], and so
    does a subscript that is not a pair; the grid is left as it was. *)
Theorem array2d_subscript_bounds (g : grid) (nr nc : nat) :
  array2d_reachable g ->
  fst (Array2D.num_rows g) = Returns nr ->
  fst (Array2D.num_cols g) = Returns nc ->
  (forall i j, (0 <= i < Z.of_nat nr)%Z -> (0 <= j < Z.of_nat nc)%Z ->
     exists w, Array2D.__getitem__ [i; j] g = (Returns w, g)) /\
  (forall i j v, ~ (0 <= i < Z.of_nat nr /\ 0 <= j < Z.of_nat nc)%Z ->
     Array2D.__getitem__ [i; j] g
     = (Raises (AssertionError "Array subscript out of range."), g) /\
     Array2D.__setitem__ [i; j] v g
     = (Raises (AssertionError "Array subscript out of range."), g)) /\
  (forall index_tuple v, length index_tuple <> 2 ->
     Array2D.__getitem__ index_tuple g
     = (Raises (AssertionError "Invalid number of array subscripts."), g) /\
     Array2D.__setitem__ index_tuple v g
     = (Raises (AssertionError "Invalid number of array subscripts."), g)).
Proof.
  intros R Dr Dc.
  destruct (array2d_reachable_rep g R) as (nc0 & rs & Rg).
  destruct (array2d_dims g nc0 rs nr nc Rg Dr Dc) as [-> E]; subst nc0.
  pose proof Rg as (_ & Pr & Pc & F).
  rewrite (array2d_rep_eq g nc rs Rg). split; [|split].
  - intros i j Hi Hj.
    destruct (lookup_lt_is_Some_2 rs (Z.to_nat i)) as [r Hr]; [lia|].
    assert (Lr : length r = nc)
      by (rewrite Forall_lookup in F; exact (F _ r Hr)).
    destruct (lookup_lt_is_Some_2 r (Z.to_nat j)) as [w Hw]; [lia|].
    exists w. replace i with (Z.of_nat (Z.to_nat i)) by lia.
    replace j with (Z.of_nat (Z.to_nat j)) by lia.
    exact (grid_getitem_in nc rs _ _ r w F Hr Hw).
  - intros i j v Ho. split.
    + now apply grid_getitem_out.
    + now apply grid_setitem_out.
  - intros ix v Hl.
    destruct ix as [|row [|col [|? ?]]]; try (split; reflexivity).
    simpl in Hl. lia.
Qed.

(** X30. On a reachable grid with [nr] rows and [nc] columns,
    [clear(value)] returns; afterwards every position holds [value] and
    the numbers of rows and columns are unchanged. *)
Theorem array2d_clear_all (g : grid) (nr nc : nat) (value : obj B) :
  array2d_reachable g ->
  fst (Array2D.num_rows g) = Returns nr ->
  fst (Array2D.num_cols g) = Returns nc ->
  exists g', Array2D.clear value g = (Returns tt, g') /\
    fst (Array2D.num_rows g') = Returns nr /\
    fst (Array2D.num_cols g') = Returns nc /\
    forall i j, (0 <= i < Z.of_nat nr)%Z -> (0 <= j < Z.of_nat nc)%Z ->
      Array2D.__getitem__ [i; j] g' = (Returns value, g').
Proof.
  intros R Dr Dc.
  destruct (array2d_reachable_rep g R) as (nc0 & rs & Rg).
  destruct (array2d_dims g nc0 rs nr nc Rg Dr Dc) as [-> E]; subst nc0.
  pose proof Rg as (_ & Pr & Pc & F).
  rewrite (array2d_rep_eq g nc rs Rg).
  rewrite (array2d_clear_eq nc value rs F).
  eexists. split; [reflexivity|]. split; [reflexivity|]. split.
  - pose proof (grid_num_cols nc
                  (replicate (length rs) (replicate nc value))) as G.
    rewrite length_replicate in G. now rewrite G.
  - intros i j Hi Hj. now apply grid_get_replicate.
Qed.

End Array2DTheorems.

(** * Instances of the further properties on the sample objects *)

Lemma stack_123_reachable : stack_reachable stack_123.
Proof. apply stack_reach_new. Qed.


Lemma queue_12_safe : queue_reachable_safe queue_12.
Proof.
  unfold queue_12.
  apply (queue_safe_step _ (QAdd _)); [|exact I].
  apply (queue_safe_step _ (QAdd _)); [|exact I].
  apply queue_safe_new.
Qed.


Lemma array_3_reachable : array_reachable array_3.
Proof.
  unfold array_3. apply array_reach_step.
  apply (array_reach_new 3). reflexivity.
Qed.

Lemma grid_23_reachable : array2d_reachable grid_23.
Proof.
  unfold grid_23. apply array2d_reach_step.
  apply (array2d_reach_new 2 3). reflexivity.
Qed.

Lemma plain_12_reachable : plain_stack_reachable plain_12.
Proof.
  unfold plain_12. do 2 apply plain_stack_step. apply plain_stack_new.
Qed.

Lemma da_append_last_witness :
  da_reachable da_123 /\
  exists s', DynamicArray.append (PyVal 4%Z) da_123 = (Ok tt, s') /\
    DynamicArray.__len__ s' = DynamicArray.__len__ da_123 + 1 /\
    da_items s' = da_items da_123 ++ [Ok (PyVal 4%Z)].
Proof.
  split; [exact da_123_reachable|].
  apply (da_append_last da_123 (PyVal 4%Z) da_123_reachable).
Defined.

Lemma da_getitem_bounds_witness :
  da_reachable da_123 /\
  state_after (DynamicArray.__getitem__ 1) da_123 = da_123 /\
  ((0 <= 1 < Z.of_nat (DynamicArray.__len__ da_123))%Z ->
   exists v, outcome (DynamicArray.__getitem__ 1) da_123 = Ok v) /\
  (~ (0 <= 1 < Z.of_nat (DynamicArray.__len__ da_123))%Z ->
   outcome (DynamicArray.__getitem__ 1) da_123
   = Raise (IndexError "invalid index")).
Proof.
  split; [exact da_123_reachable|].
  apply (da_getitem_bounds da_123 1 da_123_reachable).
Defined.

Lemma da_insert_remove_witness :
  da_reachable da_123 /\
  (0 <= 1 <= Z.of_nat (DynamicArray.__len__ da_123))%Z /\
  py_eq (PyVal 9%Z) (PyVal 9%Z) = true /\
  (forall i w, (0 <= i < 1)%Z ->
     outcome (DynamicArray.__getitem__ i) da_123 = Ok w ->
     py_eq w (PyVal 9%Z) = false) /\
  exists s1 s2,
    DynamicArray.insert 1 (PyVal 9%Z) da_123 = (Ok tt, s1) /\
    DynamicArray.remove (PyVal 9%Z) s1 = (Ok tt, s2) /\
    da_items s2 = da_items da_123 /\
    DynamicArray.__len__ s2 = DynamicArray.__len__ da_123.
Proof.
  assert (H : (0 <= 1 <= Z.of_nat (DynamicArray.__len__ da_123))%Z)
    by (vm_compute; split; discriminate).
  assert (E : py_eq (PyVal 9%Z) (PyVal 9%Z) = true) by reflexivity.
  assert (N : forall i w, (0 <= i < 1)%Z ->
            outcome (DynamicArray.__getitem__ i) da_123 = Ok w ->
            py_eq w (PyVal 9%Z) = false).
  { intros i w Hi. replace i with 0%Z by lia. vm_compute.
    intros [= <-]. reflexivity. }
  split; [exact da_123_reachable|]. split; [exact H|]. split; [exact E|].
  split; [exact N|].
  apply (da_insert_remove da_123 1 (PyVal 9%Z) da_123_reachable H E N).
Defined.

Lemma da_capacity_power_of_two_witness :
  da_reachable da_123 /\
  length (DynamicArray._A da_123) = DynamicArray._capacity da_123 /\
  exists j, DynamicArray._capacity da_123 = 2 ^ j.
Proof.
  split; [exact da_123_reachable|].
  apply (da_capacity_power_of_two da_123 da_123_reachable).
Defined.

Lemma da_insert_past_capacity_witness :
  da_reachable da_123 /\
  let c' := if Nat.eqb (DynamicArray._n da_123) (DynamicArray._capacity da_123)
            then 2 * DynamicArray._capacity da_123
            else DynamicArray._capacity da_123 in
  (Z.of_nat c' <= 2 ^ 70)%Z /\
  outcome (DynamicArray.insert (2 ^ 70) (PyVal 9%Z)) da_123
  = Raise (IndexError "cannot fit 'int' into an index-sized integer") /\
  let s' := state_after (DynamicArray.insert (2 ^ 70) (PyVal 9%Z)) da_123 in
  da_items s' = da_items da_123 /\
  DynamicArray.__len__ s' = DynamicArray.__len__ da_123 /\
  DynamicArray._capacity s' = c'.
Proof.
  split; [exact da_123_reachable|]. cbv zeta.
  assert (H : (Z.of_nat
                 (if Nat.eqb (DynamicArray._n da_123)
                             (DynamicArray._capacity da_123)
                  then 2 * DynamicArray._capacity da_123
                  else DynamicArray._capacity da_123) <= 2 ^ 70)%Z)
    by (vm_compute; discriminate).
  split; [exact H|].
  apply (da_insert_past_capacity da_123 (2 ^ 70) (PyVal 9%Z)
           da_123_reachable H).
Defined.

Lemma stack_size_invariant_witness :
  stack_reachable stack_123 /\
  AbstractCollection.__len__ stack_123
  = length (LinkedStack.visitNodes (LinkedStack._items stack_123) []) /\
  (AbstractCollection.isEmpty stack_123 = true
   <-> LinkedStack._items stack_123 = None).
Proof.
  split; [exact stack_123_reachable|].
  apply (stack_size_invariant stack_123 stack_123_reachable).
Defined.


Lemma stack_concatenation_witness :
  stack_reachable stack_123 /\
  let sum := __add__ LinkedStack.__init__ (LinkedStack.as_source stack_123)
               [PyVal 4%Z] in
  fst sum = Ok tt /\
  LinkedStack.visitNodes (LinkedStack._items (snd sum)) []
  = LinkedStack.visitNodes (LinkedStack._items stack_123) [] ++ [PyVal 4%Z] /\
  AbstractCollection.__len__ (snd sum)
  = AbstractCollection.__len__ stack_123 + length [PyVal 4%Z].
Proof.
  split; [exact stack_123_reachable|].
  apply (stack_concatenation stack_123 [PyVal 4%Z] stack_123_reachable).
Defined.

Lemma queue_consistent_witness :
  queue_reachable_safe queue_12 /\
  (exists l,
     AbstractCollection.to_list (S (LinkedQueue._size queue_12))
       (LinkedQueue.__iter__ queue_12) = Some (Ok l) /\
     length l = LinkedQueue._size queue_12) /\
  last_node (LinkedQueue.store queue_12) (S (LinkedQueue._size queue_12))
            (LinkedQueue._front queue_12)
  = Some (LinkedQueue._rear queue_12) /\
  (AbstractCollection.isEmpty queue_12 = true
   <-> LinkedQueue._front queue_12 = None).
Proof.
  split; [exact queue_12_safe|].
  apply (queue_consistent queue_12 queue_12_safe).
Defined.

Lemma queue_remove_at_witness :
  queue_reachable_safe queue_12 /\
  (0 <= 0 < Z.of_nat (LinkedQueue._size queue_12))%Z /\
  queue_safe (QRemove 0) queue_12 /\
  exists l v q',
    AbstractCollection.to_list (S (LinkedQueue._size queue_12))
      (LinkedQueue.__iter__ queue_12) = Some (Ok l) /\
    l !! Z.to_nat 0 = Some v /\
    LinkedQueue.remove 0 queue_12 = (Ok v, q') /\
    AbstractCollection.to_list (S (LinkedQueue._size queue_12))
      (LinkedQueue.__iter__ q') = Some (Ok (delete (Z.to_nat 0) l)) /\
    S (LinkedQueue._size q') = LinkedQueue._size queue_12.
Proof.
  assert (H : (0 <= 0 < Z.of_nat (LinkedQueue._size queue_12))%Z)
    by (vm_compute; split; [discriminate | reflexivity]).
  assert (Q : queue_safe (QRemove 0) queue_12)
    by (vm_compute; intros [E _]; discriminate E).
  split; [exact queue_12_safe|]. split; [exact H|]. split; [exact Q|].
  apply (queue_remove_at queue_12 0 queue_12_safe H Q).
Defined.

Lemma queue_remove_range_witness :
  queue_reachable_safe queue_12 /\
  ((0 <= 5 < Z.of_nat (LinkedQueue._size queue_12))%Z ->
   exists v, outcome (LinkedQueue.remove 5) queue_12 = Ok v) /\
  (~ (0 <= 5 < Z.of_nat (LinkedQueue._size queue_12))%Z ->
   LinkedQueue.remove 5 queue_12
   = (Raise (AttributeError "i must be >= 0 and < size of queue"),
      queue_12)).
Proof.
  split; [exact queue_12_safe|].
  apply (queue_remove_range queue_12 5 queue_12_safe).
Defined.

Lemma queue_pop_order_is_iteration_order_witness :
  queue_reachable_safe queue_12 /\
  exists l q',
    AbstractCollection.to_list (S (LinkedQueue._size queue_12))
      (LinkedQueue.__iter__ queue_12) = Some (Ok l) /\
    repeat_ (LinkedQueue._size queue_12) LinkedQueue.pop queue_12
    = (Ok l, q') /\
    AbstractCollection.isEmpty q' = true.
Proof.
  split; [exact queue_12_safe|].
  apply (queue_pop_order_is_iteration_order queue_12 queue_12_safe).
Defined.


Lemma queue_concatenation_witness :
  queue_reachable_safe queue_12 /\ LinkedQueue._size queue_12 < 3 /\
  exists l self sum,
    AbstractCollection.to_list 3 (LinkedQueue.__iter__ queue_12)
    = Some (Ok l) /\
    queue_source 3 queue_12 = Some self /\
    __add__ LinkedQueue.__init__ self [PyVal 3%Z] = (Ok tt, sum) /\
    AbstractCollection.to_list (S (length (l ++ [PyVal 3%Z])))
      (LinkedQueue.__iter__ sum) = Some (Ok (l ++ [PyVal 3%Z])) /\
    AbstractCollection.__len__ sum
    = AbstractCollection.__len__ queue_12 + length [PyVal 3%Z].
Proof.
  assert (F : LinkedQueue._size queue_12 < 3) by (vm_compute; lia).
  split; [exact queue_12_safe|]. split; [exact F|].
  apply (queue_concatenation queue_12 [PyVal 3%Z] 3 queue_12_safe F).
Defined.

Lemma array_set_get_witness :
  array_reachable array_3 /\
  (0 <= 2 < Z.of_nat (Array.__len__ array_3))%Z /\
  exists a', Array.__setitem__ 2 (PyVal 9%Z) array_3 = (Returns tt, a') /\
    Array.__len__ a' = Array.__len__ array_3 /\
    Array.__getitem__ 2 a' = (Returns (PyVal 9%Z), a') /\
    forall j, j <> 2%Z ->
      fst (Array.__getitem__ j a') = fst (Array.__getitem__ j array_3).
Proof.
  assert (H : (0 <= 2 < Z.of_nat (Array.__len__ array_3))%Z)
    by (vm_compute; split; [discriminate | reflexivity]).
  split; [exact array_3_reachable|]. split; [exact H|].
  apply (array_set_get array_3 2 (PyVal 9%Z) array_3_reachable H).
Defined.

Lemma array_subscript_bounds_witness :
  array_reachable array_3 /\
  ((0 <= -1 < Z.of_nat (Array.__len__ array_3))%Z ->
   exists w, Array.__getitem__ (-1) array_3 = (Returns w, array_3)) /\
  (~ (0 <= -1 < Z.of_nat (Array.__len__ array_3))%Z ->
   Array.__getitem__ (-1) array_3
   = (Raises (AssertionError "Array subscript out of range"), array_3) /\
   forall v, Array.__setitem__ (-1) v array_3
             = (Raises (AssertionError "Array subscript out of range"),
                array_3)).
Proof.
  split; [exact array_3_reachable|].
  apply (array_subscript_bounds array_3 (-1) array_3_reachable).
Defined.

Lemma array_clear_all_witness :
  array_reachable array_3 /\
  exists a', Array.clear (PyVal 0%Z) array_3 = (Ok tt, a') /\
    Array.__len__ a' = Array.__len__ array_3 /\
    array_items a'
    = replicate (Array.__len__ array_3) (Returns (PyVal 0%Z)).
Proof.
  split; [exact array_3_reachable|].
  apply (array_clear_all array_3 (PyVal 0%Z) array_3_reachable).
Defined.

Lemma array_iteration_witness :
  array_reachable array_3 /\
  exists l, array_items array_3 = Returns <$> l /\
    repeat_ (Array.__len__ array_3) (Array.__next__ (Array._elements array_3))
            (Array.__iter__ array_3)
    = (Ok l, Array.__len__ array_3) /\
    Array.__next__ (Array._elements array_3) (Array.__len__ array_3)
    = (Raise StopIteration, Array.__len__ array_3).
Proof.
  split; [exact array_3_reachable|].
  apply (array_iteration array_3 array_3_reachable).
Defined.

Lemma plain_stack_invariant_witness :
  plain_stack_reachable plain_12 /\
  Stack.__len__ plain_12 = Z.of_nat (length (plain_stack_items plain_12)) /\
  (Stack.is_empty plain_12 = true <-> Stack.__len__ plain_12 = 0%Z).
Proof.
  split; [exact plain_12_reachable|].
  apply (plain_stack_invariant plain_12 plain_12_reachable).
Defined.

Lemma array2d_set_get_witness :
  array2d_reachable grid_23 /\
  fst (Array2D.num_rows grid_23) = Returns 2 /\
  fst (Array2D.num_cols grid_23) = Returns 3 /\
  (0 <= 0 < Z.of_nat 2)%Z /\ (0 <= 1 < Z.of_nat 3)%Z /\
  exists g',
    Array2D.__setitem__ [0; 1]%Z (PyVal 8%Z) grid_23 = (Returns tt, g') /\
    Array2D.__getitem__ [0; 1]%Z g' = (Returns (PyVal 8%Z), g') /\
    (forall i' j', (i', j') <> (0, 1)%Z ->
       array2d_at g' i' j' = array2d_at grid_23 i' j') /\
    fst (Array2D.num_rows g') = Returns 2 /\
    fst (Array2D.num_cols g') = Returns 3.
Proof.
  assert (Dr : fst (Array2D.num_rows grid_23) = Returns 2) by reflexivity.
  assert (Dc : fst (Array2D.num_cols grid_23) = Returns 3) by reflexivity.
  assert (Hi : (0 <= 0 < Z.of_nat 2)%Z) by (simpl; lia).
  assert (Hj : (0 <= 1 < Z.of_nat 3)%Z) by (simpl; lia).
  split; [exact grid_23_reachable|]. split; [exact Dr|]. split; [exact Dc|].
  split; [exact Hi|]. split; [exact Hj|].
  apply (array2d_set_get grid_23 2 3 0 1 (PyVal 8%Z)
           grid_23_reachable Dr Dc Hi Hj).
Defined.

Lemma array2d_subscript_bounds_witness :
  array2d_reachable grid_23 /\
  fst (Array2D.num_rows grid_23) = Returns 2 /\
  fst (Array2D.num_cols grid_23) = Returns 3 /\
  (forall i j, (0 <= i < Z.of_nat 2)%Z -> (0 <= j < Z.of_nat 3)%Z ->
     exists w, Array2D.__getitem__ [i; j] grid_23 = (Returns w, grid_23)) /\
  (forall i j v, ~ (0 <= i < Z.of_nat 2 /\ 0 <= j < Z.of_nat 3)%Z ->
     Array2D.__getitem__ [i; j] grid_23
     = (Raises (AssertionError "Array subscript out of range."), grid_23) /\
     Array2D.__setitem__ [i; j] v grid_23
     = (Raises (AssertionError "Array subscript out of range."), grid_23)) /\
  (forall index_tuple v, length index_tuple <> 2 ->
     Array2D.__getitem__ index_tuple grid_23
     = (Raises (AssertionError "Invalid number of array subscripts."),
        grid_23) /\
     Array2D.__setitem__ index_tuple v grid_23
     = (Raises (AssertionError "Invalid number of array subscripts."),
        grid_23)).
Proof.
  assert (Dr : fst (Array2D.num_rows grid_23) = Returns 2) by reflexivity.
  assert (Dc : fst (Array2D.num_cols grid_23) = Returns 3) by reflexivity.
  split; [exact grid_23_reachable|]. split; [exact Dr|]. split; [exact Dc|].
  apply (array2d_subscript_bounds grid_23 2 3 grid_23_reachable Dr Dc).
Defined.

Lemma array2d_clear_all_witness :
  array2d_reachable grid_23 /\
  fst (Array2D.num_rows grid_23) = Returns 2 /\
  fst (Array2D.num_cols grid_23) = Returns 3 /\
  exists g', Array2D.clear (PyVal 0%Z) grid_23 = (Returns tt, g') /\
    fst (Array2D.num_rows g') = Returns 2 /\
    fst (Array2D.num_cols g') = Returns 3 /\
    forall i j, (0 <= i < Z.of_nat 2)%Z -> (0 <= j < Z.of_nat 3)%Z ->
      Array2D.__getitem__ [i; j] g' = (Returns (PyVal 0%Z), g').
Proof.
  assert (Dr : fst (Array2D.num_rows grid_23) = Returns 2) by reflexivity.
  assert (Dc : fst (Array2D.num_cols grid_23) = Returns 3) by reflexivity.
  split; [exact grid_23_reachable|]. split; [exact Dr|]. split; [exact Dc|].
  apply (array2d_clear_all grid_23 2 3 (PyVal 0%Z) grid_23_reachable Dr Dc).
Defined.
